(** * The Ironbeam broker client: a shallow embedding and its properties

    Source: [app/services/ironbeam_client.py], class [IronbeamClient].

    The client object is a record; every method is a function from the
    record to the record.  A coroutine that suspends on a future
    ([send_with_response] and its callers) is cut at the suspension point
    into a [_start] and a [_finish] half, so that other coroutines can be
    interleaved between the two.  Everything the client does to the outside
    (log records, frames written, sleeps, tasks spawned, handler calls) is
    appended to [trace]; everything the outside decides (whether a socket
    opens, whether a write succeeds, what the clock shows, how a frame
    decodes) is read from an environment [Env], indexed by the number [io]
    of environment calls made so far. *)

From Stdlib Require Import ZArith String Ascii List.
From stdpp Require Import base gmap sets list strings pretty.

Open Scope string_scope.
Open Scope nat_scope.
Open Scope list_scope.
Set Warnings "-register-all".

(** ** Values exchanged with the broker *)

(** Decoded JSON.  [JNull] is Python's [None]; numbers are kept as integers
    (the client never looks inside a numeric field). *)
Inductive json :=
| JNull
| JBool (b : bool)
| JNum (z : Z)
| JStr (s : string)
| JArr (items : list json)
| JObj (fields : list (string * json)).

(** [d[k]] of a Python dict, as an option. *)
Fixpoint dict_lookup (k : string) (fields : list (string * json)) : option json :=
  match fields with
  | [] => None
  | (k', v) :: rest => if String.eqb k k' then Some v else dict_lookup k rest
  end.

(** [d.get(k)] and [d.get(k, dflt)]. *)
Definition dict_get (k : string) (fields : list (string * json)) : json :=
  default JNull (dict_lookup k fields).

Definition dict_get_default (k : string) (dflt : json)
    (fields : list (string * json)) : json :=
  default dflt (dict_lookup k fields).

(** Python truthiness, as used by [if request_id and ...]. *)
Definition truthy (j : json) : bool :=
  match j with
  | JNull => false
  | JBool b => b
  | JNum z => negb (Z.eqb z 0)
  | JStr s => negb (String.eqb s "")
  | JArr l => negb (bool_decide (length l = 0))
  | JObj l => negb (bool_decide (length l = 0))
  end.

(** ** Exceptions

    Only subclasses of [Exception]: these are what [except Exception]
    catches.  Task cancellation ([asyncio.CancelledError], a
    [BaseException]) is an outcome of its own, see [Result]. *)
Inductive exn :=
| Exception (msg : string)
| TimeoutError
| InvalidStateError (msg : string)
| ConnectionClosed (msg : string)
| JSONDecodeError (msg : string)
| AttributeError (msg : string)
| TypeError (msg : string)
| OtherError (cls msg : string).

(** [str(e)]. *)
Definition exn_str (e : exn) : string :=
  match e with
  | Exception m | InvalidStateError m | ConnectionClosed m
  | JSONDecodeError m | AttributeError m | TypeError m | OtherError _ m => m
  | TimeoutError => ""
  end.

(** What a coroutine hands to its caller. *)
Inductive Result (A : Type) :=
| Return (a : A)
| Raise (e : exn)
| Cancelled.
Arguments Return {A} a.
Arguments Raise {A} e.
Arguments Cancelled {A}.

(** ** asyncio.Future *)

Inductive FutureState :=
| FPending
| FResult (data : json)
| FException (e : exn)
| FCancelled.

Definition done (f : FutureState) : bool :=
  match f with FPending => false | _ => true end.

(** [Future.set_result] and [Future.set_exception] raise
    [InvalidStateError] on a future that is already done;
    [Future.cancel] leaves a done future as it is. *)
Definition set_result (f : FutureState) (data : json) : exn + FutureState :=
  if done f then inl (InvalidStateError "invalid state") else inr (FResult data).

Definition set_exception (f : FutureState) (e : exn) : exn + FutureState :=
  if done f then inl (InvalidStateError "invalid state") else inr (FException e).

Definition cancel (f : FutureState) : FutureState :=
  if done f then f else FCancelled.

(** ** Observable effects *)

Inductive LogLevel := DEBUG | INFO | WARNING | ERROR.

(** The values interpolated into a log line. *)
Inductive LogArg :=
| AStr (s : string)
| ANat (n : nat)
| AExn (e : exn)
| AJson (j : json).

Inductive EventKind := MarketData | OrderUpdate | PositionUpdate.

Inductive Event :=
| Log (lvl : LogLevel) (fmt : string) (args : list LogArg)
| Sent (sock : nat) (message : json)
| Closed (sock : nat)
| Sleep (seconds : nat)
| SpawnListen
| Invoked (kind : EventKind) (payload : json).

(** An event callback: [None] when the awaited call returns, [Some e] when
    it raises [e]. *)
Definition Handler : Type := json -> option exn.

(** ** The environment *)

Record Env := {
  json_loads : string -> option json;   (* None: json.JSONDecodeError *)
  ws_connect : nat -> exn + nat;        (* websockets.connect(...) *)
  ws_send : nat -> option exn;          (* await ws.send(...) *)
  ws_close : nat -> option exn;         (* await ws.close() *)
  clock_ms : nat -> Z;                  (* int(datetime.now().timestamp() * 1000) *)
  utcnow_iso : nat -> string            (* datetime.utcnow().isoformat() *)
}.

(** ** The client object *)

Record IronbeamClient := {
  api_key : string;
  api_secret : string;
  base_url : string;
  ws : option nat;
  connected : bool;
  subscriptions : gset string;
  reconnect_attempts : nat;
  max_reconnect_attempts : nat;
  pending_requests : gmap string nat;   (* request id -> future object *)
  request_id : nat;
  on_market_data : option Handler;
  on_order_update : option Handler;
  on_position_update : option Handler;
  futures : list FutureState;           (* the future objects, by reference *)
  trace : list Event;
  io : nat
}.

(** [__init__]. *)
Definition init (key secret url : string)
    (h_md h_ou h_pu : option Handler) : IronbeamClient :=
  {| api_key := key; api_secret := secret; base_url := url;
     ws := None; connected := false; subscriptions := ∅;
     reconnect_attempts := 0; max_reconnect_attempts := 10;
     pending_requests := ∅; request_id := 0;
     on_market_data := h_md; on_order_update := h_ou;
     on_position_update := h_pu;
     futures := []; trace := []; io := 0 |}.

(** Field assignment. *)
Definition rebuild (c : IronbeamClient) (w : option nat) (cn : bool)
    (subs : gset string) (att : nat) (pend : gmap string nat) (rid : nat)
    (futs : list FutureState) (tr : list Event) (k : nat) : IronbeamClient :=
  {| api_key := api_key c; api_secret := api_secret c; base_url := base_url c;
     ws := w; connected := cn; subscriptions := subs;
     reconnect_attempts := att;
     max_reconnect_attempts := max_reconnect_attempts c;
     pending_requests := pend; request_id := rid;
     on_market_data := on_market_data c;
     on_order_update := on_order_update c;
     on_position_update := on_position_update c;
     futures := futs; trace := tr; io := k |}.

Definition set_ws (w : option nat) (c : IronbeamClient) :=
  rebuild c w (connected c) (subscriptions c) (reconnect_attempts c)
    (pending_requests c) (request_id c) (futures c) (trace c) (io c).
Definition set_connected (b : bool) (c : IronbeamClient) :=
  rebuild c (ws c) b (subscriptions c) (reconnect_attempts c)
    (pending_requests c) (request_id c) (futures c) (trace c) (io c).
Definition set_subscriptions (s : gset string) (c : IronbeamClient) :=
  rebuild c (ws c) (connected c) s (reconnect_attempts c)
    (pending_requests c) (request_id c) (futures c) (trace c) (io c).
Definition set_reconnect_attempts (n : nat) (c : IronbeamClient) :=
  rebuild c (ws c) (connected c) (subscriptions c) n
    (pending_requests c) (request_id c) (futures c) (trace c) (io c).
Definition set_pending_requests (p : gmap string nat) (c : IronbeamClient) :=
  rebuild c (ws c) (connected c) (subscriptions c) (reconnect_attempts c)
    p (request_id c) (futures c) (trace c) (io c).
Definition set_request_id (n : nat) (c : IronbeamClient) :=
  rebuild c (ws c) (connected c) (subscriptions c) (reconnect_attempts c)
    (pending_requests c) n (futures c) (trace c) (io c).
Definition set_futures (fs : list FutureState) (c : IronbeamClient) :=
  rebuild c (ws c) (connected c) (subscriptions c) (reconnect_attempts c)
    (pending_requests c) (request_id c) fs (trace c) (io c).
Definition emit (ev : Event) (c : IronbeamClient) :=
  rebuild c (ws c) (connected c) (subscriptions c) (reconnect_attempts c)
    (pending_requests c) (request_id c) (futures c) (trace c ++ [ev]) (io c).
Definition tick (c : IronbeamClient) :=
  rebuild c (ws c) (connected c) (subscriptions c) (reconnect_attempts c)
    (pending_requests c) (request_id c) (futures c) (trace c) (S (io c)).

Definition log (lvl : LogLevel) (fmt : string) (args : list LogArg)
    (c : IronbeamClient) : IronbeamClient :=
  emit (Log lvl fmt args) c.

(** ** Methods that do not suspend on a future *)

Section Client.

Variable E : Env.

(** [is_connected]. *)
Definition is_connected (c : IronbeamClient) : bool :=
  connected c && bool_decide (is_Some (ws c)).

(** [send]: refuses unless connected; a failing write is logged, clears
    [connected] and is re-raised. *)
Definition send (c : IronbeamClient) (message : json)
    : IronbeamClient * option exn :=
  if negb (is_connected c) then (c, Some (Exception "WebSocket not connected"))
  else
    let written :=
      match ws c with
      | Some sock =>
          match ws_send E (io c) with
          | None => inr sock
          | Some e => inl e
          end
      | None => inl (AttributeError "'NoneType' object has no attribute 'send'")
      end in
    match written with
    | inr sock =>
        let action :=
          match message with
          | JObj fields => dict_get_default "action" (JStr "unknown") fields
          | _ => JStr "unknown"
          end in
        (log DEBUG "Sent message: {}" [AJson action]
           (emit (Sent sock message) (tick c)), None)
    | inl e =>
        (set_connected false
           (log ERROR "Failed to send message: {}" [AExn e] (tick c)), Some e)
    end.

(** [authenticate]. *)
Definition authenticate (c : IronbeamClient) : IronbeamClient * option exn :=
  let auth_message :=
    JObj [("action", JStr "authenticate");
          ("api_key", JStr (api_key c));
          ("secret", JStr (api_secret c));
          ("timestamp", JStr (utcnow_iso E (io c)))] in
  match send (tick c) auth_message with
  | (c1, None) =>
      (log INFO "Sent authentication message to Ironbeam" [] c1, None)
  | (c1, Some e) => (c1, Some e)
  end.

(** The [try] block of one iteration of [connect]'s loop. *)
Definition connect_attempt (c : IronbeamClient) : IronbeamClient * option exn :=
  let c0 := log INFO "Connecting to Ironbeam WebSocket: {}" [AStr (base_url c)] c in
  match ws_connect E (io c0) with
  | inl e => (tick c0, Some e)
  | inr sock =>
      match authenticate (set_ws (Some sock) (tick c0)) with
      | (c1, Some e) => (c1, Some e)
      | (c1, None) =>
          let c2 := set_reconnect_attempts 0 (set_connected true c1) in
          (log INFO "Successfully connected to Ironbeam" [] (emit SpawnListen c2),
           None)
      end
  end.

(** The [except] block of the same iteration. *)
Definition connect_failed (e : exn) (c : IronbeamClient) : IronbeamClient :=
  let c1 := set_reconnect_attempts (reconnect_attempts c + 1) c in
  let wait_time := Nat.min (5 * reconnect_attempts c1) 60 in
  emit (Sleep wait_time)
    (log INFO "Retrying in {} seconds..." [ANat wait_time]
       (log ERROR "WebSocket connection failed (attempt {}): {}"
          [ANat (reconnect_attempts c1); AExn e] c1)).

(** The [while] loop of [connect]; [None] when [fuel] iterations were not
    enough to leave it. *)
Fixpoint connect_loop (fuel : nat) (c : IronbeamClient) : option IronbeamClient :=
  if negb (connected c)
     && Nat.ltb (reconnect_attempts c) (max_reconnect_attempts c)
  then
    match fuel with
    | O => None
    | S fuel' =>
        match connect_attempt c with
        | (c1, None) => connect_loop fuel' c1
        | (c1, Some e) => connect_loop fuel' (connect_failed e c1)
        end
    end
  else Some c.

(** [connect]. *)
Definition connect (fuel : nat) (c : IronbeamClient) : option IronbeamClient :=
  match connect_loop fuel c with
  | None => None
  | Some c1 =>
      if negb (connected c1)
      then Some (log ERROR
             "Max reconnection attempts reached. Unable to connect to Ironbeam."
             [] c1)
      else Some c1
  end.

(** The loop of [disconnect] over [pending_requests.items()]: every future
    that is not done gets the exception. *)
Definition fail_future (e : exn) (fs : list FutureState) (ref : nat)
    : list FutureState :=
  match fs !! ref with
  | Some f =>
      if negb (done f)
      then match set_exception f e with
           | inr f' => <[ref := f']> fs
           | inl _ => fs
           end
      else fs
  | None => fs
  end.

Definition fail_all (e : exn) (items : list (string * nat))
    (fs : list FutureState) : list FutureState :=
  foldl (fun acc item => fail_future e acc (snd item)) fs items.

(** [disconnect]. *)
Definition disconnect (c : IronbeamClient) : IronbeamClient :=
  let c1 := set_connected false c in
  let c2 :=
    match ws c1 with
    | Some sock =>
        match ws_close E (io c1) with
        | None =>
            log INFO "WebSocket connection closed gracefully" []
              (emit (Closed sock) (tick c1))
        | Some e => log ERROR "Error closing WebSocket: {}" [AExn e] (tick c1)
        end
    | None => c1
    end in
  let c3 :=
    set_futures
      (fail_all (Exception "Connection closed")
         (map_to_list (pending_requests c2)) (futures c2)) c2 in
  set_pending_requests ∅ c3.

(** [_get_request_id]. *)
Definition make_request_id (n : nat) (millis : Z) : string :=
  "req_" +:+ pretty n +:+ "_" +:+ pretty millis.

Definition _get_request_id (c : IronbeamClient) : string * IronbeamClient :=
  let c1 := set_request_id (request_id c + 1) c in
  (make_request_id (request_id c1) (clock_ms E (io c1)), tick c1).

(** ** The read loop *)

Definition is_str (j : json) (s : string) : bool :=
  match j with JStr s' => String.eqb s' s | _ => false end.

(** [type(data).__name__] of a decoded value. *)
Definition type_name (data : json) : string :=
  match data with
  | JNull => "NoneType"
  | JBool _ => "bool"
  | JNum _ => "int"
  | JStr _ => "str"
  | JArr _ => "list"
  | JObj _ => "dict"
  end.

(** [request_id and request_id in self.pending_requests]: the future the
    frame answers, if any.  A list or an object is unhashable and makes
    the membership test raise. *)
Definition in_pending (c : IronbeamClient) (rid : json)
    : exn + option (string * nat) :=
  if negb (truthy rid) then inr None
  else
    match rid with
    | JStr s =>
        match pending_requests c !! s with
        | Some ref => inr (Some (s, ref))
        | None => inr None
        end
    | JArr _ | JObj _ =>
        inl (TypeError ("unhashable type: '" +:+ type_name rid +:+ "'"))
    | _ => inr None
    end.

(** The response branch of [handle_message]: pop the entry, and set the
    result unless the future is already done. *)
Definition resolve (c : IronbeamClient) (rid : string) (ref : nat) (data : json)
    : IronbeamClient * option exn :=
  let c1 := set_pending_requests (delete rid (pending_requests c)) c in
  match futures c1 !! ref with
  | Some f =>
      if negb (done f)
      then match set_result f data with
           | inr f' => (set_futures (<[ref := f']> (futures c1)) c1, None)
           | inl e => (c1, Some e)
           end
      else (c1, None)
  | None => (c1, None)
  end.

(** [await handler(payload)]. *)
Definition invoke (kind : EventKind) (h : Handler) (payload : json)
    (c : IronbeamClient) : IronbeamClient * option exn :=
  (emit (Invoked kind payload) c, h payload).

(** The event branch of [handle_message]. *)
Definition dispatch (c : IronbeamClient) (data : json)
    (fields : list (string * json)) : IronbeamClient * option exn :=
  let event_type := dict_get "type" fields in
  let payload := dict_get_default "data" (JObj []) fields in
  match is_str event_type "market_data", on_market_data c with
  | true, Some h => invoke MarketData h payload c
  | _, _ =>
  match is_str event_type "order_update", on_order_update c with
  | true, Some h => invoke OrderUpdate h payload c
  | _, _ =>
  match is_str event_type "position_update", on_position_update c with
  | true, Some h => invoke PositionUpdate h payload c
  | _, _ =>
  if is_str event_type "error"
  then (log ERROR "Ironbeam error: {}"
          [AJson (dict_get_default "message" (JStr "Unknown error") fields)] c,
        None)
  else (log DEBUG "Unhandled message type '{}': {}"
          [AJson event_type; AJson data] c, None)
  end end end.

(** What [data.get] raises on a decoded value that is not a dict. *)
Definition no_get (data : json) : exn :=
  AttributeError
    ("'" +:+ type_name data +:+ "' object has no attribute 'get'").

(** The [try] block of [handle_message]. *)
Definition handle_message_body (c : IronbeamClient) (message : string)
    : IronbeamClient * option exn :=
  match json_loads E message with
  | None => (c, Some (JSONDecodeError message))
  | Some data =>
      match data with
      | JObj fields =>
          match in_pending c (dict_get "request_id" fields) with
          | inl e => (c, Some e)
          | inr (Some (rid, ref)) => resolve c rid ref data
          | inr None => dispatch c data fields
          end
      | _ => (c, Some (no_get data))
      end
  end.

(** [handle_message]: the [try] block under its two [except] clauses.  The
    second component is the exception that leaves the method. *)
Definition handle_message (c : IronbeamClient) (message : string)
    : IronbeamClient * option exn :=
  match handle_message_body c message with
  | (c1, None) => (c1, None)
  | (c1, Some (JSONDecodeError _)) =>
      (log ERROR "Failed to decode message: {}" [AStr message] c1, None)
  | (c1, Some e) =>
      (log ERROR "Error handling message: {}" [AExn e] c1, None)
  end.

(** [async for message in self.ws: await self.handle_message(message)],
    on the frames that arrive before the socket ends.  An exception
    leaving [handle_message] would end the iteration. *)
Fixpoint listen_frames (c : IronbeamClient) (frames : list string)
    : IronbeamClient * option exn :=
  match frames with
  | [] => (c, None)
  | m :: rest =>
      match handle_message c m with
      | (c1, None) => listen_frames c1 rest
      | (c1, Some e) => (c1, Some e)
      end
  end.

(** [listen].  [closing] is how the socket's iterator ends: [None] when it
    is exhausted, [Some e] when it raises. *)
Definition listen (fuel : nat) (frames : list string) (closing : option exn)
    (c : IronbeamClient) : option IronbeamClient :=
  let '(c1, raised) := listen_frames c frames in
  let failure := match raised with Some e => Some e | None => closing end in
  let c2 :=
    match failure with
    | None => c1
    | Some (ConnectionClosed _) =>
        log WARNING "WebSocket connection closed by server" [] c1
    | Some e => log ERROR "WebSocket listen error: {}" [AExn e] c1
    end in
  let c3 := set_connected false c2 in
  if Nat.ltb (reconnect_attempts c3) (max_reconnect_attempts c3)
  then connect fuel (log INFO "Attempting to reconnect..." [] c3)
  else Some c3.

(** ** Requests that wait for their response *)

(** Where a coroutine stands when it first yields to the event loop. *)
Inductive Started :=
| Refused (c : IronbeamClient) (e : exn)
| Awaiting (c : IronbeamClient) (ref : nat).

(** The two [except] clauses of [send_with_response]: the entry is popped;
    a timeout is re-raised as a plain [Exception].  [timeout] is the
    decimal rendering of the float. *)
Definition swr_except (rid timeout : string) (e : exn) (c : IronbeamClient)
    : IronbeamClient * exn :=
  let c1 := set_pending_requests (delete rid (pending_requests c)) c in
  match e with
  | TimeoutError =>
      (c1, Exception ("Request " +:+ rid +:+ " timed out after "
                        +:+ timeout +:+ "s"))
  | _ => (c1, e)
  end.

(** [send_with_response] up to [await asyncio.wait_for(future, timeout)]. *)
Definition send_with_response_start (c : IronbeamClient) (message : json)
    (rid timeout : string) : Started :=
  if negb (is_connected c) then Refused c (Exception "WebSocket not connected")
  else
    let ref := length (futures c) in
    let c1 :=
      set_pending_requests (<[rid := ref]> (pending_requests c))
        (set_futures (futures c ++ [FPending]) c) in
    match send c1 message with
    | (c2, None) => Awaiting c2 ref
    | (c2, Some e) => let '(c3, e') := swr_except rid timeout e c2 in Refused c3 e'
    end.

(** [send_with_response] from the moment [wait_for] wakes the coroutine:
    either the future is done, or the timer has fired on a future that is
    still pending, in which case [wait_for] cancels it and raises
    [TimeoutError]. *)
Definition send_with_response_finish (c : IronbeamClient)
    (rid timeout : string) (ref : nat) : IronbeamClient * Result json :=
  match futures c !! ref with
  | Some (FResult data) => (c, Return data)
  | Some (FException e) =>
      let '(c1, e') := swr_except rid timeout e c in (c1, Raise e')
  | Some FPending =>
      let c1 := set_futures (<[ref := cancel FPending]> (futures c)) c in
      let '(c2, e') := swr_except rid timeout TimeoutError c1 in (c2, Raise e')
  | Some FCancelled | None => (c, Cancelled)
  end.

(** Where an API call stands when it first yields. *)
Inductive Call :=
| Finished (c : IronbeamClient) (outcome : json)
| Suspended (c : IronbeamClient) (rid : string) (ref : nat).

Definition error_outcome (e : exn) (symbol : string) : json :=
  JObj [("status", JStr "error"); ("message", JStr (exn_str e));
        ("symbol", JStr symbol)].

(** [subscribe]. *)
Definition subscribe_start (c : IronbeamClient) (symbol : string) : Call :=
  if bool_decide (symbol ∈ subscriptions c)
  then Finished c (JObj [("status", JStr "already_subscribed");
                         ("symbol", JStr symbol)])
  else
    let '(rid, c1) := _get_request_id c in
    let message :=
      JObj [("action", JStr "subscribe"); ("request_id", JStr rid);
            ("symbol", JStr symbol)] in
    match send_with_response_start c1 message rid "5.0" with
    | Refused c2 e =>
        Finished (log ERROR "Failed to subscribe to {}: {}"
                    [AStr symbol; AExn e] c2)
                 (error_outcome e symbol)
    | Awaiting c2 ref => Suspended c2 rid ref
    end.

Definition subscribe_finish (c : IronbeamClient) (symbol rid : string)
    (ref : nat) : IronbeamClient * Result json :=
  match send_with_response_finish c rid "5.0" ref with
  | (c1, Return response) =>
      (log INFO "Subscribed to market data: {}" [AStr symbol]
         (set_subscriptions ({[symbol]} ∪ subscriptions c1) c1),
       Return (JObj [("status", JStr "subscribed"); ("symbol", JStr symbol);
                     ("data", response)]))
  | (c1, Raise e) =>
      (log ERROR "Failed to subscribe to {}: {}" [AStr symbol; AExn e] c1,
       Return (error_outcome e symbol))
  | (c1, Cancelled) => (c1, Cancelled)
  end.

(** [unsubscribe]. *)
Definition unsubscribe_start (c : IronbeamClient) (symbol : string) : Call :=
  if negb (bool_decide (symbol ∈ subscriptions c))
  then Finished c (JObj [("status", JStr "not_subscribed");
                         ("symbol", JStr symbol)])
  else
    let '(rid, c1) := _get_request_id c in
    let message :=
      JObj [("action", JStr "unsubscribe"); ("request_id", JStr rid);
            ("symbol", JStr symbol)] in
    match send_with_response_start c1 message rid "5.0" with
    | Refused c2 e =>
        Finished (log ERROR "Failed to unsubscribe from {}: {}"
                    [AStr symbol; AExn e] c2)
                 (error_outcome e symbol)
    | Awaiting c2 ref => Suspended c2 rid ref
    end.

Definition unsubscribe_finish (c : IronbeamClient) (symbol rid : string)
    (ref : nat) : IronbeamClient * Result json :=
  match send_with_response_finish c rid "5.0" ref with
  | (c1, Return response) =>
      (log INFO "Unsubscribed from: {}" [AStr symbol]
         (set_subscriptions (subscriptions c1 ∖ {[symbol]}) c1),
       Return (JObj [("status", JStr "unsubscribed"); ("symbol", JStr symbol);
                     ("data", response)]))
  | (c1, Raise e) =>
      (log ERROR "Failed to unsubscribe from {}: {}" [AStr symbol; AExn e] c1,
       Return (error_outcome e symbol))
  | (c1, Cancelled) => (c1, Cancelled)
  end.

(** [OrderData].  The two optional floats are carried as the JSON numbers
    they are sent as. *)
Record OrderData := {
  symbol : string;
  side : string;
  order_type : string;
  quantity : Z;
  price : option json;
  stop_price : option json
}.

Definition request_failed (e : exn) : json :=
  JObj [("status", JStr "error"); ("message", JStr (exn_str e))].

(** The part shared by the four remaining requests once their message is
    built: [send_with_response(message, request_id, timeout=10.0)] inside
    [try], the error logged and turned into an outcome. *)
Definition request_start (c : IronbeamClient) (message : json) (rid : string)
    (fmt : string) (args : list LogArg) : Call :=
  match send_with_response_start c message rid "10.0" with
  | Refused c1 e => Finished (log ERROR fmt (args ++ [AExn e]) c1) (request_failed e)
  | Awaiting c1 ref => Suspended c1 rid ref
  end.

Definition request_finish (c : IronbeamClient) (rid : string) (ref : nat)
    (ok : list Event) (fmt : string) (args : list LogArg)
    : IronbeamClient * Result json :=
  match send_with_response_finish c rid "10.0" ref with
  | (c1, Return response) => (foldl (fun acc ev => emit ev acc) c1 ok, Return response)
  | (c1, Raise e) =>
      (log ERROR fmt (args ++ [AExn e]) c1, Return (request_failed e))
  | (c1, Cancelled) => (c1, Cancelled)
  end.

(** [place_order]. *)
Definition place_order_start (c : IronbeamClient) (order : OrderData) : Call :=
  let '(rid, c1) := _get_request_id c in
  let order_message :=
    JObj ([("action", JStr "place_order"); ("request_id", JStr rid);
           ("symbol", JStr (symbol order)); ("side", JStr (side order));
           ("order_type", JStr (order_type order));
           ("quantity", JNum (quantity order));
           ("timestamp", JStr (utcnow_iso E (io c1)))]
          ++ match price order with Some p => [("price", p)] | None => [] end
          ++ match stop_price order with
             | Some p => [("stop_price", p)] | None => [] end) in
  request_start (tick c1) order_message rid "Failed to place order: {}" [].

Definition place_order_finish (c : IronbeamClient) (order : OrderData)
    (rid : string) (ref : nat) : IronbeamClient * Result json :=
  request_finish c rid ref
    [Log INFO "Placed order: {} {} {} @ {}"
       [AStr (symbol order); AStr (side order);
        AJson (JNum (quantity order));
        AJson (match price order with
               | Some p => if truthy p then p else JStr "market"
               | None => JStr "market"
               end)]]
    "Failed to place order: {}" [].

(** [cancel_order]. *)
Definition cancel_order_start (c : IronbeamClient) (order_id : string) : Call :=
  let '(rid, c1) := _get_request_id c in
  let message :=
    JObj [("action", JStr "cancel_order"); ("request_id", JStr rid);
          ("order_id", JStr order_id);
          ("timestamp", JStr (utcnow_iso E (io c1)))] in
  request_start (tick c1) message rid "Failed to cancel order {}: {}"
    [AStr order_id].

Definition cancel_order_finish (c : IronbeamClient) (order_id rid : string)
    (ref : nat) : IronbeamClient * Result json :=
  request_finish c rid ref [Log INFO "Cancelled order: {}" [AStr order_id]]
    "Failed to cancel order {}: {}" [AStr order_id].

(** [get_positions]. *)
Definition get_positions_start (c : IronbeamClient) : Call :=
  let '(rid, c1) := _get_request_id c in
  let message :=
    JObj [("action", JStr "get_positions"); ("request_id", JStr rid);
          ("timestamp", JStr (utcnow_iso E (io c1)))] in
  request_start (tick c1) message rid "Failed to get positions: {}" [].

Definition get_positions_finish (c : IronbeamClient) (rid : string) (ref : nat)
    : IronbeamClient * Result json :=
  request_finish c rid ref [] "Failed to get positions: {}" [].

(** [get_account_info]. *)
Definition get_account_info_start (c : IronbeamClient) : Call :=
  let '(rid, c1) := _get_request_id c in
  let message :=
    JObj [("action", JStr "get_account_info"); ("request_id", JStr rid);
          ("timestamp", JStr (utcnow_iso E (io c1)))] in
  request_start (tick c1) message rid "Failed to get account info: {}" [].

Definition get_account_info_finish (c : IronbeamClient) (rid : string)
    (ref : nat) : IronbeamClient * Result json :=
  request_finish c rid ref [] "Failed to get account info: {}" [].

(** [get_connection_stats]. *)
Record Stats := {
  stat_connected : bool;
  stat_reconnect_attempts : nat;
  stat_active_subscriptions : nat;
  stat_pending_requests : nat;
  stat_subscriptions : list string
}.

Definition get_connection_stats (c : IronbeamClient) : Stats :=
  {| stat_connected := connected c;
     stat_reconnect_attempts := reconnect_attempts c;
     stat_active_subscriptions := size (subscriptions c);
     stat_pending_requests := size (pending_requests c);
     stat_subscriptions := elements (subscriptions c) |}.

End Client.

(** ** Histories

    One [Action] is one stretch of client code that runs without yielding
    to the event loop; a history of the session is a list of actions.  The
    [Wake] actions are the second halves of the suspended requests. *)
Inductive Action :=
| Connect (fuel : nat)
| Disconnect
| Frame (message : string)
| ListenEnd (fuel : nat) (closing : option exn)
| Subscribe (sym : string)
| SubscribeWake (sym rid : string) (ref : nat)
| Unsubscribe (sym : string)
| UnsubscribeWake (sym rid : string) (ref : nat)
| PlaceOrder (order : OrderData)
| PlaceOrderWake (order : OrderData) (rid : string) (ref : nat)
| CancelOrder (order_id : string)
| CancelOrderWake (order_id rid : string) (ref : nat)
| GetPositions
| GetPositionsWake (rid : string) (ref : nat)
| GetAccountInfo
| GetAccountInfoWake (rid : string) (ref : nat).

Definition client_of (k : Call) : IronbeamClient :=
  match k with Finished c _ => c | Suspended c _ _ => c end.

Definition perform (E : Env) (c : IronbeamClient) (a : Action)
    : option IronbeamClient :=
  match a with
  | Connect fuel => connect E fuel c
  | Disconnect => Some (disconnect E c)
  | Frame message => Some (fst (handle_message E c message))
  | ListenEnd fuel closing => listen E fuel [] closing c
  | Subscribe sym => Some (client_of (subscribe_start E c sym))
  | SubscribeWake sym rid ref => Some (fst (subscribe_finish c sym rid ref))
  | Unsubscribe sym => Some (client_of (unsubscribe_start E c sym))
  | UnsubscribeWake sym rid ref => Some (fst (unsubscribe_finish c sym rid ref))
  | PlaceOrder order => Some (client_of (place_order_start E c order))
  | PlaceOrderWake order rid ref => Some (fst (place_order_finish c order rid ref))
  | CancelOrder oid => Some (client_of (cancel_order_start E c oid))
  | CancelOrderWake oid rid ref => Some (fst (cancel_order_finish c oid rid ref))
  | GetPositions => Some (client_of (get_positions_start E c))
  | GetPositionsWake rid ref => Some (fst (get_positions_finish c rid ref))
  | GetAccountInfo => Some (client_of (get_account_info_start E c))
  | GetAccountInfoWake rid ref => Some (fst (get_account_info_finish c rid ref))
  end.

Fixpoint run (E : Env) (c : IronbeamClient) (history : list Action)
    : option IronbeamClient :=
  match history with
  | [] => Some c
  | a :: rest =>
      match perform E c a with
      | Some c1 => run E c1 rest
      | None => None
      end
  end.

(** The future an action wakes its coroutine on. *)
Definition wakes (a : Action) : option nat :=
  match a with
  | SubscribeWake _ _ ref | UnsubscribeWake _ _ ref | PlaceOrderWake _ _ ref
  | CancelOrderWake _ _ ref | GetPositionsWake _ ref
  | GetAccountInfoWake _ ref => Some ref
  | _ => None
  end.

(** The callback registered for a kind of push event, and the [type] tag
    the broker gives that kind. *)
Definition handler_for (c : IronbeamClient) (kind : EventKind) : option Handler :=
  match kind with
  | MarketData => on_market_data c
  | OrderUpdate => on_order_update c
  | PositionUpdate => on_position_update c
  end.

Definition kind_tag (kind : EventKind) : string :=
  match kind with
  | MarketData => "market_data"
  | OrderUpdate => "order_update"
  | PositionUpdate => "position_update"
  end.

(** How often a symbol occurs in a listing of the registry. *)
Fixpoint occurrences (sym : string) (l : list string) : nat :=
  match l with
  | [] => 0
  | s :: rest => (if String.eqb s sym then 1 else 0) + occurrences sym rest
  end.

(** ** Reading the trace *)

Fixpoint count_events (p : Event -> bool) (tr : list Event) : nat :=
  match tr with
  | [] => 0
  | ev :: rest => (if p ev then 1 else 0) + count_events p rest
  end.

(** A subscribe request for [sym] written to the socket. *)
Definition is_subscribe_request (sym : string) (ev : Event) : bool :=
  match ev with
  | Sent _ (JObj fields) =>
      is_str (dict_get "action" fields) "subscribe"
      && is_str (dict_get "symbol" fields) sym
  | _ => false
  end.

Definition sleeps (tr : list Event) : list nat :=
  omap (fun ev => match ev with Sleep n => Some n | _ => None end) tr.

(** Events that are neither frames nor handler calls. *)
Definition quiet (evs : list Event) : Prop :=
  ∀ p, (∀ l f a, p (Log l f a) = false) → (∀ n, p (Sleep n) = false) →
       count_events p evs = 0.

Definition is_sent (ev : Event) : bool :=
  match ev with Sent _ _ => true | _ => false end.

(** Events among which no subscribe request was written. *)
Definition no_subscribe (evs : list Event) : Prop :=
  ∀ sym, count_events (is_subscribe_request sym) evs = 0.

(** The delay [min(5 * attempts, 60)] slept after failed attempt [k]. *)
Definition backoff (k : nat) : nat := Nat.min (5 * k) 60.

(** ** Two environments and a decoder for the examples *)

(** A decoder given by its graph on the frames that occur. *)
Definition table_loads (table : list (string * json)) (frame : string)
    : option json :=
  dict_lookup frame table.

(** A broker that accepts every connection and every write. *)
Definition accepting (table : list (string * json)) : Env :=
  {| json_loads := table_loads table;
     ws_connect := fun k => inr k;
     ws_send := fun _ => None;
     ws_close := fun _ => None;
     clock_ms := fun k => (1700000000000 + Z.of_nat k)%Z;
     utcnow_iso := fun _ => "2024-01-01T00:00:00" |}.

(** A client in the connected state, as [connect] means to leave it. *)
Definition ready (subs : gset string) : IronbeamClient :=
  set_subscriptions subs
    (set_connected true
       (set_ws (Some 0) (init "key" "secret" "wss://broker" None None None))).

(** ** Invariants *)

(** Strings in which no underscore occurs, such as decimal numerals. *)
Fixpoint underscore_free (s : string) : Prop :=
  match s with
  | EmptyString => True
  | String a rest => a ≠ "_"%char ∧ underscore_free rest
  end.


(** What the connection methods ([send], [authenticate], [connect]) leave
    alone. *)
Definition same_tables (c c' : IronbeamClient) : Prop :=
  futures c' = futures c
  ∧ pending_requests c' = pending_requests c
  ∧ request_id c' = request_id c
  ∧ subscriptions c' = subscriptions c
  ∧ max_reconnect_attempts c' = max_reconnect_attempts c.

(** How one action may change the future objects: none disappears, a
    done future keeps its state, and a pending one is cancelled only by the
    action [w] that wakes its own waiter. *)
Definition futs_step (w : option nat) (fs fs' : list FutureState) : Prop :=
  ∀ ref f, fs !! ref = Some f →
    ∃ f', fs' !! ref = Some f'
      ∧ (f' = f ∨ (f = FPending ∧ (f' = FCancelled → w = Some ref))).

(** How one action may change the session: the futures as above; the
    request counter never goes back; a key new in the table is an id issued
    during the action. *)
Definition session_step (w : option nat) (c c' : IronbeamClient) : Prop :=
  futs_step w (futures c) (futures c')
  ∧ request_id c ≤ request_id c'
  ∧ ∀ k, is_Some (pending_requests c' !! k) →
      is_Some (pending_requests c !! k)
      ∨ ∃ n millis, k = make_request_id n millis
          ∧ request_id c < n ∧ n ≤ request_id c'.

Definition started_client (s : Started) : IronbeamClient :=
  match s with Refused c _ => c | Awaiting c _ => c end.

(** What the read loop leaves alone. *)
Definition same_session (c c' : IronbeamClient) : Prop :=
  connected c' = connected c
  ∧ ws c' = ws c
  ∧ subscriptions c' = subscriptions c
  ∧ request_id c' = request_id c
  ∧ reconnect_attempts c' = reconnect_attempts c
  ∧ max_reconnect_attempts c' = max_reconnect_attempts c
  ∧ pending_requests c' ⊆ pending_requests c.

(** Every key of the pending-request table is an id this session issued. *)
Definition keys_issued (c : IronbeamClient) : Prop :=
  ∀ k, is_Some (pending_requests c !! k) →
    ∃ n millis, k = make_request_id n millis ∧ n ≤ request_id c.

(** ** Scenarios *)

(** The client as [__init__] leaves it. *)
Definition fresh : IronbeamClient :=
  init "key" "secret" "wss://broker" None None None.

(** A connected client with one subscribe request in flight. *)
Definition in_flight : IronbeamClient :=
  client_of (subscribe_start (accepting []) (ready ∅) "MES").

(** The read loop ends because the server closed the connection; the
    broker accepts the reconnection. *)
Definition after_loss (c : IronbeamClient) : option IronbeamClient :=
  listen (accepting []) 10 [] (Some (ConnectionClosed "closed")) c.

(** A positions request, under the id "req_1_0". *)
Definition unanswered_message : json :=
  JObj [("action", JStr "get_positions"); ("request_id", JStr "req_1_0")].

(** The broker's answer to the request of [in_flight], and a broker that
    sends it. *)
Definition ack : json :=
  JObj [("request_id", JStr "req_1_1700000000000"); ("status", JStr "ok")].

Definition acking : Env := accepting [("ack", ack)].

Definition answered : IronbeamClient := fst (handle_message acking in_flight "ack").

(** A broker that answers the subscribe request of [ready ∅], and the
    unsubscribe request of [ready {["MES"]}], with an error notice. *)
Definition rejection : json :=
  JObj [("type", JStr "error"); ("request_id", JStr "req_1_1700000000000");
        ("message", JStr "unknown symbol")].

Definition rejecting : Env := accepting [("rejection", rejection)].

(** A market-data handler that raises, and a tick for it. *)
Definition raising_handler : Handler :=
  fun _ => Some (OtherError "ValueError" "bad tick").

Definition listening : IronbeamClient :=
  set_connected true
    (set_ws (Some 0)
       (init "key" "secret" "wss://broker" (Some raising_handler) None None)).

Definition tick_payload : json := JObj [("symbol", JStr "MES")].

Definition ticking : Env :=
  accepting [("tick", JObj [("type", JStr "market_data");
                            ("data", tick_payload)])].

(** Two subscribe calls for "MES" pass the membership test before either
    is answered; the broker acknowledges both. *)
Definition ack1 : json :=
  JObj [("request_id", JStr "req_1_1700000000000"); ("status", JStr "ok")].
Definition ack2 : json :=
  JObj [("request_id", JStr "req_2_1700000000002"); ("status", JStr "ok")].

Definition acking_both : Env := accepting [("ack1", ack1); ("ack2", ack2)].

Definition both_started : IronbeamClient :=
  client_of
    (subscribe_start acking_both
       (client_of (subscribe_start acking_both (ready ∅) "MES")) "MES").

Definition both_acknowledged : IronbeamClient :=
  fst (handle_message acking_both
         (fst (handle_message acking_both both_started "ack1")) "ack2").

(** ** More scenarios and readings of the trace *)

(** A broker whose socket accepts connections but fails every write. *)
Definition failing_writes : Env :=
  {| json_loads := table_loads [];
     ws_connect := fun k => inr k;
     ws_send := fun _ => Some (ConnectionClosed "gone");
     ws_close := fun _ => Some (OtherError "OSError" "broken pipe");
     clock_ms := fun k => (1700000000000 + Z.of_nat k)%Z;
     utcnow_iso := fun _ => "2024-01-01T00:00:00" |}.

(** A client on which nothing has happened that could be seen from the
    broker: disconnected, no request registered, nothing subscribed, no
    future created, no frame written. *)
Definition dormant (c : IronbeamClient) : Prop :=
  connected c = false
  ∧ pending_requests c = ∅
  ∧ subscriptions c = ∅
  ∧ futures c = []
  ∧ count_events is_sent (trace c) = 0.

Definition is_invoked (ev : Event) : bool :=
  match ev with Invoked _ _ => true | _ => false end.

(** A market-data handler that returns, on a connected client. *)
Definition quiet_handler : Handler := fun _ => None.

Definition watching : IronbeamClient :=
  set_connected true
    (set_ws (Some 0)
       (init "key" "secret" "wss://broker" (Some quiet_handler) None None)).

(** Frames that decode, but not to what the client expects. *)
Definition odd_frames : Env :=
  accepting [("list", JArr [JNum 1]);
             ("badid", JObj [("request_id", JArr [JNum 1])])].

(** A call that was turned down before anything reached the broker: it
    took a request id and left everything else as it was. *)
Definition turned_down (c c' : IronbeamClient) : Prop :=
  pending_requests c' = pending_requests c
  ∧ futures c' = futures c
  ∧ subscriptions c' = subscriptions c
  ∧ connected c' = connected c
  ∧ count_events is_sent (trace c') = count_events is_sent (trace c)
  ∧ request_id c' = request_id c + 1.

(** A limit order and a market order. *)
Definition limit_order : OrderData :=
  {| symbol := "MES"; side := "buy"; order_type := "limit"; quantity := 2;
     price := Some (JNum 5000); stop_price := None |}.

Definition market_order : OrderData :=
  {| symbol := "MES"; side := "buy"; order_type := "market"; quantity := 2;
     price := None; stop_price := None |}.

(** ** The clock

    [send_with_response] suspends twice: in [send], on
    [await self.ws.send(message_str)], which returns when the transport
    has taken the frame, and then on
    [await asyncio.wait_for(future, timeout=timeout)], whose timer starts
    only when that second await is reached.  Time is counted in
    milliseconds.  How long the write takes is decided by the transport;
    the coroutine that runs beside the call is the read loop, which handles
    the frames as they arrive. *)




Section Clock.

Variable E : Env.

(** [send] up to [await self.ws.send(message_str)]: the guard, and what
    the transport will answer when the write is over. *)
Definition send_begin (c : IronbeamClient)
    : exn + (IronbeamClient * (exn + nat)) :=
  if negb (is_connected c) then inl (Exception "WebSocket not connected")
  else
    inr (tick c,
         match ws c with
         | Some sock =>
             match ws_send E (io c) with
             | None => inr sock
             | Some e => inl e
             end
         | None => inl (AttributeError "'NoneType' object has no attribute 'send'")
         end).

(** [send] from the moment the write is over. *)
Definition send_end (c : IronbeamClient) (message : json) (written : exn + nat)
    : IronbeamClient * option exn :=
  match written with
  | inr sock =>
      let action :=
        match message with
        | JObj fields => dict_get_default "action" (JStr "unknown") fields
        | _ => JStr "unknown"
        end in
      (log DEBUG "Sent message: {}" [AJson action]
         (emit (Sent sock message) c), None)
  | inl e =>
      (set_connected false
         (log ERROR "Failed to send message: {}" [AExn e] c), Some e)
  end.

(** Where [send_with_response] stands when it first yields: turned down,
    or registered and suspended in the write. *)
Inductive Writing :=
| NotWritten (c : IronbeamClient) (e : exn)
| InWrite (c : IronbeamClient) (ref : nat) (written : exn + nat).

(** [send_with_response] up to the write. *)
Definition send_with_response_begin (c : IronbeamClient) (rid timeout : string)
    : Writing :=
  if negb (is_connected c)
  then NotWritten c (Exception "WebSocket not connected")
  else
    let ref := length (futures c) in
    let c1 :=
      set_pending_requests (<[rid := ref]> (pending_requests c))
        (set_futures (futures c ++ [FPending]) c) in
    match send_begin c1 with
    | inl e => let '(c2, e') := swr_except rid timeout e c1 in NotWritten c2 e'
    | inr (c2, written) => InWrite c2 ref written
    end.

(** [send_with_response] from the end of the write to [wait_for]. *)
Definition send_with_response_written (c : IronbeamClient) (message : json)
    (rid timeout : string) (ref : nat) (written : exn + nat) : Started :=
  match send_end c message written with
  | (c1, None) => Awaiting c1 ref
  | (c1, Some e) => let '(c2, e') := swr_except rid timeout e c1 in Refused c2 e'
  end.








End Clock.






(** ** The server's broadcast callbacks

    Source: [main.py], [on_market_data], [on_order_update] and
    [on_position_update], the three callbacks the server registers with the
    client.  [clients] is the module-level dict of browser connections, in
    insertion order; [send_json sock message] is what awaiting
    [websocket.send_json(message)] does on that connection.

    The loop suspends in every [await websocket.send_json(message)], and
    other tasks change the same dict meanwhile: [websocket_endpoint] adds
    a connection after [accept] and pops it in its [finally], and
    [shutdown_event] clears the dict.  [others k] is what they have made
    of the dict by the time the [k]-th send of the loop is over, [None]
    when they have not touched it.  The dict iterator checks the size of
    the dict each time it is asked for the next item. *)

Inductive ServerEvent :=
| Delivered (sock : nat) (message : json)
| Warned (fmt : string) (client_id : string) (e : exn).

(** The body of the [for] loop on one entry: the event, and the id
    appended to [disconnected_clients], if any. *)
Definition try_send (send_json : nat -> json -> option exn)
    (warning : string) (message : json) (entry : string * nat)
    : ServerEvent * list string :=
  match send_json (snd entry) message with
  | None => (Delivered (snd entry) message, [])
  | Some e => (Warned warning (fst entry) e, [fst entry])
  end.

(** How the iteration over [clients.items()] ends: the items are
    exhausted; or the iterator finds the dict with another size and raises
    [RuntimeError]; or the dict was changed and has its old size, in which
    case what the iterator does depends on where the dict keeps its
    entries, which is not modelled. *)
Inductive Iteration :=
| Exhausted
| SizeChanged
| KeysChanged.

(** The [for] loop over [clients.items()], from its [k]-th item on:
    [rest] are the items the iterator has not yielded yet.  The result is
    what happened, the ids collected in [disconnected_clients], the dict
    as it is when the loop is left, and how the iteration ended. *)
Fixpoint broadcast_loop (send_json : nat -> json -> option exn)
    (warning : string) (message : json)
    (others : nat -> option (list (string * nat))) (k : nat)
    (clients rest : list (string * nat))
    : list ServerEvent * list string * list (string * nat) * Iteration :=
  match rest with
  | [] => ([], [], clients, Exhausted)
  | entry :: rest' =>
      let '(event, failed) := try_send send_json warning message entry in
      match others k with
      | None =>
          let '(events, gone, clients', how) :=
            broadcast_loop send_json warning message others (S k) clients rest' in
          (event :: events, failed ++ gone, clients', how)
      | Some clients' =>
          ([event], failed, clients',
           if length clients' =? length clients then KeysChanged
           else SizeChanged)
      end
  end.

(** [clients.pop(client_id, None)]. *)
Definition pop_client (client_id : string) (clients : list (string * nat))
    : list (string * nat) :=
  filter (fun entry => fst entry ≠ client_id) clients.

(** How a callback ends. *)
Inductive Ending :=
| Returned
| Raised (e : exn)
| LayoutDependent.

(** The body the three callbacks share, up to the type tag and the text of
    the warning.  The [RuntimeError] of the iterator is raised by the
    [for] statement, outside the [try], and leaves the callback before the
    clean-up loop. *)
Definition broadcast (send_json : nat -> json -> option exn)
    (tag warning : string) (others : nat -> option (list (string * nat)))
    (clients : list (string * nat)) (data : json)
    : list (string * nat) * list ServerEvent * Ending :=
  if negb (truthy data) then (clients, [], Returned)
  else
    let message := JObj [("type", JStr tag); ("data", data)] in
    let '(events, gone, clients', how) :=
      broadcast_loop send_json warning message others 0 clients clients in
    match how with
    | Exhausted =>
        (foldl (fun acc client_id => pop_client client_id acc) clients' gone,
         events, Returned)
    | SizeChanged =>
        (clients', events,
         Raised (OtherError "RuntimeError"
                   "dictionary changed size during iteration"))
    | KeysChanged => (clients', events, LayoutDependent)
    end.

Definition server_on_market_data send_json others clients data :=
  broadcast send_json "market_data"
    "Failed to send market data to client {}: {}" others clients data.

Definition server_on_order_update send_json others clients data :=
  broadcast send_json "order_update"
    "Failed to send order update to client {}: {}" others clients data.

Definition server_on_position_update send_json others clients data :=
  broadcast send_json "position_update"
    "Failed to send position update to client {}: {}" others clients data.

Definition deliveries (events : list ServerEvent) : list (nat * json) :=
  omap (fun ev => match ev with
                  | Delivered sock message => Some (sock, message)
                  | Warned _ _ _ => None
                  end) events.

(** Three browser connections, the second of which is broken. *)
Definition three_clients : list (string * nat) :=
  [("a", 1); ("b", 2); ("c", 3)].

Definition second_broken : nat -> json -> option exn :=
  fun sock _ => if Nat.eqb sock 2 then Some (OtherError "RuntimeError" "closed")
                else None.

(** No other task touches the dict; and a fourth browser connects while
    the loop is in its second send. *)
Definition undisturbed : nat -> option (list (string * nat)) := fun _ => None.

Definition joins_during_second : nat -> option (list (string * nat)) :=
  fun k => if Nat.eqb k 1 then Some (three_clients ++ [("d", 4)]) else None.

(** Whether the connection of a [clients] entry takes the message. *)
Definition accepts (send_json : nat -> json -> option exn) (message : json)
    (entry : string * nat) : bool :=
  match send_json (snd entry) message with None => true | Some _ => false end.

(** ** The server's start-up

    Source: [main.py], [startup_event].  The three settings it prints are
    parameters.  The server's log records go to the same [trace] as the
    client's, in the order they are written.  [connect] catches every
    exception of its own loop, so the [except] clause around the call is
    never entered. *)
Definition startup_event (E : Env) (fuel : nat)
    (app_name app_version debug log_level : string) (c : IronbeamClient)
    : option IronbeamClient :=
  let c1 := log INFO "Starting {} v{}" [AStr app_name; AStr app_version] c in
  let c2 := log INFO "Debug mode: {}" [AStr debug] c1 in
  let c3 := log INFO "Log level: {}" [AStr log_level] c2 in
  match connect E fuel c3 with
  | Some c4 => Some (log INFO "Ironbeam client connected successfully" [] c4)
  | None => None
  end.
(** * Properties *)

Section Properties.

Variable E : Env.

Lemma count_events_app p tr1 tr2 :
  count_events p (tr1 ++ tr2) = count_events p tr1 + count_events p tr2.
Proof. induction tr1 as [|ev tr1 IH]; simpl; [done|]. rewrite IH. lia. Qed.

Lemma sleeps_app tr1 tr2 : sleeps (tr1 ++ tr2) = sleeps tr1 ++ sleeps tr2.
Proof. apply omap_app. Qed.

Lemma same_tables_refl c : same_tables c c.
Proof. by repeat split. Qed.

Lemma same_tables_trans c1 c2 c3 :
  same_tables c1 c2 → same_tables c2 c3 → same_tables c1 c3.
Proof. unfold same_tables. intros (?&?&?&?&?) (?&?&?&?&?). repeat split; congruence. Qed.

(** *** [send] *)

Lemma send_refused c m :
  connected c = false →
  send E c m = (c, Some (Exception "WebSocket not connected")).
Proof. intros H. unfold send, is_connected. by rewrite H. Qed.

Lemma send_tables c m c' r : send E c m = (c', r) → same_tables c c'.
Proof. unfold send. intros H. repeat case_match; simplify_eq; by repeat split. Qed.

(** What [send] appends to the trace: log records and at most the frame
    it was given. *)
Lemma send_trace c m c' r :
  send E c m = (c', r) →
  ∃ evs, trace c' = trace c ++ evs
    ∧ ∀ p, (∀ sock, p (Sent sock m) = false) → (∀ l f a, p (Log l f a) = false) →
           count_events p evs = 0.
Proof.
  unfold send. intros H.
  destruct (negb (is_connected c)).
  { simplify_eq. exists []. split; [by rewrite app_nil_r|done]. }
  repeat case_match; simplify_eq; simpl;
    (eexists; split; [rewrite <-?app_assoc; reflexivity|]);
    intros p Hs Hl; simpl; by rewrite ?Hs, ?Hl.
Qed.

(** *** [connect] *)

Lemma quiet_app evs1 evs2 : quiet evs1 → quiet evs2 → quiet (evs1 ++ evs2).
Proof.
  intros H1 H2 p Hl Hs. rewrite count_events_app, H1, H2; done.
Qed.

(** While [connected] is false the authentication frame is refused by
    [send]'s own guard, so the [try] block of [connect] always raises. *)
Lemma connect_attempt_refused c :
  connected c = false →
  ∃ c1 e, connect_attempt E c = (c1, Some e)
    ∧ connected c1 = false
    ∧ reconnect_attempts c1 = reconnect_attempts c
    ∧ same_tables c c1
    ∧ trace c1 = trace c
        ++ [Log INFO "Connecting to Ironbeam WebSocket: {}" [AStr (base_url c)]].
Proof.
  intros Hc. unfold connect_attempt.
  destruct (ws_connect E _) as [e|sock] eqn:Hw; simpl.
  - eexists _, e. by repeat split.
  - unfold authenticate. rewrite send_refused by done.
    eexists _, _. by repeat split.
Qed.

Lemma connect_loop_connected fuel c :
  connected c = true → connect_loop E fuel c = Some c.
Proof. intros H. destruct fuel; simpl; by rewrite H. Qed.

Lemma connect_failed_spec e c :
  connected (connect_failed e c) = connected c
  ∧ reconnect_attempts (connect_failed e c) = reconnect_attempts c + 1
  ∧ same_tables c (connect_failed e c)
  ∧ trace (connect_failed e c) = trace c
      ++ [Log ERROR "WebSocket connection failed (attempt {}): {}"
            [ANat (reconnect_attempts c + 1); AExn e];
          Log INFO "Retrying in {} seconds..."
            [ANat (backoff (reconnect_attempts c + 1))];
          Sleep (backoff (reconnect_attempts c + 1))].
Proof.
  repeat split. unfold connect_failed, log, emit, backoff.
  cbn [trace rebuild set_reconnect_attempts reconnect_attempts].
  by rewrite <-!app_assoc.
Qed.

Lemma connect_loop_spec fuel : ∀ c,
  connected c = false →
  max_reconnect_attempts c - reconnect_attempts c ≤ fuel →
  ∃ c', connect_loop E fuel c = Some c'
    ∧ connected c' = false
    ∧ reconnect_attempts c'
      = Nat.max (reconnect_attempts c) (max_reconnect_attempts c)
    ∧ same_tables c c'
    ∧ ∃ evs, trace c' = trace c ++ evs
        ∧ quiet evs
        ∧ sleeps evs
          = map backoff (seq (S (reconnect_attempts c))
                           (max_reconnect_attempts c - reconnect_attempts c)).
Proof.
  induction fuel as [|fuel IH]; intros c Hc Hfuel.
  - exists c. simpl. rewrite Hc. simpl.
    destruct (Nat.ltb_spec (reconnect_attempts c) (max_reconnect_attempts c));
      [lia|].
    repeat split; [lia|]. exists []. rewrite app_nil_r.
    replace (_ - _) with 0 by lia. by repeat split.
  - cbn [connect_loop]. rewrite Hc. cbn [negb andb].
    destruct (Nat.ltb_spec (reconnect_attempts c) (max_reconnect_attempts c))
      as [Hlt|Hge].
    + destruct (connect_attempt_refused c Hc)
        as (c1 & e & -> & Hc1 & Ha1 & Ht1 & Htr1).
      destruct (connect_failed_spec e c1) as (Hc2 & Ha2 & Ht2 & Htr2).
      assert (Hm : max_reconnect_attempts (connect_failed e c1)
                   = max_reconnect_attempts c).
      { destruct Ht1 as (?&?&?&?&<-). by destruct Ht2 as (?&?&?&?&->). }
      destruct (IH (connect_failed e c1))
        as (c' & -> & Hc' & Ha' & Ht' & evs & Htr' & Hq & Hs).
      { congruence. }
      { rewrite Hm, Ha2, Ha1. lia. }
      rewrite Hm, Ha2, Ha1 in *.
      exists c'. split; [done|]. split; [done|].
      split; [lia|]. split.
      { eauto using same_tables_trans. }
      eexists. split.
      { rewrite Htr', Htr2, Htr1. rewrite <-!app_assoc. reflexivity. }
      split.
      { repeat apply quiet_app; try done;
          intros p Hl Hsl; simpl; by rewrite ?Hl, ?Hsl. }
      rewrite !sleeps_app, Hs.
      replace (max_reconnect_attempts c - reconnect_attempts c)
        with (S (max_reconnect_attempts c - (reconnect_attempts c + 1))) by lia.
      cbn [seq map sleeps omap app]. 
      replace (reconnect_attempts c + 1) with (S (reconnect_attempts c)) by lia.
      done.
    + exists c. repeat split; [done|lia|]. exists []. rewrite app_nil_r.
      replace (_ - _) with 0 by lia. by repeat split.
Qed.

Lemma connect_connected fuel c :
  connected c = true → connect E fuel c = Some c.
Proof. intros H. unfold connect. rewrite connect_loop_connected by done. by rewrite H. Qed.

(** From a disconnected client [connect] returns, and returns a
    disconnected client: the budget is used up and the failure is logged. *)
Lemma connect_spec fuel c :
  connected c = false →
  max_reconnect_attempts c - reconnect_attempts c ≤ fuel →
  ∃ c', connect E fuel c = Some c'
    ∧ connected c' = false
    ∧ reconnect_attempts c'
      = Nat.max (reconnect_attempts c) (max_reconnect_attempts c)
    ∧ same_tables c c'
    ∧ ∃ evs, trace c' = trace c ++ evs
        ++ [Log ERROR
              "Max reconnection attempts reached. Unable to connect to Ironbeam."
              []]
        ∧ quiet evs
        ∧ sleeps evs
          = map backoff (seq (S (reconnect_attempts c))
                           (max_reconnect_attempts c - reconnect_attempts c)).
Proof.
  intros Hc Hfuel.
  destruct (connect_loop_spec fuel c Hc Hfuel)
    as (c' & Hloop & Hc' & Ha' & Ht' & evs & Htr & Hq & Hs).
  unfold connect. rewrite Hloop, Hc'. cbn [negb].
  eexists. split; [done|]. split; [done|]. split; [done|]. split.
  { eapply same_tables_trans; [exact Ht'|]. by repeat split. }
  exists evs. split; [|done]. cbn. by rewrite Htr, <-app_assoc.
Qed.

(** *** The end of the read loop *)

Lemma listen_end_spec fuel closing c :
  max_reconnect_attempts c - reconnect_attempts c ≤ fuel →
  ∃ c', listen E fuel [] closing c = Some c'
    ∧ connected c' = false
    ∧ same_tables c c'
    ∧ ∃ evs, trace c' = trace c ++ evs ∧ quiet evs.
Proof.
  intros Hfuel. unfold listen. cbn [listen_frames].
  set (c2 := match closing with
             | None => c
             | Some (ConnectionClosed _) =>
                 log WARNING "WebSocket connection closed by server" [] c
             | Some e => log ERROR "WebSocket listen error: {}" [AExn e] c
             end).
  assert (Hc2 : same_tables c c2
                ∧ reconnect_attempts c2 = reconnect_attempts c
                ∧ ∃ evs, trace c2 = trace c ++ evs ∧ quiet evs).
  { subst c2. destruct closing as [[]|];
      (split; [by repeat split|]); (split; [done|]);
      first [ by exists []; rewrite app_nil_r
            | eexists [_]; split; [done|]; intros p Hl Hs; simpl; by rewrite Hl ]. }
  destruct Hc2 as (Ht2 & Ha2 & evs2 & Htr2 & Hq2).
  assert (Hm2 : max_reconnect_attempts c2 = max_reconnect_attempts c)
    by apply Ht2.
  cbn [set_connected rebuild reconnect_attempts max_reconnect_attempts].
  destruct (Nat.ltb_spec (reconnect_attempts c2) (max_reconnect_attempts c2)).
  - destruct (connect_spec fuel
                (log INFO "Attempting to reconnect..." [] (set_connected false c2)))
      as (c' & -> & Hc' & _ & Ht' & evs & Htr & Hq & _); [done|simpl; lia|].
    exists c'. split; [done|]. split; [done|]. split.
    { eapply same_tables_trans; [exact Ht2|].
      eapply same_tables_trans; [|exact Ht']. by repeat split. }
    eexists. split.
    { rewrite Htr. cbn. rewrite Htr2, <-!app_assoc. reflexivity. }
    repeat apply quiet_app; try done; intros p Hl Hs; simpl; by rewrite ?Hl.
  - eexists. split; [done|]. split; [done|]. split.
    { eapply same_tables_trans; [exact Ht2|]. by repeat split. }
    exists evs2. by split.
Qed.

(** *** Future objects *)

Lemma futs_step_refl w fs : futs_step w fs fs.
Proof. intros ref f H. exists f. auto. Qed.

Lemma futs_step_trans w fs1 fs2 fs3 :
  futs_step w fs1 fs2 → futs_step w fs2 fs3 → futs_step w fs1 fs3.
Proof.
  intros H12 H23 ref f Hf.
  destruct (H12 ref f Hf) as (f2 & Hf2 & Hstep2).
  destruct (H23 ref f2 Hf2) as (f3 & Hf3 & Hstep3).
  exists f3. split; [done|].
  destruct Hstep2 as [->|[-> Hc2]]; [done|].
  destruct Hstep3 as [->|[-> Hc3]]; right; auto.
Qed.

Lemma futs_step_weaken w fs fs' : futs_step None fs fs' → futs_step w fs fs'.
Proof.
  intros H ref f Hf. destruct (H ref f Hf) as (f' & Hf' & [->|[-> Hc]]).
  - exists f. auto.
  - exists f'. split; [done|]. right. split; [done|]. intros Hf'c.
    by specialize (Hc Hf'c).
Qed.

Lemma futs_step_app w fs more : futs_step w fs (fs ++ more).
Proof.
  intros ref f Hf. exists f. split; [|auto]. by apply lookup_app_l_Some.
Qed.

(** Writing a slot that is still pending. *)
Lemma futs_step_write w fs r g :
  fs !! r = Some FPending → (g = FCancelled → w = Some r) →
  futs_step w fs (<[r := g]> fs).
Proof.
  intros Hr Hg ref f Hf. destruct (decide (ref = r)) as [->|Hne].
  - exists g. split.
    + apply list_lookup_insert_eq. by eapply lookup_lt_Some.
    + right. split; [congruence|done].
  - exists f. split; [|auto]. by rewrite list_lookup_insert_ne.
Qed.

Lemma fail_future_step e fs ref : futs_step None fs (fail_future e fs ref).
Proof.
  unfold fail_future, set_exception.
  destruct (fs !! ref) as [f|] eqn:Hf; [|apply futs_step_refl].
  destruct f; simpl; try apply futs_step_refl.
  by apply futs_step_write.
Qed.

Lemma fail_all_step e items : ∀ fs, futs_step None fs (fail_all e items fs).
Proof.
  induction items as [|item items IH]; intros fs; simpl.
  - apply futs_step_refl.
  - eapply futs_step_trans; [apply fail_future_step|apply IH].
Qed.

Lemma resolve_step c rid ref data :
  futs_step None (futures c) (futures (fst (resolve c rid ref data))).
Proof.
  unfold resolve, set_result. simpl.
  destruct (futures c !! ref) as [f|] eqn:Hf; [|apply futs_step_refl].
  destruct f; simpl; try apply futs_step_refl.
  by apply futs_step_write.
Qed.

(** *** [handle_message] *)

Lemma same_session_refl c : same_session c c.
Proof. by repeat split. Qed.

Lemma resolve_session c rid ref data :
  same_session c (fst (resolve c rid ref data))
  ∧ snd (resolve c rid ref data) = None.
Proof.
  unfold resolve, set_result. simpl.
  destruct (futures c !! ref) as [[]|]; simpl;
    (split; [repeat split; apply delete_subseteq|done]).
Qed.

Lemma dispatch_session c data fields :
  same_session c (fst (dispatch c data fields))
  ∧ futures (fst (dispatch c data fields)) = futures c.
Proof.
  unfold dispatch, invoke. repeat case_match; by repeat split.
Qed.

Lemma handle_message_body_session c m :
  same_session c (fst (handle_message_body E c m))
  ∧ futs_step None (futures c) (futures (fst (handle_message_body E c m))).
Proof.
  unfold handle_message_body.
  destruct (json_loads E m) as [data|];
    [|split; [apply same_session_refl|apply futs_step_refl]].
  destruct data; try (split; [apply same_session_refl|apply futs_step_refl]).
  destruct (in_pending c _) as [e|[[rid ref]|]].
  - split; [apply same_session_refl|apply futs_step_refl].
  - split; [apply resolve_session|apply resolve_step].
  - destruct (dispatch_session c (JObj fields) fields) as [Hs Hf].
    split; [done|]. rewrite Hf. apply futs_step_refl.
Qed.

(** Whatever the frame, no exception leaves [handle_message]. *)
Lemma handle_message_returns c m : snd (handle_message E c m) = None.
Proof.
  unfold handle_message.
  destruct (handle_message_body E c m) as [c1 [[]|]]; done.
Qed.

Lemma handle_message_session c m :
  same_session c (fst (handle_message E c m))
  ∧ futs_step None (futures c) (futures (fst (handle_message E c m))).
Proof.
  pose proof (handle_message_body_session c m) as [Hs Hf].
  unfold handle_message.
  destruct (handle_message_body E c m) as [c1 [[]|]]; simpl in *; by split.
Qed.

Lemma listen_frames_returns frames : ∀ c, snd (listen_frames E c frames) = None.
Proof.
  induction frames as [|m frames IH]; intros c; simpl; [done|].
  pose proof (handle_message_returns c m) as Hm.
  destruct (handle_message E c m) as [c1 r]. simpl in Hm. subst r. apply IH.
Qed.

(** *** [disconnect] *)

Lemma fail_all_lookup e ref items : ∀ fs,
  fs !! ref = Some FPending ∨ fs !! ref = Some (FException e) →
  (∃ rid, (rid, ref) ∈ items) ∨ fs !! ref = Some (FException e) →
  fail_all e items fs !! ref = Some (FException e).
Proof.
  induction items as [|[rid r] items IH]; intros fs Hst Hin; simpl.
  - destruct Hin as [[rid' Hin]|Hin]; [by apply elem_of_nil in Hin|done].
  - apply IH.
    + unfold fail_future, set_exception.
      destruct (decide (r = ref)) as [->|Hne].
      * destruct Hst as [H|H]; rewrite H; simpl; [|by right].
        right. apply list_lookup_insert_eq. by eapply lookup_lt_Some.
      * destruct (fs !! r) as [[]|]; simpl; try done.
        by rewrite list_lookup_insert_ne.
    + unfold fail_future, set_exception.
      destruct (decide (r = ref)) as [->|Hne].
      * right. destruct Hst as [H|H]; rewrite H; simpl; [|done].
        apply list_lookup_insert_eq. by eapply lookup_lt_Some.
      * destruct Hin as [[rid' Hin]|Hin].
        -- left. exists rid'. apply elem_of_cons in Hin as [Heq|Hin]; [|done].
           congruence.
        -- right. destruct (fs !! r) as [[]|]; simpl; try done.
           by rewrite list_lookup_insert_ne.
Qed.

(** [disconnect] empties the table and fails every request that was still
    pending in it. *)
Lemma disconnect_spec c :
  connected (disconnect E c) = false
  ∧ pending_requests (disconnect E c) = ∅
  ∧ subscriptions (disconnect E c) = subscriptions c
  ∧ request_id (disconnect E c) = request_id c
  ∧ futs_step None (futures c) (futures (disconnect E c))
  ∧ ∀ rid ref, pending_requests c !! rid = Some ref →
      futures c !! ref = Some FPending →
      futures (disconnect E c) !! ref
      = Some (FException (Exception "Connection closed")).
Proof.
  unfold disconnect.
  set (c2 := match ws (set_connected false c) with Some _ => _ | None => _ end).
  assert (H2 : futures c2 = futures c ∧ pending_requests c2 = pending_requests c
               ∧ subscriptions c2 = subscriptions c
               ∧ request_id c2 = request_id c
               ∧ connected c2 = false).
  { subst c2. simpl. repeat case_match; by repeat split. }
  destruct H2 as (Hf & Hp & Hs & Hr & Hc). simpl. rewrite Hf, Hp.
  repeat split; try done.
  - apply fail_all_step.
  - intros rid ref Hrid Href. apply fail_all_lookup; [by left|].
    left. exists rid. by apply elem_of_map_to_list.
Qed.

(** *** Steps of the session *)

Lemma session_step_refl w c : session_step w c c.
Proof. split; [apply futs_step_refl|]. split; [done|]. auto. Qed.

Lemma session_step_trans w c1 c2 c3 :
  session_step w c1 c2 → session_step w c2 c3 → session_step w c1 c3.
Proof.
  intros (Hf12 & Hr12 & Hk12) (Hf23 & Hr23 & Hk23).
  split; [by eapply futs_step_trans|]. split; [lia|].
  intros k Hk. destruct (Hk23 k Hk) as [Hk2|(n & t & -> & ? & ?)].
  - destruct (Hk12 k Hk2) as [?|(n & t & -> & ? & ?)]; [by left|].
    right. exists n, t. split; [done|]. lia.
  - right. exists n, t. split; [done|]. lia.
Qed.

Lemma session_step_weaken w c c' : session_step None c c' → session_step w c c'.
Proof. intros (?&?&?). split; [by apply futs_step_weaken|done]. Qed.

Lemma same_tables_step w c c' : same_tables c c' → session_step w c c'.
Proof.
  intros (Hf & Hp & Hr & _). split; [rewrite Hf; apply futs_step_refl|].
  split; [lia|]. intros k. rewrite Hp. auto.
Qed.

Lemma same_session_step w c c' :
  same_session c c' → futs_step None (futures c) (futures c') →
  session_step w c c'.
Proof.
  intros (_ & _ & _ & Hr & _ & _ & Hp) Hf.
  split; [by apply futs_step_weaken|]. split; [lia|].
  intros k [x Hk]. left. exists x. by eapply lookup_weaken.
Qed.

Lemma handle_message_step w c m :
  session_step w c (fst (handle_message E c m)).
Proof. apply same_session_step; apply handle_message_session. Qed.

Lemma disconnect_step w c : session_step w c (disconnect E c).
Proof.
  destruct (disconnect_spec c) as (_ & Hp & _ & Hr & Hf & _).
  split; [by apply futs_step_weaken|]. split; [lia|].
  intros k. rewrite Hp, lookup_empty. by intros [? ?].
Qed.

Lemma session_step_fields w c c' c'' :
  futures c'' = futures c' → pending_requests c'' = pending_requests c' →
  request_id c'' = request_id c' →
  session_step w c c' → session_step w c c''.
Proof. intros Hf Hp Hr (?&?&?). unfold session_step. by rewrite Hf, Hp, Hr. Qed.

(** *** Requests *)

Lemma get_request_id_spec c :
  fst (_get_request_id E c)
  = make_request_id (request_id c + 1) (clock_ms E (io c))
  ∧ request_id (snd (_get_request_id E c)) = request_id c + 1
  ∧ futures (snd (_get_request_id E c)) = futures c
  ∧ pending_requests (snd (_get_request_id E c)) = pending_requests c
  ∧ subscriptions (snd (_get_request_id E c)) = subscriptions c
  ∧ trace (snd (_get_request_id E c)) = trace c.
Proof. by repeat split. Qed.

Lemma swr_except_spec rid timeout e c :
  let c' := fst (swr_except rid timeout e c) in
  futures c' = futures c
  ∧ request_id c' = request_id c
  ∧ subscriptions c' = subscriptions c
  ∧ trace c' = trace c
  ∧ pending_requests c' = delete rid (pending_requests c).
Proof. unfold swr_except. by destruct e. Qed.

Lemma send_with_response_start_spec c m rid timeout :
  let c' := started_client (send_with_response_start E c m rid timeout) in
  futs_step None (futures c) (futures c')
  ∧ request_id c' = request_id c
  ∧ subscriptions c' = subscriptions c
  ∧ ∀ k, is_Some (pending_requests c' !! k) →
      k = rid ∨ is_Some (pending_requests c !! k).
Proof.
  unfold send_with_response_start.
  destruct (negb (is_connected c)); simpl.
  { split; [apply futs_step_refl|]. auto. }
  destruct (send E _ m) as [c2 r] eqn:Hsend.
  apply send_tables in Hsend as (Hf & Hp & Hr & Hs & _). simpl in *.
  assert (Hkeys : ∀ k, is_Some (pending_requests c2 !! k) →
                       k = rid ∨ is_Some (pending_requests c !! k)).
  { intros k. rewrite Hp. destruct (decide (k = rid)) as [->|Hne]; [auto|].
    rewrite lookup_insert_ne by done. auto. }
  destruct r as [e|]; simpl.
  - pose proof (swr_except_spec rid timeout e c2) as (Hf' & Hr' & Hs' & _ & Hp').
    destruct (swr_except rid timeout e c2) as [c3 e']. simpl in *.
    rewrite Hf', Hr', Hs', Hp', Hf. split; [apply futs_step_app|].
    repeat split; try done.
    intros k [x Hk]. apply lookup_delete_Some in Hk as [_ Hk]. eauto.
  - rewrite Hf. split; [apply futs_step_app|]. by repeat split.
Qed.

Lemma send_with_response_finish_spec c rid timeout ref :
  let c' := fst (send_with_response_finish c rid timeout ref) in
  futs_step (Some ref) (futures c) (futures c')
  ∧ request_id c' = request_id c
  ∧ subscriptions c' = subscriptions c
  ∧ connected c' = connected c
  ∧ pending_requests c' ⊆ pending_requests c.
Proof.
  unfold send_with_response_finish.
  destruct (futures c !! ref) as [[]|] eqn:Href; simpl;
    try (split; [apply futs_step_refl|by repeat split]).
  - split; [by apply futs_step_write|]. repeat split. apply delete_subseteq.
  - pose proof (swr_except_spec rid timeout e c) as (Hf' & Hr' & Hs' & _ & Hp').
    destruct (swr_except rid timeout e c) as [c3 e'] eqn:Hex. simpl in *.
    rewrite Hf', Hr', Hs', Hp'. split; [apply futs_step_refl|].
    repeat split; [|apply delete_subseteq].
    unfold swr_except in Hex. by destruct e; simplify_eq.
Qed.

Lemma finish_step c rid timeout ref :
  session_step (Some ref) c (fst (send_with_response_finish c rid timeout ref)).
Proof.
  destruct (send_with_response_finish_spec c rid timeout ref)
    as (Hf & Hr & _ & _ & Hp).
  split; [done|]. split; [lia|].
  intros k [x Hk]. left. exists x. by eapply lookup_weaken.
Qed.

(** A request whose id comes from [_get_request_id], as every caller of
    [send_with_response] obtains it. *)
Lemma issued_start_step c c1 m timeout :
  futures c1 = futures c → pending_requests c1 = pending_requests c →
  request_id c1 = request_id c + 1 →
  session_step None c
    (started_client
       (send_with_response_start E c1 m (fst (_get_request_id E c)) timeout)).
Proof.
  intros Hf Hp Hr.
  destruct (send_with_response_start_spec c1 m (fst (_get_request_id E c)) timeout)
    as (Hf' & Hr' & _ & Hk').
  rewrite Hf in Hf'. split; [done|]. split; [lia|].
  intros k Hk. destruct (Hk' k Hk) as [->|Hold].
  - right. exists (request_id c + 1), (clock_ms E (io c)). split; [done|]. lia.
  - left. by rewrite <-Hp.
Qed.

(** *** The connection methods from any state *)

Lemma no_subscribe_app evs1 evs2 :
  no_subscribe evs1 → no_subscribe evs2 → no_subscribe (evs1 ++ evs2).
Proof. intros H1 H2 sym. by rewrite count_events_app, H1, H2. Qed.

Lemma authenticate_spec c :
  same_tables c (fst (authenticate E c))
  ∧ ∃ evs, trace (fst (authenticate E c)) = trace c ++ evs ∧ no_subscribe evs.
Proof.
  unfold authenticate.
  destruct (send E (tick c) _) as [c1 r] eqn:Hsend.
  pose proof (send_tables _ _ _ _ Hsend) as Ht.
  destruct (send_trace _ _ _ _ Hsend) as (evs & Htr & Hev). simpl in Htr.
  assert (Hns : no_subscribe evs).
  { intros sym. by apply Hev. }
  destruct r; simpl.
  - split; [apply Ht|]. by exists evs.
  - split; [apply Ht|]. exists (evs ++ [Log INFO "Sent authentication message to Ironbeam" []]).
    split; [by rewrite Htr, app_assoc|].
    by apply no_subscribe_app.
Qed.

(** Whether or not the attempt succeeds, it writes no subscribe request
    and leaves the registry alone. *)
Lemma connect_attempt_spec c :
  same_tables c (fst (connect_attempt E c))
  ∧ ∃ evs, trace (fst (connect_attempt E c)) = trace c ++ evs
      ∧ no_subscribe evs.
Proof.
  unfold connect_attempt.
  destruct (ws_connect E _) as [e|sock]; simpl.
  { split; [by repeat split|]. by eexists [_]. }
  set (c0 := set_ws _ _).
  destruct (authenticate_spec c0) as (Ht & evs & Htr & Hns).
  destruct (authenticate E c0) as [c1 [e|]]; simpl in *.
  - split; [apply Ht|]. eexists. split; [by rewrite Htr, <-app_assoc|].
    by apply no_subscribe_app.
  - split; [apply Ht|]. eexists. split.
    { rewrite Htr. rewrite <-!app_assoc. reflexivity. }
    repeat apply no_subscribe_app; done.
Qed.

Lemma connect_loop_tables fuel : ∀ c c',
  connect_loop E fuel c = Some c' →
  same_tables c c'
  ∧ ∃ evs, trace c' = trace c ++ evs ∧ no_subscribe evs.
Proof.
  assert (Hstop : ∀ c, same_tables c c
             ∧ ∃ evs, trace c = trace c ++ evs ∧ no_subscribe evs).
  { intros c. split; [apply same_tables_refl|].
    exists []. by rewrite app_nil_r. }
  induction fuel as [|fuel IH]; intros c c'; cbn [connect_loop];
    destruct (negb (connected c) && _); intros H; simplify_eq; try apply Hstop.
  destruct (connect_attempt_spec c) as (Ht1 & evs1 & Htr1 & Hns1).
  destruct (connect_attempt E c) as [c1 [e|]]; simpl in *.
  - apply IH in H as (Ht & evs & Htr & Hns).
    destruct (connect_failed_spec e c1) as (_ & _ & Ht2 & Htr2).
    split; [eauto using same_tables_trans|].
    eexists. split.
    { rewrite Htr, Htr2, Htr1, <-!app_assoc. reflexivity. }
    repeat apply no_subscribe_app; done.
  - apply IH in H as (Ht & evs & Htr & Hns).
    split; [eauto using same_tables_trans|].
    eexists. split; [by rewrite Htr, Htr1, <-app_assoc|].
    by apply no_subscribe_app.
Qed.

Lemma connect_tables fuel c c' :
  connect E fuel c = Some c' →
  same_tables c c'
  ∧ ∃ evs, trace c' = trace c ++ evs ∧ no_subscribe evs.
Proof.
  unfold connect. destruct (connect_loop E fuel c) as [c1|] eqn:Hloop; [|done].
  apply connect_loop_tables in Hloop as (Ht & evs & Htr & Hns).
  destruct (negb (connected c1)); intros; simplify_eq; [|by eauto].
  split; [eapply same_tables_trans; [exact Ht|by repeat split]|].
  eexists. split; [cbn; by rewrite Htr, <-app_assoc|].
  by apply no_subscribe_app.
Qed.

Lemma listen_end_tables fuel closing c c' :
  listen E fuel [] closing c = Some c' → same_tables c c'.
Proof.
  unfold listen. cbn [listen_frames].
  set (c2 := match closing with None => c | Some _ => _ end).
  assert (Ht2 : same_tables c c2).
  { subst c2. destruct closing as [[]|]; by repeat split. }
  destruct (Nat.ltb _ _); intros H.
  - apply connect_tables in H as [Ht _].
    eapply same_tables_trans; [exact Ht2|].
    eapply same_tables_trans; [|exact Ht]. by repeat split.
  - simplify_eq. eapply same_tables_trans; [exact Ht2|]. by repeat split.
Qed.

(** *** The API calls *)

Lemma subscribe_start_step c sym :
  session_step None c (client_of (subscribe_start E c sym)).
Proof.
  unfold subscribe_start. destruct (bool_decide _); [apply session_step_refl|].
  cbn [_get_request_id].
  match goal with
  | |- context [send_with_response_start E ?c1 ?m ?rid ?t] =>
      pose proof (issued_start_step c c1 m t eq_refl eq_refl eq_refl) as H;
      cbn [_get_request_id fst] in H;
      destruct (send_with_response_start E c1 m rid t)
  end; simpl in *; by eapply session_step_fields; [..|exact H].
Qed.

Lemma unsubscribe_start_step c sym :
  session_step None c (client_of (unsubscribe_start E c sym)).
Proof.
  unfold unsubscribe_start. destruct (negb _); [apply session_step_refl|].
  cbn [_get_request_id].
  match goal with
  | |- context [send_with_response_start E ?c1 ?m ?rid ?t] =>
      pose proof (issued_start_step c c1 m t eq_refl eq_refl eq_refl) as H;
      cbn [_get_request_id fst] in H;
      destruct (send_with_response_start E c1 m rid t)
  end; simpl in *; by eapply session_step_fields; [..|exact H].
Qed.

Lemma request_start_step c c1 m fmt args :
  futures c1 = futures c → pending_requests c1 = pending_requests c →
  request_id c1 = request_id c + 1 →
  session_step None c
    (client_of (request_start E c1 m (fst (_get_request_id E c)) fmt args)).
Proof.
  intros Hf Hp Hr. unfold request_start.
  pose proof (issued_start_step c c1 m "10.0" Hf Hp Hr) as H.
  destruct (send_with_response_start E c1 m _ "10.0"); simpl in *;
    by eapply session_step_fields; [..|exact H].
Qed.

Lemma foldl_emit_fields evs : ∀ c,
  futures (foldl (fun acc ev => emit ev acc) c evs) = futures c
  ∧ pending_requests (foldl (fun acc ev => emit ev acc) c evs)
    = pending_requests c
  ∧ request_id (foldl (fun acc ev => emit ev acc) c evs) = request_id c
  ∧ subscriptions (foldl (fun acc ev => emit ev acc) c evs) = subscriptions c.
Proof.
  induction evs as [|ev evs IH]; intros c; simpl; [done|].
  destruct (IH (emit ev c)) as (-> & -> & -> & ->). done.
Qed.

Lemma request_finish_step c rid ref ok fmt args :
  session_step (Some ref) c (fst (request_finish c rid ref ok fmt args)).
Proof.
  unfold request_finish.
  pose proof (finish_step c rid "10.0" ref) as H.
  destruct (send_with_response_finish c rid "10.0" ref) as [c1 []]; simpl in *;
    try done.
  destruct (foldl_emit_fields ok c1) as (Hf & Hp & Hr & _).
  by eapply session_step_fields; [..|exact H].
Qed.

Lemma subscribe_finish_step c sym rid ref :
  session_step (Some ref) c (fst (subscribe_finish c sym rid ref)).
Proof.
  unfold subscribe_finish.
  pose proof (finish_step c rid "5.0" ref) as H.
  destruct (send_with_response_finish c rid "5.0" ref) as [c1 []]; simpl in *;
    try done; by eapply session_step_fields; [..|exact H].
Qed.

Lemma unsubscribe_finish_step c sym rid ref :
  session_step (Some ref) c (fst (unsubscribe_finish c sym rid ref)).
Proof.
  unfold unsubscribe_finish.
  pose proof (finish_step c rid "5.0" ref) as H.
  destruct (send_with_response_finish c rid "5.0" ref) as [c1 []]; simpl in *;
    try done; by eapply session_step_fields; [..|exact H].
Qed.

(** Every action is a step of the session. *)
Lemma perform_step a c c' :
  perform E c a = Some c' → session_step (wakes a) c c'.
Proof.
  destruct a; cbn [perform wakes]; intros H; simplify_eq.
  - apply connect_tables in H as [H _]. by apply same_tables_step.
  - apply disconnect_step.
  - apply handle_message_step.
  - apply listen_end_tables in H. by apply same_tables_step.
  - apply subscribe_start_step.
  - apply subscribe_finish_step.
  - apply unsubscribe_start_step.
  - apply unsubscribe_finish_step.
  - unfold place_order_start. cbn [_get_request_id].
    by apply (request_start_step c).
  - apply request_finish_step.
  - unfold cancel_order_start. cbn [_get_request_id].
    by apply (request_start_step c).
  - apply request_finish_step.
  - unfold get_positions_start. cbn [_get_request_id].
    by apply (request_start_step c).
  - apply request_finish_step.
  - unfold get_account_info_start. cbn [_get_request_id].
    by apply (request_start_step c).
  - apply request_finish_step.
Qed.

(** *** Histories *)

Lemma run_app history1 : ∀ c history2,
  run E c (history1 ++ history2)
  = match run E c history1 with
    | Some c1 => run E c1 history2
    | None => None
    end.
Proof.
  induction history1 as [|a history1 IH]; intros c history2; simpl; [done|].
  destruct (perform E c a); [apply IH|done].
Qed.

(** A future that is done stays as it is, whatever happens next. *)
Lemma run_done_stable history : ∀ c c' ref f,
  run E c history = Some c' →
  futures c !! ref = Some f → done f = true →
  futures c' !! ref = Some f.
Proof.
  induction history as [|a history IH]; intros c c' ref f Hrun Hf Hd;
    simpl in Hrun; [by simplify_eq|].
  destruct (perform E c a) as [c1|] eqn:Hp; [|done].
  apply perform_step in Hp as (Hfs & _).
  destruct (Hfs ref f Hf) as (f1 & Hf1 & [->|[-> _]]); [by eapply IH|done].
Qed.

(** Only the waiter's own wake-up cancels a future. *)
Lemma run_not_cancelled history : ∀ c c' ref f,
  run E c history = Some c' →
  (∀ a, a ∈ history → wakes a ≠ Some ref) →
  futures c !! ref = Some f → f ≠ FCancelled →
  ∃ f', futures c' !! ref = Some f' ∧ f' ≠ FCancelled.
Proof.
  induction history as [|a history IH]; intros c c' ref f Hrun Hw Hf Hn;
    simpl in Hrun; [simplify_eq; by exists f|].
  destruct (perform E c a) as [c1|] eqn:Hp; [|done].
  apply perform_step in Hp as (Hfs & _).
  destruct (Hfs ref f Hf) as (f1 & Hf1 & Hstep).
  eapply (IH c1 c' ref f1); [done| |done|].
  - intros a' Ha'. apply Hw. by right.
  - destruct Hstep as [->|[-> Hc]]; [done|].
    intros Hf1c. apply (Hw a); [by left|auto].
Qed.

Lemma run_request_id history : ∀ c c',
  run E c history = Some c' → request_id c ≤ request_id c'.
Proof.
  induction history as [|a history IH]; intros c c' Hrun; simpl in Hrun;
    [by simplify_eq|].
  destruct (perform E c a) as [c1|] eqn:Hp; [|done].
  apply perform_step in Hp as (_ & Hr & _). apply IH in Hrun. lia.
Qed.

Lemma session_step_keys w c c' :
  session_step w c c' → keys_issued c → keys_issued c'.
Proof.
  intros (_ & Hr & Hk) Hinv k Hin.
  destruct (Hk k Hin) as [Hold|(n & t & -> & _ & Hle)].
  - destruct (Hinv k Hold) as (n & t & -> & Hle). exists n, t. split; [done|lia].
  - by exists n, t.
Qed.

Lemma run_keys_issued history : ∀ c c',
  run E c history = Some c' → keys_issued c → keys_issued c'.
Proof.
  induction history as [|a history IH]; intros c c' Hrun Hinv; simpl in Hrun;
    [by simplify_eq|].
  destruct (perform E c a) as [c1|] eqn:Hp; [|done].
  apply perform_step in Hp. eauto using session_step_keys.
Qed.

Lemma init_keys_issued key secret url h1 h2 h3 :
  keys_issued (init key secret url h1 h2 h3).
Proof. intros k [x Hk]. simpl in Hk. by rewrite lookup_empty in Hk. Qed.

(** *** Request ids *)

Lemma pretty_N_go_underscore_free x : ∀ s,
  underscore_free s → underscore_free (pretty_N_go x s).
Proof.
  induction (N.lt_wf_0 x) as [x _ IH]; intros s Hs.
  destruct (decide (x = 0)%N) as [->|Hx]; [by rewrite pretty_N_go_0|].
  rewrite pretty_N_go_step by lia. apply IH.
  - apply N.div_lt; lia.
  - split; [|done]. unfold pretty_N_char. by repeat case_match.
Qed.

Lemma pretty_nat_underscore_free (n : nat) : underscore_free (pretty n).
Proof.
  unfold pretty, pretty_nat, pretty, pretty_N.
  case_decide; [done|]. by apply pretty_N_go_underscore_free.
Qed.

(** Two numerals followed by an underscore: the numerals are equal when
    the whole strings are. *)
Lemma underscore_split s1 : ∀ s2 r1 r2,
  underscore_free s1 → underscore_free s2 →
  s1 +:+ String "_" r1 = s2 +:+ String "_" r2 → s1 = s2.
Proof.
  induction s1 as [|a s1 IH]; intros [|b s2] r1 r2 H1 H2 Heq; simpl in *.
  - done.
  - destruct H2 as [Hb _]. by simplify_eq.
  - destruct H1 as [Ha _]. by simplify_eq.
  - destruct H1 as [_ H1], H2 as [_ H2]. simplify_eq. f_equal. eauto.
Qed.

(** The counter component alone tells two ids apart. *)
Lemma make_request_id_inj n millis n' millis' :
  make_request_id n millis = make_request_id n' millis' → n = n'.
Proof.
  unfold make_request_id. intros H.
  apply (inj (String.append "req_")) in H.
  change ("_" +:+ pretty millis) with (String "_" (pretty millis)) in H.
  change ("_" +:+ pretty millis') with (String "_" (pretty millis')) in H.
  apply underscore_split in H; auto using pretty_nat_underscore_free.
  by apply (inj pretty) in H.
Qed.

(** *** What the read loop writes *)

Lemma unsent_no_subscribe evs :
  Forall (fun ev => is_sent ev = false) evs → no_subscribe evs.
Proof.
  intros H sym. induction H as [|ev evs Hev _ IH]; simpl; [done|].
  rewrite IH. by destruct ev.
Qed.

Lemma handle_message_body_trace c m :
  ∃ evs, trace (fst (handle_message_body E c m)) = trace c ++ evs
    ∧ Forall (fun ev => is_sent ev = false) evs.
Proof.
  assert (Hnil : ∃ evs, trace c = trace c ++ evs
                   ∧ Forall (fun ev => is_sent ev = false) evs).
  { exists []. by rewrite app_nil_r. }
  unfold handle_message_body.
  destruct (json_loads E m) as [[]|]; try done.
  destruct (in_pending c _) as [e|[[rid ref]|]]; try done.
  - unfold resolve, set_result. simpl. by repeat case_match.
  - unfold dispatch, invoke.
    repeat case_match; simpl; eexists [_]; split; try done; by repeat constructor.
Qed.

Lemma handle_message_trace c m :
  ∃ evs, trace (fst (handle_message E c m)) = trace c ++ evs
    ∧ no_subscribe evs.
Proof.
  destruct (handle_message_body_trace c m) as (evs & Htr & Hev).
  unfold handle_message.
  destruct (handle_message_body E c m) as [c1 [e|]]; simpl in *.
  - exists (evs ++ [Log ERROR
              (match e with
               | JSONDecodeError _ => "Failed to decode message: {}"
               | _ => "Error handling message: {}"
               end)
              (match e with
               | JSONDecodeError _ => [AStr m]
               | _ => [AExn e]
               end)]).
    split; [destruct e; simpl; by rewrite Htr, app_assoc|].
    apply unsent_no_subscribe, Forall_app. split; [done|by repeat constructor].
  - exists evs. split; [done|by apply unsent_no_subscribe].
Qed.

Lemma listen_frames_spec frames : ∀ c,
  same_session c (fst (listen_frames E c frames))
  ∧ ∃ evs, trace (fst (listen_frames E c frames)) = trace c ++ evs
      ∧ no_subscribe evs.
Proof.
  induction frames as [|m frames IH]; intros c; simpl.
  { split; [apply same_session_refl|]. exists []. by rewrite app_nil_r. }
  pose proof (handle_message_returns c m) as Hr.
  pose proof (handle_message_session c m) as [Hs _].
  destruct (handle_message_trace c m) as (evs1 & Htr1 & Hns1).
  destruct (handle_message E c m) as [c1 r]. simpl in *. subst r.
  destruct (IH c1) as (Hs2 & evs2 & Htr2 & Hns2).
  split.
  - destruct Hs as (?&?&?&?&?&?&?), Hs2 as (?&?&?&?&?&?&?).
    repeat split; try congruence. by etrans.
  - exists (evs1 ++ evs2). split; [by rewrite Htr2, Htr1, app_assoc|].
    by apply no_subscribe_app.
Qed.

(** After any frames, the loop goes on to the next one. *)
Lemma listen_frames_snoc frames next : ∀ c,
  listen_frames E c (frames ++ [next])
  = handle_message E (fst (listen_frames E c frames)) next.
Proof.
  induction frames as [|m frames IH]; intros c; simpl.
  - pose proof (handle_message_returns c next) as Hr.
    destruct (handle_message E c next) as [c1 r]. simpl in Hr. by subst r.
  - pose proof (handle_message_returns c m) as Hr.
    destruct (handle_message E c m) as [c1 r]. simpl in Hr. subst r.
    apply IH.
Qed.

(** The whole of [listen] is the frames followed by its [finally] block. *)
Lemma listen_unfold fuel frames closing c :
  listen E fuel frames closing c
  = listen E fuel [] closing (fst (listen_frames E c frames)).
Proof.
  unfold listen. pose proof (listen_frames_returns frames c) as Hr.
  destruct (listen_frames E c frames) as [c1 r]. simpl in *. by subst r.
Qed.

(** *** Registration, resolution and late frames *)

Lemma send_with_response_start_awaiting c m rid timeout c1 ref :
  send_with_response_start E c m rid timeout = Awaiting c1 ref →
  pending_requests c1 !! rid = Some ref ∧ futures c1 !! ref = Some FPending.
Proof.
  unfold send_with_response_start.
  destruct (negb (is_connected c)); [done|].
  destruct (send E _ m) as [c2 [e|]] eqn:Hsend;
    [by destruct (swr_except rid timeout e c2)|].
  intros; simplify_eq.
  apply send_tables in Hsend as (-> & -> & _). simpl. split.
  - apply lookup_insert_eq.
  - by rewrite lookup_app_r, Nat.sub_diag.
Qed.

(** A frame that answers a request in the table. *)
Lemma handle_message_resolves c frame fields rid ref f :
  json_loads E frame = Some (JObj fields) →
  dict_get "request_id" fields = JStr rid → rid ≠ "" →
  pending_requests c !! rid = Some ref →
  futures c !! ref = Some f →
  futures (fst (handle_message E c frame)) !! ref
  = Some (if done f then f else FResult (JObj fields))
  ∧ pending_requests (fst (handle_message E c frame))
    = delete rid (pending_requests c).
Proof.
  intros Hj Hrid Hne Hp Hf.
  unfold handle_message, handle_message_body, in_pending.
  rewrite Hj, Hrid. cbn [truthy].
  destruct (String.eqb_spec rid "") as [|_]; [done|]. cbn [negb].
  rewrite Hp. unfold resolve, set_result. cbn. rewrite Hf.
  destruct f; cbn; split; try done.
  apply list_lookup_insert_eq. by eapply lookup_lt_Some.
Qed.


(** A handler that raises makes the [try] block of [handle_message]
    raise, after the call has been made. *)
Lemma handler_raise_reaches_try c frame fields kind h e :
  json_loads E frame = Some (JObj fields) →
  in_pending c (dict_get "request_id" fields) = inr None →
  is_str (dict_get "type" fields) (kind_tag kind) = true →
  handler_for c kind = Some h →
  h (dict_get_default "data" (JObj []) fields) = Some e →
  handle_message_body E c frame
  = (emit (Invoked kind (dict_get_default "data" (JObj []) fields)) c, Some e).
Proof.
  intros Hj Hin Htag Hh He.
  unfold handle_message_body. rewrite Hj, Hin. unfold dispatch, invoke.
  destruct (dict_get "type" fields) as [| | |tag| |]; try done.
  simpl in Htag. apply String.eqb_eq in Htag. subst tag.
  destruct kind; simpl in *; rewrite Hh, He; repeat case_match; done.
Qed.

(** An acknowledged subscribe adds the symbol, whatever the response. *)
Lemma subscribe_finish_response c sym rid ref data :
  futures c !! ref = Some (FResult data) →
  subscribe_finish c sym rid ref
  = (log INFO "Subscribed to market data: {}" [AStr sym]
       (set_subscriptions ({[sym]} ∪ subscriptions c) c),
     Return (JObj [("status", JStr "subscribed"); ("symbol", JStr sym);
                   ("data", data)])).
Proof.
  intros H. unfold subscribe_finish, send_with_response_finish. by rewrite H.
Qed.

Lemma occurrences_absent sym l : sym ∉ l → occurrences sym l = 0.
Proof.
  induction l as [|x l IH]; intros Hnin; simpl; [done|].
  apply not_elem_of_cons in Hnin as [Hne Hnin].
  destruct (String.eqb_spec x sym); [congruence|]. by rewrite IH.
Qed.

Lemma occurrences_NoDup sym l : NoDup l → sym ∈ l → occurrences sym l = 1.
Proof.
  induction 1 as [|x l Hx Hnd IH]; intros Hin; simpl.
  - by apply elem_of_nil in Hin.
  - destruct (String.eqb_spec x sym) as [->|Hne].
    + by rewrite occurrences_absent.
    + apply elem_of_cons in Hin as [?|Hin]; [congruence|]. by rewrite IH.
Qed.

End Properties.

(** * The claims *)

(** C1 (code defect).  The claim: on every transition out of Ready, by
    connection loss in the read loop or by shutdown, every live pending
    request is failed and none remains in the table.  [disconnect] does so
    ([disconnect_spec]); [listen] does not.  Here a subscribe request is in
    flight on a connected client when the server closes the connection:
    after [listen] has run to its end the client is disconnected, the entry
    is still in the table and its future is still pending. *)
Theorem C1_connection_loss_leaves_request_pending :
  connected in_flight = true
  ∧ pending_requests in_flight !! "req_1_1700000000000" = Some 0
  ∧ futures in_flight !! 0 = Some FPending
  ∧ ∃ c', after_loss in_flight = Some c'
      ∧ connected c' = false
      ∧ pending_requests c' !! "req_1_1700000000000" = Some 0
      ∧ futures c' !! 0 = Some FPending.
Proof.
  split; [by vm_compute|]. split; [by vm_compute|]. split; [by vm_compute|].
  destruct (listen_end_spec (accepting []) 10 (Some (ConnectionClosed "closed"))
              in_flight) as (c' & Hl & Hc & (Hf & Hp & _) & _).
  { vm_compute. lia. }
  exists c'. split; [exact Hl|]. split; [done|].
  rewrite Hf, Hp. split; by vm_compute.
Qed.

(** C5 (code defect).  The claim: retries with a linearly growing, capped
    delay, at most the configured number of times, then a hard error; each
    successful reconnect resets the attempt counter.  The delays, the bound
    and the final error are as claimed ([connect_spec]), but no attempt can
    succeed: [authenticate] goes through [send], which refuses while
    [connected] is still false.  Here a fresh client meets a broker that
    accepts every connection and every write: all ten attempts fail after
    sleeps of 5 to 50 seconds, not one frame is written, the counter ends
    at the maximum instead of zero, and a further [connect] only logs the
    same error. *)
Theorem C5_connect_never_succeeds_against_accepting_broker :
  ∃ c', connect (accepting []) 10 fresh = Some c'
    ∧ connected c' = false
    ∧ reconnect_attempts c' = 10
    ∧ sleeps (trace c') = [5; 10; 15; 20; 25; 30; 35; 40; 45; 50]
    ∧ count_events is_sent (trace c') = 0
    ∧ last (trace c')
      = Some (Log ERROR
                "Max reconnection attempts reached. Unable to connect to Ironbeam."
                [])
    ∧ connect (accepting []) 10 c'
      = Some (log ERROR
                "Max reconnection attempts reached. Unable to connect to Ironbeam."
                [] c').
Proof.
  destruct (connect_spec (accepting []) 10 fresh)
    as (c' & Hc & Hcn & Ha & (_ & _ & _ & _ & Hm) & evs & Htr & Hq & Hs);
    [reflexivity|vm_compute; lia|].
  change (reconnect_attempts c' = 10) in Ha.
  change (max_reconnect_attempts c' = 10) in Hm.
  change (trace fresh) with (@nil Event) in Htr. rewrite app_nil_l in Htr.
  exists c'. split; [exact Hc|]. split; [exact Hcn|]. split; [exact Ha|].
  split; [|split; [|split]].
  - rewrite Htr, sleeps_app, Hs, app_nil_r. reflexivity.
  - rewrite Htr, count_events_app, Hq by done. reflexivity.
  - rewrite Htr. apply last_snoc.
  - unfold connect. destruct c'; simpl in *. subst. reflexivity.
Qed.

(** *** Requests on the clock *)

(** [send] and [send_with_response_start] are their two halves run without
    anything in between. *)
Lemma send_split E c m :
  send E c m
  = match send_begin E c with
    | inl e => (c, Some e)
    | inr (c1, written) => send_end c1 m written
    end.
Proof.
  unfold send, send_begin, send_end.
  destruct (is_connected c); simpl; [|reflexivity].
  destruct (ws c); [destruct (ws_send E (io c))|]; reflexivity.
Qed.

Lemma send_with_response_start_split E c m rid timeout :
  send_with_response_start E c m rid timeout
  = match send_with_response_begin E c rid timeout with
    | NotWritten c1 e => Refused c1 e
    | InWrite c1 ref written =>
        send_with_response_written c1 m rid timeout ref written
    end.
Proof.
  unfold send_with_response_start, send_with_response_begin,
    send_with_response_written.
  destruct (negb (is_connected c)); [reflexivity|].
  rewrite send_split.
  destruct (send_begin E _) as [e|[c2 written]]; [|reflexivity].
  destruct (swr_except rid timeout e _). reflexivity.
Qed.



















(** C4.  For every future object: while it is pending, the response frame
    for its id, [disconnect] and the waiter's timeout each write it, with
    the response, the connection-closed exception and the cancellation;
    once it is done, no frame, no [disconnect] and no timeout changes it or
    raises, and neither does any later history of the session. *)
Theorem C4_result_slot_written_once E c ref f :
  futures c !! ref = Some f →
  (f = FPending →
     ∀ rid frame fields timeout,
       pending_requests c !! rid = Some ref →
       json_loads E frame = Some (JObj fields) →
       dict_get "request_id" fields = JStr rid → rid ≠ "" →
       futures (fst (handle_message E c frame)) !! ref
       = Some (FResult (JObj fields))
       ∧ futures (disconnect E c) !! ref
         = Some (FException (Exception "Connection closed"))
       ∧ futures (fst (send_with_response_finish c rid timeout ref)) !! ref
         = Some FCancelled)
  ∧ (done f = true →
       (∀ frame, futures (fst (handle_message E c frame)) !! ref = Some f
                 ∧ snd (handle_message E c frame) = None)
       ∧ futures (disconnect E c) !! ref = Some f
       ∧ (∀ rid timeout,
            futures (fst (send_with_response_finish c rid timeout ref)) !! ref
            = Some f)
       ∧ ∀ history c', run E c history = Some c' → futures c' !! ref = Some f).
Proof.
  intros Hf. split.
  - intros -> rid frame fields timeout Hp Hj Hrid Hne.
    destruct (handle_message_resolves E c frame fields rid ref _ Hj Hrid Hne Hp Hf)
      as [Hres _].
    split; [exact Hres|]. split.
    + destruct (disconnect_spec E c) as (_ & _ & _ & _ & _ & Hfail).
      by apply (Hfail rid ref).
    + unfold send_with_response_finish. rewrite Hf.
      change (futures (fst (swr_except rid timeout TimeoutError
                (set_futures (<[ref := cancel FPending]> (futures c)) c))))
        with (<[ref := FCancelled]> (futures c)).
      apply list_lookup_insert_eq. by eapply lookup_lt_Some.
  - intros Hd. split; [|split; [|split]].
    + intros frame. split; [|apply handle_message_returns].
      destruct (handle_message_session E c frame) as [_ Hstep].
      by destruct (Hstep ref f Hf) as (f' & Hf' & [->|[-> _]]).
    + destruct (disconnect_spec E c) as (_ & _ & _ & _ & Hstep & _).
      by destruct (Hstep ref f Hf) as (f' & Hf' & [->|[-> _]]).
    + intros rid timeout.
      destruct (send_with_response_finish_spec c rid timeout ref)
        as (Hstep & _).
      by destruct (Hstep ref f Hf) as (f' & Hf' & [->|[-> _]]).
    + intros history c' Hrun. by eapply run_done_stable.
Qed.

Lemma C4_result_slot_written_once_witness :
  (futures in_flight !! 0 = Some FPending
   ∧ futures answered !! 0 = Some (FResult ack)
   ∧ futures (disconnect acking in_flight) !! 0
     = Some (FException (Exception "Connection closed"))
   ∧ futures (fst (send_with_response_finish in_flight
                     "req_1_1700000000000" "5.0" 0)) !! 0
     = Some FCancelled)
  ∧ (done (FResult ack) = true
     ∧ futures (fst (handle_message acking answered "ack")) !! 0
       = Some (FResult ack)
     ∧ snd (handle_message acking answered "ack") = None
     ∧ futures (disconnect acking answered) !! 0 = Some (FResult ack)
     ∧ futures (fst (send_with_response_finish answered
                       "req_1_1700000000000" "5.0" 0)) !! 0
       = Some (FResult ack)).
Proof.
  assert (H1 : futures in_flight !! 0 = Some FPending) by (vm_compute; reflexivity).
  assert (H2 : futures answered !! 0 = Some (FResult ack))
    by (vm_compute; reflexivity).
  split.
  - destruct (C4_result_slot_written_once acking in_flight 0 FPending H1)
      as [Hfirst _].
    destruct (Hfirst eq_refl "req_1_1700000000000" "ack"
                [("request_id", JStr "req_1_1700000000000");
                 ("status", JStr "ok")] "5.0")
      as (Ha & Hb & Hc); try (vm_compute; reflexivity); [done|].
    split; [exact H1|]. split; [exact Ha|]. split; [exact Hb|exact Hc].
  - destruct (C4_result_slot_written_once acking answered 0 (FResult ack) H2)
      as [_ Hlater].
    destruct (Hlater eq_refl) as (Ha & Hb & Hc & _).
    split; [reflexivity|]. split; [apply Ha|]. split; [apply Ha|].
    split; [exact Hb|apply Hc].
Defined.

(** C6, the claim as stated, refuted.  The broker answers the request with
    an error notice that carries the request id.  [handle_message] hands
    the notice to the waiting call as its response, and the call updates
    the registry: the symbol is added by [subscribe] and removed by
    [unsubscribe] although the broker reported an error. *)
Lemma C6_broker_error_updates_registry :
  (∃ c1, subscribe_start rejecting (ready ∅) "MES"
         = Suspended c1 "req_1_1700000000000" 0
     ∧ ("MES" ∉ subscriptions c1)
     ∧ ("MES" ∈ subscriptions
         (fst (subscribe_finish (fst (handle_message rejecting c1 "rejection"))
                 "MES" "req_1_1700000000000" 0))))
  ∧ (∃ c1, unsubscribe_start rejecting (ready {["MES"]}) "MES"
           = Suspended c1 "req_1_1700000000000" 0
       ∧ ("MES" ∈ subscriptions c1)
       ∧ ("MES" ∉ subscriptions
           (fst (unsubscribe_finish
                   (fst (handle_message rejecting c1 "rejection"))
                   "MES" "req_1_1700000000000" 0)))).
Proof.
  split.
  - eexists. split; [vm_compute; reflexivity|]. split.
    + intros H. apply (bool_decide_pack _) in H. vm_compute in H. exact H.
    + apply (bool_decide_unpack _). vm_compute. exact I.
  - eexists. split; [vm_compute; reflexivity|]. split.
    + apply (bool_decide_unpack _). vm_compute. exact I.
    + intros H. apply (bool_decide_pack _) in H. vm_compute in H. exact H.
Qed.

(** C6, amended.  Neither call touches the registry before it waits.  When
    the wait ends with a response, whatever the response says, exactly the
    requested symbol is added or removed; when it ends in any other way
    the registry is left as it is. *)
Theorem C6_registry_updated_on_any_response E c sym rid ref :
  subscriptions (client_of (subscribe_start E c sym)) = subscriptions c
  ∧ subscriptions (client_of (unsubscribe_start E c sym)) = subscriptions c
  ∧ match futures c !! ref with
    | Some (FResult data) =>
        subscribe_finish c sym rid ref
        = (log INFO "Subscribed to market data: {}" [AStr sym]
             (set_subscriptions ({[sym]} ∪ subscriptions c) c),
           Return (JObj [("status", JStr "subscribed"); ("symbol", JStr sym);
                         ("data", data)]))
        ∧ unsubscribe_finish c sym rid ref
          = (log INFO "Unsubscribed from: {}" [AStr sym]
               (set_subscriptions (subscriptions c ∖ {[sym]}) c),
             Return (JObj [("status", JStr "unsubscribed");
                           ("symbol", JStr sym); ("data", data)]))
    | _ =>
        subscriptions (fst (subscribe_finish c sym rid ref)) = subscriptions c
        ∧ subscriptions (fst (unsubscribe_finish c sym rid ref))
          = subscriptions c
    end.
Proof.
  split; [|split].
  - unfold subscribe_start. destruct (bool_decide _); [done|].
    cbn [_get_request_id].
    match goal with
    | |- context [send_with_response_start E ?c1 ?m ?r ?t] =>
        destruct (send_with_response_start_spec E c1 m r t) as (_ & _ & Hs & _);
        destruct (send_with_response_start E c1 m r t)
    end; simpl in *; exact Hs.
  - unfold unsubscribe_start. destruct (negb _); [done|].
    cbn [_get_request_id].
    match goal with
    | |- context [send_with_response_start E ?c1 ?m ?r ?t] =>
        destruct (send_with_response_start_spec E c1 m r t) as (_ & _ & Hs & _);
        destruct (send_with_response_start E c1 m r t)
    end; simpl in *; exact Hs.
  - unfold subscribe_finish, unsubscribe_finish, send_with_response_finish.
    destruct (futures c !! ref) as [[|data|e|]|]; simpl; try done.
    destruct (swr_except rid "5.0" e c) as [c1 e'] eqn:Hex.
    pose proof (swr_except_spec rid "5.0" e c) as (_ & _ & Hs & _).
    rewrite Hex in Hs. by simpl in *.
Qed.

(** C7.  Whatever the frame, [handle_message] returns normally and leaves
    [connected] and the socket as they were.  A frame that does not decode
    costs one ERROR record and nothing else.  A callback that raises has
    been called and costs one ERROR record.  So the loop over the incoming
    frames never ends early: after any frames whatever, the next one is
    handled. *)
Theorem C7_read_loop_survives_frames_and_handlers E c frame :
  snd (handle_message E c frame) = None
  ∧ connected (fst (handle_message E c frame)) = connected c
  ∧ ws (fst (handle_message E c frame)) = ws c
  ∧ (json_loads E frame = None →
       fst (handle_message E c frame)
       = log ERROR "Failed to decode message: {}" [AStr frame] c)
  ∧ (∀ fields kind h e,
       json_loads E frame = Some (JObj fields) →
       in_pending c (dict_get "request_id" fields) = inr None →
       is_str (dict_get "type" fields) (kind_tag kind) = true →
       handler_for c kind = Some h →
       h (dict_get_default "data" (JObj []) fields) = Some e →
       ∃ fmt args,
         fst (handle_message E c frame)
         = log ERROR fmt args
             (emit (Invoked kind (dict_get_default "data" (JObj []) fields)) c))
  ∧ ∀ frames,
      snd (listen_frames E c frames) = None
      ∧ ∀ next, listen_frames E c (frames ++ [next])
                = handle_message E (fst (listen_frames E c frames)) next.
Proof.
  split; [apply handle_message_returns|].
  destruct (handle_message_session E c frame) as [(Hc & Hw & _) _].
  split; [done|]. split; [done|]. split; [|split].
  - intros Hj. unfold handle_message, handle_message_body. by rewrite Hj.
  - intros fields kind h e Hj Hin Htag Hh He. unfold handle_message.
    rewrite (handler_raise_reaches_try E c frame fields kind h e) by done.
    destruct e; by eexists _, _.
  - intros frames. split; [apply listen_frames_returns|].
    intros next. apply listen_frames_snoc.
Qed.

Lemma C7_read_loop_survives_frames_and_handlers_witness :
  json_loads ticking "noise" = None
  ∧ fst (handle_message ticking listening "noise")
    = log ERROR "Failed to decode message: {}" [AStr "noise"] listening
  ∧ (∃ fmt args,
       fst (handle_message ticking listening "tick")
       = log ERROR fmt args (emit (Invoked MarketData tick_payload) listening))
  ∧ listen_frames ticking listening (["noise"; "tick"] ++ ["tick"])
    = handle_message ticking
        (fst (listen_frames ticking listening ["noise"; "tick"])) "tick".
Proof.
  assert (Hnoise : json_loads ticking "noise" = None) by reflexivity.
  destruct (C7_read_loop_survives_frames_and_handlers ticking listening "noise")
    as (_ & _ & _ & Hdecode & _ & Hloop).
  destruct (C7_read_loop_survives_frames_and_handlers ticking listening "tick")
    as (_ & _ & _ & _ & Hraise & _).
  split; [exact Hnoise|]. split; [exact (Hdecode Hnoise)|]. split.
  - apply (Hraise [("type", JStr "market_data"); ("data", tick_payload)]
             MarketData raising_handler (OtherError "ValueError" "bad tick"));
      reflexivity.
  - apply Hloop.
Defined.

(** C8.  Two subscribe calls for one symbol are both waiting and both
    are acknowledged.  Each returns "subscribed"; after the first the
    symbol is in the registry, the second leaves the registry as the first
    left it, the listing of the registry shows the symbol once, and a third
    call is answered "already_subscribed" at once. *)
Theorem C8_subscribe_twice_registers_once
    E c sym rid1 ref1 rid2 ref2 data1 data2 :
  futures c !! ref1 = Some (FResult data1) →
  futures c !! ref2 = Some (FResult data2) →
  ∃ c1 c2,
    subscribe_finish c sym rid1 ref1
    = (c1, Return (JObj [("status", JStr "subscribed"); ("symbol", JStr sym);
                         ("data", data1)]))
    ∧ subscribe_finish c1 sym rid2 ref2
      = (c2, Return (JObj [("status", JStr "subscribed"); ("symbol", JStr sym);
                           ("data", data2)]))
    ∧ subscriptions c1 = {[sym]} ∪ subscriptions c
    ∧ subscriptions c2 = subscriptions c1
    ∧ occurrences sym (stat_subscriptions (get_connection_stats c2)) = 1
    ∧ subscribe_start E c2 sym
      = Finished c2 (JObj [("status", JStr "already_subscribed");
                           ("symbol", JStr sym)]).
Proof.
  intros H1 H2.
  pose proof (subscribe_finish_response c sym rid1 ref1 data1 H1) as Hfin1.
  set (c1 := log INFO "Subscribed to market data: {}" [AStr sym]
               (set_subscriptions ({[sym]} ∪ subscriptions c) c)) in *.
  pose proof (subscribe_finish_response c1 sym rid2 ref2 data2 H2) as Hfin2.
  set (c2 := log INFO "Subscribed to market data: {}" [AStr sym]
               (set_subscriptions ({[sym]} ∪ subscriptions c1) c1)) in *.
  assert (Hs1 : subscriptions c1 = {[sym]} ∪ subscriptions c) by reflexivity.
  assert (Hs2 : subscriptions c2 = {[sym]} ∪ subscriptions c1) by reflexivity.
  exists c1, c2. split; [exact Hfin1|]. split; [exact Hfin2|].
  split; [exact Hs1|]. split; [rewrite Hs2, Hs1; set_solver|]. split.
  - change (stat_subscriptions (get_connection_stats c2))
      with (elements (subscriptions c2)).
    apply occurrences_NoDup; [apply NoDup_elements|].
    apply elem_of_elements. rewrite Hs2. set_solver.
  - unfold subscribe_start. rewrite bool_decide_eq_true_2; [done|].
    rewrite Hs2. set_solver.
Qed.

Lemma C8_subscribe_twice_registers_once_witness :
  futures both_acknowledged !! 0 = Some (FResult ack1)
  ∧ futures both_acknowledged !! 1 = Some (FResult ack2)
  ∧ ∃ c1 c2,
      subscribe_finish both_acknowledged "MES" "req_1_1700000000000" 0
      = (c1, Return (JObj [("status", JStr "subscribed");
                           ("symbol", JStr "MES"); ("data", ack1)]))
      ∧ subscribe_finish c1 "MES" "req_2_1700000000002" 1
        = (c2, Return (JObj [("status", JStr "subscribed");
                             ("symbol", JStr "MES"); ("data", ack2)]))
      ∧ subscriptions c1 = {["MES"]} ∪ subscriptions both_acknowledged
      ∧ subscriptions c2 = subscriptions c1
      ∧ occurrences "MES" (stat_subscriptions (get_connection_stats c2)) = 1
      ∧ subscribe_start acking_both c2 "MES"
        = Finished c2 (JObj [("status", JStr "already_subscribed");
                             ("symbol", JStr "MES")]).
Proof.
  assert (H1 : futures both_acknowledged !! 0 = Some (FResult ack1))
    by (vm_compute; reflexivity).
  assert (H2 : futures both_acknowledged !! 1 = Some (FResult ack2))
    by (vm_compute; reflexivity).
  split; [exact H1|]. split; [exact H2|].
  exact (C8_subscribe_twice_registers_once acking_both both_acknowledged "MES"
           "req_1_1700000000000" 0 "req_2_1700000000002" 1 ack1 ack2 H1 H2).
Defined.

(** C9.  In a session whose table holds only ids it issued, that stays so
    whatever the session does; the id that [_get_request_id] returns is not
    a key of the table, so registering it overwrites no live request; and
    every id returned later in the session, at whatever clock reading,
    differs from it. *)
Theorem C9_request_ids_unique E c history c' :
  keys_issued c →
  run E c history = Some c' →
  keys_issued c'
  ∧ pending_requests c' !! fst (_get_request_id E c') = None
  ∧ ∀ later c'',
      run E (snd (_get_request_id E c')) later = Some c'' →
      fst (_get_request_id E c'') ≠ fst (_get_request_id E c').
Proof.
  intros Hinv Hrun.
  assert (Hinv' : keys_issued c') by eauto using run_keys_issued.
  split; [exact Hinv'|]. split.
  - destruct (pending_requests c' !! fst (_get_request_id E c')) as [ref|] eqn:Hk;
      [|done].
    destruct (Hinv' _ (mk_is_Some _ _ Hk)) as (n & millis & Heq & Hle).
    destruct (get_request_id_spec E c') as (Hid & _). rewrite Hid in Heq.
    apply make_request_id_inj in Heq. lia.
  - intros later c'' Hlater Heq.
    apply run_request_id in Hlater.
    destruct (get_request_id_spec E c') as (Hid & Hr & _).
    destruct (get_request_id_spec E c'') as (Hid' & _).
    rewrite Hid, Hid' in Heq. apply make_request_id_inj in Heq. lia.
Qed.

Lemma C9_request_ids_unique_witness :
  keys_issued (ready ∅)
  ∧ run (accepting []) (ready ∅) [Subscribe "MES"] = Some in_flight
  ∧ keys_issued in_flight
  ∧ pending_requests in_flight !! fst (_get_request_id (accepting []) in_flight)
    = None
  ∧ ∀ later c'',
      run (accepting []) (snd (_get_request_id (accepting []) in_flight)) later
      = Some c'' →
      fst (_get_request_id (accepting []) c'')
      ≠ fst (_get_request_id (accepting []) in_flight).
Proof.
  assert (H1 : keys_issued (ready ∅)).
  { intros k [x Hk].
    change (pending_requests (ready ∅)) with (∅ : gmap string nat) in Hk.
    by rewrite lookup_empty in Hk. }
  assert (H2 : run (accepting []) (ready ∅) [Subscribe "MES"] = Some in_flight)
    by reflexivity.
  split; [exact H1|]. split; [exact H2|].
  exact (C9_request_ids_unique (accepting []) (ready ∅) [Subscribe "MES"]
           in_flight H1 H2).
Defined.

(** C10.  [subscribe] for a symbol already in the registry, and
    [unsubscribe] for a symbol not in it, finish at once with the
    "already_subscribed" and "not_subscribed" outcomes and leave the whole
    client as it was: nothing is written, no request id is taken, no entry
    is added to the table. *)
Theorem C10_known_state_answered_without_request E c sym :
  (sym ∈ subscriptions c →
     subscribe_start E c sym
     = Finished c (JObj [("status", JStr "already_subscribed");
                         ("symbol", JStr sym)]))
  ∧ (sym ∉ subscriptions c →
       unsubscribe_start E c sym
       = Finished c (JObj [("status", JStr "not_subscribed");
                           ("symbol", JStr sym)])).
Proof.
  split; intros H.
  - unfold subscribe_start. by rewrite bool_decide_eq_true_2.
  - unfold unsubscribe_start. by rewrite bool_decide_eq_false_2.
Qed.

Lemma C10_known_state_answered_without_request_witness :
  ("MES" ∈ subscriptions (ready {["MES"]})
   ∧ subscribe_start (accepting []) (ready {["MES"]}) "MES"
     = Finished (ready {["MES"]})
         (JObj [("status", JStr "already_subscribed"); ("symbol", JStr "MES")]))
  ∧ ("MES" ∉ subscriptions (ready ∅)
     ∧ unsubscribe_start (accepting []) (ready ∅) "MES"
       = Finished (ready ∅)
           (JObj [("status", JStr "not_subscribed"); ("symbol", JStr "MES")])).
Proof.
  assert (H1 : "MES" ∈ subscriptions (ready {["MES"]})).
  { change (subscriptions (ready {["MES"]})) with ({["MES"]} : gset string).
    by apply elem_of_singleton. }
  assert (H2 : "MES" ∉ subscriptions (ready ∅)).
  { change (subscriptions (ready ∅)) with (∅ : gset string).
    apply not_elem_of_empty. }
  split.
  - split; [exact H1|].
    exact (proj1 (C10_known_state_answered_without_request (accepting [])
                    (ready {["MES"]}) "MES") H1).
  - split; [exact H2|].
    exact (proj2 (C10_known_state_answered_without_request (accepting [])
                    (ready ∅) "MES") H2).
Defined.

(** * Further properties of the client *)

(** X1.  [send] has three outcomes.  On a client that is not connected it
    raises "WebSocket not connected" and changes nothing.  On a connected
    client a write that succeeds puts exactly the given message on the
    socket and leaves the client connected; a write that fails is logged,
    clears [connected], writes nothing and is re-raised unchanged. *)
Theorem X1_send_outcomes E c message :
  (is_connected c = false →
     send E c message = (c, Some (Exception "WebSocket not connected")))
  ∧ (is_connected c = true →
       ∃ sock, ws c = Some sock
         ∧ (ws_send E (io c) = None →
              ∃ c' action, send E c message = (c', None)
                ∧ connected c' = true
                ∧ trace c' = trace c
                    ++ [Sent sock message;
                        Log DEBUG "Sent message: {}" [AJson action]])
         ∧ (∀ e, ws_send E (io c) = Some e →
              ∃ c', send E c message = (c', Some e)
                ∧ connected c' = false
                ∧ trace c' = trace c
                    ++ [Log ERROR "Failed to send message: {}" [AExn e]])).
Proof.
  split.
  - intros H. unfold send. by rewrite H.
  - intros H. unfold is_connected in H.
    apply andb_true_iff in H as [Hc Hw].
    apply bool_decide_eq_true in Hw as [sock Hw].
    exists sock. split; [exact Hw|]. unfold send, is_connected.
    rewrite Hc, Hw. rewrite bool_decide_eq_true_2 by eauto. cbn [negb andb].
    split.
    + intros ->. eexists _, _. split; [reflexivity|]. split; [exact Hc|].
      cbn. by rewrite <-app_assoc.
    + intros e ->. eexists. split; [reflexivity|]. by split.
Qed.

Lemma X1_send_outcomes_witness :
  (is_connected fresh = false
   ∧ send (accepting []) fresh unanswered_message
     = (fresh, Some (Exception "WebSocket not connected")))
  ∧ (is_connected (ready ∅) = true
     ∧ ∃ c', send failing_writes (ready ∅) unanswered_message
             = (c', Some (ConnectionClosed "gone"))
         ∧ connected c' = false
         ∧ trace c' = trace (ready ∅)
             ++ [Log ERROR "Failed to send message: {}"
                   [AExn (ConnectionClosed "gone")]]).
Proof.
  split.
  - split; [reflexivity|].
    exact (proj1 (X1_send_outcomes (accepting []) fresh unanswered_message)
             eq_refl).
  - split; [reflexivity|].
    destruct (proj2 (X1_send_outcomes failing_writes (ready ∅)
                       unanswered_message) eq_refl)
      as (sock & _ & _ & Hfail).
    exact (Hfail (ConnectionClosed "gone") eq_refl).
Defined.

(** X2.  From a disconnected client [connect] always returns, and always
    returns a disconnected client: it makes one attempt for every unit of
    budget left, sleeps [min(5 * k, 60)] seconds after failed attempt [k]
    (never more than 60), writes no frame, leaves the registry, the table,
    the futures and the request counter alone, ends with the counter at
    the maximum (or where it was, if that was higher) and logs the
    max-attempts error last. *)
Theorem X2_connect_exhausts_attempt_budget E fuel c :
  connected c = false →
  max_reconnect_attempts c - reconnect_attempts c ≤ fuel →
  ∃ c' evs,
    connect E fuel c = Some c'
    ∧ connected c' = false
    ∧ reconnect_attempts c'
      = Nat.max (reconnect_attempts c) (max_reconnect_attempts c)
    ∧ same_tables c c'
    ∧ trace c' = trace c ++ evs
        ++ [Log ERROR
              "Max reconnection attempts reached. Unable to connect to Ironbeam."
              []]
    ∧ sleeps evs
      = map backoff (seq (S (reconnect_attempts c))
                       (max_reconnect_attempts c - reconnect_attempts c))
    ∧ Forall (fun seconds => seconds ≤ 60) (sleeps evs)
    ∧ count_events is_sent evs = 0.
Proof.
  intros Hc Hfuel.
  destruct (connect_spec E fuel c Hc Hfuel)
    as (c' & Hcon & Hc' & Ha & Ht & evs & Htr & Hq & Hs).
  exists c', evs. repeat (split; [done|]). split.
  - rewrite Hs. apply Forall_forall. intros s Hin.
    apply list_elem_of_fmap in Hin as (k & -> & _). unfold backoff. lia.
  - by apply Hq.
Qed.

Lemma X2_connect_exhausts_attempt_budget_witness :
  connected (set_reconnect_attempts 7 fresh) = false
  ∧ ∃ c' evs,
      connect failing_writes 3 (set_reconnect_attempts 7 fresh) = Some c'
      ∧ connected c' = false
      ∧ reconnect_attempts c' = 10
      ∧ sleeps evs = [40; 45; 50]
      ∧ count_events is_sent evs = 0.
Proof.
  split; [reflexivity|].
  destruct (X2_connect_exhausts_attempt_budget failing_writes 3
              (set_reconnect_attempts 7 fresh) eq_refl)
    as (c' & evs & H1 & H2 & H3 & _ & _ & H4 & _ & H5); [vm_compute; lia|].
  exists c', evs. split; [exact H1|]. split; [exact H2|].
  split; [exact H3|]. split; [exact H4|exact H5].
Defined.

(** X3.  [connect] makes no attempt on a client that is connected, which
    it returns as it is, nor on a disconnected client whose budget is used
    up, to which it only adds the max-attempts error: the failed state is
    left only by resetting the counter from outside. *)
Theorem X3_connect_idle_when_connected_or_exhausted E fuel c :
  (connected c = true → connect E fuel c = Some c)
  ∧ (connected c = false →
     max_reconnect_attempts c ≤ reconnect_attempts c →
     connect E fuel c
     = Some (log ERROR
               "Max reconnection attempts reached. Unable to connect to Ironbeam."
               [] c)).
Proof.
  split.
  - apply connect_connected.
  - intros Hc Hmax. unfold connect.
    assert (Hloop : connect_loop E fuel c = Some c).
    { destruct fuel; cbn [connect_loop]; rewrite Hc; cbn [negb andb];
        destruct (Nat.ltb_spec (reconnect_attempts c)
                    (max_reconnect_attempts c)); done || lia. }
    by rewrite Hloop, Hc.
Qed.

Lemma X3_connect_idle_when_connected_or_exhausted_witness :
  (connected (ready ∅) = true
   ∧ connect (accepting []) 0 (ready ∅) = Some (ready ∅))
  ∧ (connected (set_reconnect_attempts 10 fresh) = false
     ∧ max_reconnect_attempts (set_reconnect_attempts 10 fresh)
       ≤ reconnect_attempts (set_reconnect_attempts 10 fresh)
     ∧ connect (accepting []) 0 (set_reconnect_attempts 10 fresh)
       = Some (log ERROR
                 "Max reconnection attempts reached. Unable to connect to Ironbeam."
                 [] (set_reconnect_attempts 10 fresh))).
Proof.
  assert (Hle : max_reconnect_attempts (set_reconnect_attempts 10 fresh)
                ≤ reconnect_attempts (set_reconnect_attempts 10 fresh))
    by (vm_compute; lia).
  split.
  - split; [reflexivity|].
    exact (proj1 (X3_connect_idle_when_connected_or_exhausted (accepting []) 0
                    (ready ∅)) eq_refl).
  - split; [reflexivity|]. split; [exact Hle|].
    exact (proj2 (X3_connect_idle_when_connected_or_exhausted (accepting []) 0
                    (set_reconnect_attempts 10 fresh)) eq_refl Hle).
Defined.

(** *** A client that never was connected *)

Lemma connect_loop_disconnected E fuel : ∀ c c',
  connected c = false →
  connect_loop E fuel c = Some c' →
  connected c' = false
  ∧ same_tables c c'
  ∧ ∃ evs, trace c' = trace c ++ evs ∧ quiet evs.
Proof.
  induction fuel as [|fuel IH]; intros c c' Hc; cbn [connect_loop];
    rewrite Hc; cbn [negb andb];
    destruct (Nat.ltb _ _); intros H; simplify_eq;
    try (split; [done|]; split; [apply same_tables_refl|];
         exists []; by rewrite app_nil_r).
  destruct (connect_attempt_refused E c Hc)
    as (c1 & e & Hatt & Hc1 & _ & Ht1 & Htr1).
  rewrite Hatt in H.
  destruct (connect_failed_spec e c1) as (Hc2 & _ & Ht2 & Htr2).
  apply IH in H as (Hc' & Ht' & evs & Htr & Hq); [|congruence].
  split; [done|]. split; [eauto using same_tables_trans|].
  eexists. split.
  { rewrite Htr, Htr2, Htr1, <-!app_assoc. reflexivity. }
  repeat apply quiet_app; try done; intros p Hl Hs; simpl; by rewrite ?Hl, ?Hs.
Qed.

Lemma connect_disconnected E fuel c c' :
  connected c = false →
  connect E fuel c = Some c' →
  connected c' = false
  ∧ same_tables c c'
  ∧ ∃ evs, trace c' = trace c ++ evs ∧ quiet evs.
Proof.
  intros Hc. unfold connect.
  destruct (connect_loop E fuel c) as [c1|] eqn:Hloop; [|done].
  apply connect_loop_disconnected in Hloop as (Hc1 & Ht & evs & Htr & Hq);
    [|done].
  rewrite Hc1. cbn [negb]. intros; simplify_eq.
  split; [done|]. split; [eapply same_tables_trans; [exact Ht|by repeat split]|].
  eexists. split; [cbn; by rewrite Htr, <-app_assoc|].
  apply quiet_app; [done|]. intros p Hl Hs. simpl. by rewrite Hl.
Qed.

Lemma listen_end_disconnected E fuel closing c c' :
  listen E fuel [] closing c = Some c' →
  connected c' = false
  ∧ same_tables c c'
  ∧ ∃ evs, trace c' = trace c ++ evs ∧ quiet evs.
Proof.
  unfold listen. cbn [listen_frames].
  set (c2 := match closing with None => c | Some _ => _ end).
  assert (H2 : same_tables c c2 ∧ ∃ evs, trace c2 = trace c ++ evs ∧ quiet evs).
  { subst c2. destruct closing as [[]|]; (split; [by repeat split|]);
      first [ by exists []; rewrite app_nil_r
            | eexists [_]; split; [done|]; intros p Hl Hs; simpl; by rewrite Hl ]. }
  destruct H2 as (Ht2 & evs2 & Htr2 & Hq2).
  destruct (Nat.ltb _ _); intros H.
  - apply connect_disconnected in H as (Hc' & Ht' & evs & Htr & Hq); [|done].
    split; [done|]. split.
    { eapply same_tables_trans; [exact Ht2|].
      eapply same_tables_trans; [|exact Ht']. by repeat split. }
    eexists. split; [rewrite Htr; cbn; rewrite Htr2, <-!app_assoc; reflexivity|].
    repeat apply quiet_app; try done. intros p Hl Hs. simpl. by rewrite Hl.
  - simplify_eq. split; [done|]. split.
    { eapply same_tables_trans; [exact Ht2|]. by repeat split. }
    by exists evs2.
Qed.

Lemma unsent_count evs :
  Forall (fun ev => is_sent ev = false) evs → count_events is_sent evs = 0.
Proof.
  induction 1 as [|ev evs Hev _ IH]; simpl; [done|]. by rewrite Hev, IH.
Qed.

Lemma disconnect_trace E c :
  ∃ evs, trace (disconnect E c) = trace c ++ evs
    ∧ Forall (fun ev => is_sent ev = false) evs.
Proof.
  unfold disconnect. cbn.
  destruct (ws c); [destruct (ws_close E _)|]; cbn.
  - eexists [_]. split; [done|]. by repeat constructor.
  - eexists [_; _]. split; [by rewrite <-app_assoc|]. by repeat constructor.
  - exists []. by rewrite app_nil_r.
Qed.

Lemma count_sent_log lvl fmt args c :
  count_events is_sent (trace (log lvl fmt args c))
  = count_events is_sent (trace c).
Proof.
  unfold log, emit. cbn [trace rebuild]. rewrite count_events_app. simpl. lia.
Qed.

(** The read loop writes nothing to the socket. *)
Lemma handle_message_unsent E c m :
  ∃ evs, trace (fst (handle_message E c m)) = trace c ++ evs
    ∧ Forall (fun ev => is_sent ev = false) evs.
Proof.
  destruct (handle_message_body_trace E c m) as (evs & Htr & Hev).
  unfold handle_message.
  destruct (handle_message_body E c m) as [c1 [e|]]; simpl in *.
  - destruct e; eexists; (split; [cbn; rewrite Htr, <-app_assoc; reflexivity|]);
      apply Forall_app; (split; [done|by repeat constructor]).
  - by exists evs.
Qed.

Lemma disconnect_empty_table E c :
  pending_requests c = ∅ → futures (disconnect E c) = futures c.
Proof.
  intros Hp. unfold disconnect.
  set (c2 := match ws (set_connected false c) with Some _ => _ | None => _ end).
  assert (H2 : futures c2 = futures c ∧ pending_requests c2 = pending_requests c).
  { subst c2. simpl. repeat case_match; by repeat split. }
  destruct H2 as (Hf & Hp2). simpl. by rewrite Hf, Hp2, Hp, map_to_list_empty.
Qed.

Lemma handle_message_empty_table E c m :
  pending_requests c = ∅ →
  futures (fst (handle_message E c m)) = futures c
  ∧ pending_requests (fst (handle_message E c m)) = ∅.
Proof.
  intros Hp. unfold handle_message, handle_message_body.
  destruct (json_loads E m) as [[| | | | |fields]|];
    try (split; [reflexivity|exact Hp]).
  assert (Hin : ∀ rid, in_pending c rid = inr None
                       ∨ ∃ e, in_pending c rid = inl e).
  { intros rid. unfold in_pending. rewrite Hp.
    destruct (negb (truthy rid)); [by left|].
    destruct rid;
      first [ by left | right; by eexists | rewrite lookup_empty; by left ]. }
  destruct (Hin (dict_get "request_id" fields)) as [->|[e ->]].
  - assert (Hd : futures (fst (dispatch c (JObj fields) fields)) = futures c
      ∧ pending_requests (fst (dispatch c (JObj fields) fields))
        = pending_requests c).
    { unfold dispatch, invoke. by repeat case_match. }
    destruct Hd as [Hd1 Hd2].
    destruct (dispatch c (JObj fields) fields) as [c1 [[]|]]; simpl in *;
      (split; [exact Hd1|by rewrite Hd2]).
  - destruct e; (split; [reflexivity|exact Hp]).
Qed.

(** A request on a client that is not connected. *)
Lemma send_with_response_start_refused E c m rid timeout :
  connected c = false →
  send_with_response_start E c m rid timeout
  = Refused c (Exception "WebSocket not connected").
Proof.
  intros Hc. unfold send_with_response_start, is_connected. by rewrite Hc.
Qed.

Lemma send_with_response_finish_no_future c rid timeout ref :
  futures c !! ref = None →
  send_with_response_finish c rid timeout ref = (c, Cancelled).
Proof. intros H. unfold send_with_response_finish. by rewrite H. Qed.

Lemma perform_dormant E a c c' :
  dormant c → perform E c a = Some c' → dormant c'.
Proof.
  intros (Hc & Hp & Hs & Hf & Hn) H.
  assert (Href : ∀ ref, futures c !! ref = None).
  { intros ref. by rewrite Hf. }
  destruct a; cbn [perform] in H; simplify_eq.
  - apply connect_disconnected in H
      as (Hc' & (Hf' & Hp' & _ & Hs' & _) & evs & Htr & Hq); [|done].
    split; [done|]. split; [congruence|]. split; [congruence|].
    split; [congruence|]. rewrite Htr, count_events_app, Hn, Hq; done.
  - destruct (disconnect_spec E c) as (Hc' & Hp' & Hs' & _).
    destruct (disconnect_trace E c) as (evs & Htr & Hev).
    split; [done|]. split; [done|]. split; [congruence|]. split.
    + by rewrite disconnect_empty_table.
    + by rewrite Htr, count_events_app, Hn, unsent_count.
  - destruct (handle_message_session E c message)
      as [(Hc' & _ & Hs' & _) _].
    destruct (handle_message_empty_table E c message Hp) as [Hf' Hp'].
    destruct (handle_message_unsent E c message) as (evs & Htr & Hev).
    split; [congruence|]. split; [done|]. split; [congruence|].
    split; [congruence|].
    by rewrite Htr, count_events_app, Hn, unsent_count.
  - apply listen_end_disconnected in H
      as (Hc' & (Hf' & Hp' & _ & Hs' & _) & evs & Htr & Hq).
    split; [done|]. split; [congruence|]. split; [congruence|].
    split; [congruence|]. rewrite Htr, count_events_app, Hn, Hq; done.
  - unfold subscribe_start. rewrite Hs.
    rewrite bool_decide_eq_false_2 by apply not_elem_of_empty.
    cbn [_get_request_id]. rewrite send_with_response_start_refused by done.
    cbn. repeat split; try done. rewrite count_sent_log. exact Hn.
  - unfold subscribe_finish.
    rewrite send_with_response_finish_no_future by done. by repeat split.
  - unfold unsubscribe_start. rewrite Hs.
    rewrite bool_decide_eq_false_2 by apply not_elem_of_empty. by repeat split.
  - unfold unsubscribe_finish.
    rewrite send_with_response_finish_no_future by done. by repeat split.
  - unfold place_order_start, request_start. cbn [_get_request_id].
    rewrite send_with_response_start_refused by done.
    cbn. repeat split; try done. rewrite count_sent_log. exact Hn.
  - unfold place_order_finish, request_finish.
    rewrite send_with_response_finish_no_future by done. by repeat split.
  - unfold cancel_order_start, request_start. cbn [_get_request_id].
    rewrite send_with_response_start_refused by done.
    cbn. repeat split; try done. rewrite count_sent_log. exact Hn.
  - unfold cancel_order_finish, request_finish.
    rewrite send_with_response_finish_no_future by done. by repeat split.
  - unfold get_positions_start, request_start. cbn [_get_request_id].
    rewrite send_with_response_start_refused by done.
    cbn. repeat split; try done. rewrite count_sent_log. exact Hn.
  - unfold get_positions_finish, request_finish.
    rewrite send_with_response_finish_no_future by done. by repeat split.
  - unfold get_account_info_start, request_start. cbn [_get_request_id].
    rewrite send_with_response_start_refused by done.
    cbn. repeat split; try done. rewrite count_sent_log. exact Hn.
  - unfold get_account_info_finish, request_finish.
    rewrite send_with_response_finish_no_future by done. by repeat split.
Qed.

Lemma run_dormant E history : ∀ c c',
  dormant c → run E c history = Some c' → dormant c'.
Proof.
  induction history as [|a history IH]; intros c c' Hd Hrun; simpl in Hrun;
    [by simplify_eq|].
  destruct (perform E c a) as [c1|] eqn:Hp; [|done].
  eauto using perform_dormant.
Qed.

(** X4.  A client built by [__init__] never becomes connected.  Whatever
    the broker does and whatever is called in whatever order, the client
    stays disconnected, no frame is ever written to a socket, the table and
    the registry stay empty, and a subscribe call is answered with the
    "WebSocket not connected" error outcome: [connect] authenticates
    through [send], which refuses while [connected] is false, and nothing
    else sets [connected]. *)
Theorem X4_client_never_becomes_connected
    E key secret url h_md h_ou h_pu history c' :
  run E (init key secret url h_md h_ou h_pu) history = Some c' →
  connected c' = false
  ∧ count_events is_sent (trace c') = 0
  ∧ pending_requests c' = ∅
  ∧ subscriptions c' = ∅
  ∧ ∀ sym, ∃ c'',
      subscribe_start E c' sym
      = Finished c'' (error_outcome (Exception "WebSocket not connected") sym).
Proof.
  intros Hrun.
  assert (Hd : dormant c').
  { eapply run_dormant; [|exact Hrun]. by repeat split. }
  destruct Hd as (Hc & Hp & Hs & _ & Hn).
  repeat (split; [done|]). intros sym. unfold subscribe_start.
  rewrite Hs, bool_decide_eq_false_2 by apply not_elem_of_empty.
  cbn [_get_request_id]. rewrite send_with_response_start_refused by done.
  by eexists.
Qed.

Lemma X4_client_never_becomes_connected_witness :
  ∃ c', run (accepting []) fresh
          [Connect 10; Subscribe "MES"; Frame "noise"; Disconnect;
           ListenEnd 10 None] = Some c'
    ∧ connected c' = false
    ∧ count_events is_sent (trace c') = 0
    ∧ pending_requests c' = ∅
    ∧ subscriptions c' = ∅.
Proof.
  destruct (run (accepting []) fresh
              [Connect 10; Subscribe "MES"; Frame "noise"; Disconnect;
               ListenEnd 10 None]) as [c'|] eqn:Hrun;
    [|vm_compute in Hrun; discriminate Hrun].
  exists c'. split; [reflexivity|].
  destruct (X4_client_never_becomes_connected (accepting []) "key" "secret"
              "wss://broker" None None None _ c' Hrun)
    as (H1 & H2 & H3 & H4 & _).
  split; [exact H1|]. split; [exact H2|]. split; [exact H3|exact H4].
Defined.

(** *** [disconnect] in full *)

Lemma fail_future_length e fs ref : length (fail_future e fs ref) = length fs.
Proof.
  unfold fail_future, set_exception.
  destruct (fs !! ref) as [[]|]; simpl; by rewrite ?length_insert.
Qed.

Lemma fail_all_length e items : ∀ fs, length (fail_all e items fs) = length fs.
Proof.
  induction items as [|item items IH]; intros fs; simpl; [done|].
  by rewrite IH, fail_future_length.
Qed.

Lemma fail_all_other e ref items : ∀ fs,
  (∀ rid, (rid, ref) ∉ items) →
  fail_all e items fs !! ref = fs !! ref.
Proof.
  induction items as [|[rid r] items IH]; intros fs Hnot; simpl; [done|].
  rewrite IH.
  - unfold fail_future, set_exception.
    destruct (decide (r = ref)) as [->|Hne].
    { exfalso. apply (Hnot rid). by left. }
    destruct (fs !! r) as [[]|]; simpl; try done.
    by rewrite list_lookup_insert_ne.
  - intros rid' Hin. apply (Hnot rid'). by right.
Qed.

Lemma disconnect_fields E c :
  ws (disconnect E c) = ws c
  ∧ reconnect_attempts (disconnect E c) = reconnect_attempts c
  ∧ max_reconnect_attempts (disconnect E c) = max_reconnect_attempts c
  ∧ request_id (disconnect E c) = request_id c
  ∧ futures (disconnect E c)
    = fail_all (Exception "Connection closed")
        (map_to_list (pending_requests c)) (futures c).
Proof.
  unfold disconnect.
  set (c2 := match ws (set_connected false c) with Some _ => _ | None => _ end).
  assert (H2 : ws c2 = ws c ∧ reconnect_attempts c2 = reconnect_attempts c
               ∧ max_reconnect_attempts c2 = max_reconnect_attempts c
               ∧ request_id c2 = request_id c
               ∧ futures c2 = futures c
               ∧ pending_requests c2 = pending_requests c).
  { subst c2. simpl. repeat case_match; by repeat split. }
  destruct H2 as (Hw & Ha & Hm & Hr & Hf & Hp). simpl.
  by rewrite Hf, Hp.
Qed.

(** X5.  [disconnect], whether or not closing the socket raises: the
    client is disconnected and the table empty; every request that was in
    the table and still pending is failed with "Connection closed"; a
    future that was done, or that no entry of the table referred to, is as
    it was; no future is lost; the registry, the socket handle and the
    attempt counter are kept. *)
Theorem X5_disconnect_fails_pending_and_clears_table E c :
  connected (disconnect E c) = false
  ∧ pending_requests (disconnect E c) = ∅
  ∧ subscriptions (disconnect E c) = subscriptions c
  ∧ ws (disconnect E c) = ws c
  ∧ reconnect_attempts (disconnect E c) = reconnect_attempts c
  ∧ length (futures (disconnect E c)) = length (futures c)
  ∧ (∀ rid ref,
       pending_requests c !! rid = Some ref →
       futures c !! ref = Some FPending →
       futures (disconnect E c) !! ref
       = Some (FException (Exception "Connection closed")))
  ∧ (∀ ref f,
       futures c !! ref = Some f → done f = true →
       futures (disconnect E c) !! ref = Some f)
  ∧ (∀ ref,
       (∀ rid, pending_requests c !! rid ≠ Some ref) →
       futures (disconnect E c) !! ref = futures c !! ref).
Proof.
  destruct (disconnect_spec E c) as (Hc & Hp & Hs & _ & Hstep & Hfail).
  destruct (disconnect_fields E c) as (Hw & Ha & _ & _ & Hf).
  repeat (split; [done|]). split; [|split; [|split]].
  - rewrite Hf. apply fail_all_length.
  - exact Hfail.
  - intros ref f Href Hd.
    by destruct (Hstep ref f Href) as (f' & Hf' & [->|[-> _]]).
  - intros ref Hnot. rewrite Hf. apply fail_all_other.
    intros rid Hin. apply elem_of_map_to_list in Hin. by apply (Hnot rid).
Qed.

Lemma X5_disconnect_fails_pending_and_clears_table_witness :
  pending_requests in_flight !! "req_1_1700000000000" = Some 0
  ∧ futures in_flight !! 0 = Some FPending
  ∧ futures (disconnect failing_writes in_flight) !! 0
    = Some (FException (Exception "Connection closed"))
  ∧ pending_requests (disconnect failing_writes in_flight) = ∅
  ∧ futures answered !! 0 = Some (FResult ack)
  ∧ futures (disconnect failing_writes answered) !! 0 = Some (FResult ack).
Proof.
  assert (H1 : pending_requests in_flight !! "req_1_1700000000000" = Some 0)
    by (vm_compute; reflexivity).
  assert (H2 : futures in_flight !! 0 = Some FPending)
    by (vm_compute; reflexivity).
  assert (H3 : futures answered !! 0 = Some (FResult ack))
    by (vm_compute; reflexivity).
  destruct (X5_disconnect_fails_pending_and_clears_table failing_writes
              in_flight) as (_ & Hp & _ & _ & _ & _ & Hfail & _).
  destruct (X5_disconnect_fails_pending_and_clears_table failing_writes
              answered) as (_ & _ & _ & _ & _ & _ & _ & Hdone & _).
  split; [exact H1|]. split; [exact H2|].
  split; [exact (Hfail _ _ H1 H2)|]. split; [exact Hp|].
  split; [exact H3|]. exact (Hdone 0 (FResult ack) H3 eq_refl).
Defined.

(** X6.  [disconnect] is idempotent on the session state: a second call
    finds an empty table and changes no future, and the client is as
    disconnected, with the same registry, as after the first. *)
Theorem X6_disconnect_twice_is_disconnect_once E E' c :
  futures (disconnect E' (disconnect E c)) = futures (disconnect E c)
  ∧ pending_requests (disconnect E' (disconnect E c))
    = pending_requests (disconnect E c)
  ∧ subscriptions (disconnect E' (disconnect E c))
    = subscriptions (disconnect E c)
  ∧ connected (disconnect E' (disconnect E c)) = connected (disconnect E c)
  ∧ request_id (disconnect E' (disconnect E c)) = request_id (disconnect E c).
Proof.
  destruct (disconnect_spec E c) as (Hc & Hp & _).
  destruct (disconnect_spec E' (disconnect E c)) as (Hc' & Hp' & Hs' & Hr' & _).
  split; [by apply disconnect_empty_table|].
  split; [congruence|]. split; [done|]. split; [congruence|done].
Qed.

(** *** The read loop after a shutdown *)

Lemma listen_end_reconnects E fuel closing c :
  reconnect_attempts c < max_reconnect_attempts c →
  max_reconnect_attempts c - reconnect_attempts c ≤ fuel →
  ∃ c' evs,
    listen E fuel [] closing c = Some c'
    ∧ trace c' = trace c ++ evs
    ∧ Log INFO "Attempting to reconnect..." [] ∈ evs
    ∧ sleeps evs
      = map backoff (seq (S (reconnect_attempts c))
                       (max_reconnect_attempts c - reconnect_attempts c)).
Proof.
  intros Hlt Hfuel. unfold listen. cbn [listen_frames].
  set (c2 := match closing with None => c | Some _ => _ end).
  assert (H2 : reconnect_attempts c2 = reconnect_attempts c
               ∧ max_reconnect_attempts c2 = max_reconnect_attempts c
               ∧ ∃ evs, trace c2 = trace c ++ evs ∧ sleeps evs = []).
  { subst c2. destruct closing as [[]|]; (split; [done|]); (split; [done|]);
      first [ by exists []; rewrite app_nil_r | by eexists [_] ]. }
  destruct H2 as (Ha2 & Hm2 & evs2 & Htr2 & Hs2).
  cbn [set_connected rebuild reconnect_attempts max_reconnect_attempts].
  rewrite Ha2, Hm2.
  destruct (Nat.ltb_spec (reconnect_attempts c) (max_reconnect_attempts c));
    [|lia].
  destruct (connect_spec E fuel
              (log INFO "Attempting to reconnect..." [] (set_connected false c2)))
    as (c' & -> & _ & _ & _ & evs & Htr & _ & Hs); [done|simpl; lia|].
  simpl in Hs. rewrite Ha2, Hm2 in Hs.
  eexists c', _. split; [done|]. split.
  { rewrite Htr. cbn. rewrite Htr2, <-!app_assoc. reflexivity. }
  split.
  - apply elem_of_app. right. by left.
  - rewrite !sleeps_app, Hs2, Hs. cbn. by rewrite app_nil_r.
Qed.

(** X7.  [disconnect] does not stop the read loop from reconnecting: it
    sets nothing that [listen] looks at.  When the read loop of a client
    that was shut down ends, and attempts are left, [listen] announces the
    reconnect and runs [connect] through the whole remaining budget, with
    all its sleeps. *)
Theorem X7_read_loop_reconnects_after_disconnect E E' fuel closing c :
  reconnect_attempts c < max_reconnect_attempts c →
  max_reconnect_attempts c - reconnect_attempts c ≤ fuel →
  ∃ c' evs,
    listen E' fuel [] closing (disconnect E c) = Some c'
    ∧ trace c' = trace (disconnect E c) ++ evs
    ∧ Log INFO "Attempting to reconnect..." [] ∈ evs
    ∧ sleeps evs
      = map backoff (seq (S (reconnect_attempts c))
                       (max_reconnect_attempts c - reconnect_attempts c))
    ∧ sleeps evs ≠ [].
Proof.
  intros Hlt Hfuel.
  destruct (disconnect_fields E c) as (_ & Ha & Hm & _).
  destruct (listen_end_reconnects E' fuel closing (disconnect E c))
    as (c' & evs & Hl & Htr & Hin & Hs); [lia|lia|].
  rewrite Ha, Hm in Hs.
  exists c', evs. repeat (split; [done|]). rewrite Hs.
  destruct (max_reconnect_attempts c - reconnect_attempts c) eqn:Hd; [lia|done].
Qed.

Lemma X7_read_loop_reconnects_after_disconnect_witness :
  reconnect_attempts (ready ∅) < max_reconnect_attempts (ready ∅)
  ∧ ∃ c' evs,
      listen (accepting []) 10 [] None (disconnect (accepting []) (ready ∅))
      = Some c'
      ∧ Log INFO "Attempting to reconnect..." [] ∈ evs
      ∧ sleeps evs = [5; 10; 15; 20; 25; 30; 35; 40; 45; 50].
Proof.
  assert (H1 : reconnect_attempts (ready ∅) < max_reconnect_attempts (ready ∅))
    by (vm_compute; lia).
  split; [exact H1|].
  destruct (X7_read_loop_reconnects_after_disconnect (accepting [])
              (accepting []) 10 None (ready ∅) H1)
    as (c' & evs & Hl & _ & Hin & Hs & _); [vm_compute; lia|].
  exists c', evs. split; [exact Hl|]. split; [exact Hin|exact Hs].
Defined.

(** *** What [handle_message] does with each kind of frame *)

(** X8.  A frame whose request id is in the table is the response to that
    request and nothing else: the entry is popped, the pending future gets
    the whole decoded frame as its result, and the frame is not looked at
    as a push event, whatever its type and whatever handlers are
    registered: nothing is logged and no handler is called. *)
Theorem X8_response_frame_resolves_and_is_not_dispatched
    E c frame fields rid ref :
  json_loads E frame = Some (JObj fields) →
  dict_get "request_id" fields = JStr rid → rid ≠ "" →
  pending_requests c !! rid = Some ref →
  futures c !! ref = Some FPending →
  handle_message E c frame
  = (set_futures (<[ref := FResult (JObj fields)]> (futures c))
       (set_pending_requests (delete rid (pending_requests c)) c), None).
Proof.
  intros Hj Hrid Hne Hp Hf.
  unfold handle_message, handle_message_body, in_pending.
  rewrite Hj, Hrid. cbn [truthy].
  destruct (String.eqb_spec rid "") as [|_]; [done|]. cbn [negb].
  rewrite Hp. unfold resolve, set_result. cbn. by rewrite Hf.
Qed.

Lemma X8_response_frame_resolves_and_is_not_dispatched_witness :
  json_loads acking "ack" = Some ack
  ∧ pending_requests in_flight !! "req_1_1700000000000" = Some 0
  ∧ futures in_flight !! 0 = Some FPending
  ∧ handle_message acking in_flight "ack"
    = (set_futures (<[0 := FResult ack]> (futures in_flight))
         (set_pending_requests
            (delete "req_1_1700000000000" (pending_requests in_flight))
            in_flight), None).
Proof.
  assert (H1 : pending_requests in_flight !! "req_1_1700000000000" = Some 0)
    by (vm_compute; reflexivity).
  assert (H2 : futures in_flight !! 0 = Some FPending)
    by (vm_compute; reflexivity).
  split; [reflexivity|]. split; [exact H1|]. split; [exact H2|].
  apply (X8_response_frame_resolves_and_is_not_dispatched acking in_flight
           "ack" [("request_id", JStr "req_1_1700000000000");
                  ("status", JStr "ok")] "req_1_1700000000000" 0);
    [reflexivity|reflexivity|discriminate|exact H1|exact H2].
Defined.

(** X9.  A push frame (one that answers no request) whose type has a
    registered handler is handed to that handler, once, with the frame's
    [data] field, or with an empty object when the field is missing; no
    other handler is called; the table, the futures and the registry are
    untouched; and when the handler returns nothing is logged. *)
Theorem X9_push_frame_reaches_exactly_its_handler E c frame fields kind h :
  json_loads E frame = Some (JObj fields) →
  in_pending c (dict_get "request_id" fields) = inr None →
  is_str (dict_get "type" fields) (kind_tag kind) = true →
  handler_for c kind = Some h →
  ∃ logged,
    trace (fst (handle_message E c frame))
    = trace c
        ++ Invoked kind (dict_get_default "data" (JObj []) fields) :: logged
    ∧ count_events is_invoked logged = 0
    ∧ (h (dict_get_default "data" (JObj []) fields) = None → logged = [])
    ∧ futures (fst (handle_message E c frame)) = futures c
    ∧ pending_requests (fst (handle_message E c frame)) = pending_requests c
    ∧ subscriptions (fst (handle_message E c frame)) = subscriptions c.
Proof.
  intros Hj Hin Htag Hh.
  assert (Hbody : handle_message_body E c frame
                  = (emit (Invoked kind (dict_get_default "data" (JObj []) fields)) c,
                     h (dict_get_default "data" (JObj []) fields))).
  { unfold handle_message_body. rewrite Hj, Hin. unfold dispatch, invoke.
    destruct (dict_get "type" fields) as [| | |tag| |]; try done.
    simpl in Htag. apply String.eqb_eq in Htag. subst tag.
    destruct kind; simpl in *; rewrite Hh; repeat case_match; done. }
  unfold handle_message. rewrite Hbody.
  destruct (h _) as [e|].
  - destruct e; eexists [_];
      (split; [cbn; by rewrite <-app_assoc|by repeat split]).
  - exists []. by repeat split.
Qed.

Lemma X9_push_frame_reaches_exactly_its_handler_witness :
  json_loads ticking "tick"
  = Some (JObj [("type", JStr "market_data"); ("data", tick_payload)])
  ∧ handler_for watching MarketData = Some quiet_handler
  ∧ trace (fst (handle_message ticking watching "tick"))
    = trace watching ++ [Invoked MarketData tick_payload].
Proof.
  split; [reflexivity|]. split; [reflexivity|].
  destruct (X9_push_frame_reaches_exactly_its_handler ticking watching "tick"
              [("type", JStr "market_data"); ("data", tick_payload)]
              MarketData quiet_handler)
    as (logged & Htr & _ & Hnil & _);
    [reflexivity|reflexivity|reflexivity|reflexivity|].
  rewrite (Hnil eq_refl) in Htr. exact Htr.
Defined.

(** X10.  A push frame for whose type no handler is registered is only
    logged, and the client is otherwise as it was: a frame of type "error"
    as an ERROR record with the frame's [message] (or "Unknown error" when
    it has none), every other frame, a market-data tick without a handler
    included, as a DEBUG record "Unhandled message type". *)
Theorem X10_frame_without_handler_is_only_logged E c frame fields :
  json_loads E frame = Some (JObj fields) →
  in_pending c (dict_get "request_id" fields) = inr None →
  (∀ kind, is_str (dict_get "type" fields) (kind_tag kind) = true →
           handler_for c kind = None) →
  handle_message E c frame
  = (if is_str (dict_get "type" fields) "error"
     then log ERROR "Ironbeam error: {}"
            [AJson (dict_get_default "message" (JStr "Unknown error") fields)] c
     else log DEBUG "Unhandled message type '{}': {}"
            [AJson (dict_get "type" fields); AJson (JObj fields)] c,
     None).
Proof.
  intros Hj Hin Hnone.
  unfold handle_message, handle_message_body. rewrite Hj, Hin.
  unfold dispatch.
  pose proof (Hnone MarketData) as H1.
  pose proof (Hnone OrderUpdate) as H2.
  pose proof (Hnone PositionUpdate) as H3. simpl in H1, H2, H3.
  destruct (is_str (dict_get "type" fields) "market_data");
    [rewrite H1 by done|];
    (destruct (is_str (dict_get "type" fields) "order_update");
     [rewrite H2 by done|]);
    (destruct (is_str (dict_get "type" fields) "position_update");
     [rewrite H3 by done|]);
    repeat case_match; simplify_eq; done.
Qed.

Lemma X10_frame_without_handler_is_only_logged_witness :
  json_loads ticking "tick"
  = Some (JObj [("type", JStr "market_data"); ("data", tick_payload)])
  ∧ handler_for (ready ∅) MarketData = None
  ∧ handle_message ticking (ready ∅) "tick"
    = (log DEBUG "Unhandled message type '{}': {}"
         [AJson (JStr "market_data");
          AJson (JObj [("type", JStr "market_data"); ("data", tick_payload)])]
         (ready ∅), None).
Proof.
  split; [reflexivity|]. split; [reflexivity|].
  apply (X10_frame_without_handler_is_only_logged ticking (ready ∅) "tick"
           [("type", JStr "market_data"); ("data", tick_payload)]);
    [reflexivity|reflexivity|]. by intros [].
Defined.

(** X11.  A frame that decodes to something other than an object, or whose
    request id is a non-empty list or object, makes the [try] block raise
    before anything is done: [handle_message] returns with one ERROR record
    "Error handling message" added and the client otherwise as it was. *)
Theorem X11_malformed_frame_costs_one_error_record E c frame data :
  json_loads E frame = Some data →
  match data with
  | JObj fields =>
      match dict_get "request_id" fields with
      | JArr (_ :: _) | JObj (_ :: _) => True
      | _ => False
      end
  | _ => True
  end →
  ∃ e, handle_message E c frame
       = (log ERROR "Error handling message: {}" [AExn e] c, None).
Proof.
  intros Hj Hbad. unfold handle_message, handle_message_body. rewrite Hj.
  destruct data as [| | | | |fields]; try by eexists.
  unfold in_pending.
  destruct (dict_get "request_id" fields) as [| | | |[|x l]|[|x l]];
    try done; by eexists.
Qed.

Lemma X11_malformed_frame_costs_one_error_record_witness :
  json_loads odd_frames "list" = Some (JArr [JNum 1])
  ∧ json_loads odd_frames "badid"
    = Some (JObj [("request_id", JArr [JNum 1])])
  ∧ (∃ e, handle_message odd_frames (ready ∅) "list"
          = (log ERROR "Error handling message: {}" [AExn e] (ready ∅), None))
  ∧ (∃ e, handle_message odd_frames (ready ∅) "badid"
          = (log ERROR "Error handling message: {}" [AExn e] (ready ∅), None)).
Proof.
  split; [reflexivity|]. split; [reflexivity|]. split.
  - by apply (X11_malformed_frame_costs_one_error_record odd_frames (ready ∅)
                "list" (JArr [JNum 1])).
  - by apply (X11_malformed_frame_costs_one_error_record odd_frames (ready ∅)
                "badid" (JObj [("request_id", JArr [JNum 1])])).
Defined.

(** *** Request ids and registration *)

(** X12.  A request id determines both the counter value and the clock
    reading it was built from: two ids are equal only if both components
    are.  [_get_request_id] builds the id from the incremented counter and
    advances the counter by exactly one. *)
Theorem X12_request_id_determines_counter_and_clock E c n millis n' millis' :
  make_request_id n millis = make_request_id n' millis' →
  (n = n' ∧ millis = millis')
  ∧ fst (_get_request_id E c)
    = make_request_id (request_id c + 1) (clock_ms E (io c))
  ∧ request_id (snd (_get_request_id E c)) = request_id c + 1.
Proof.
  intros H. split; [|by split].
  pose proof (make_request_id_inj _ _ _ _ H) as ->. split; [done|].
  unfold make_request_id in H.
  apply (inj (String.append "req_")) in H.
  apply (inj (String.append (pretty n'))) in H.
  apply (inj (String.append "_")) in H.
  by apply (inj pretty) in H.
Qed.

Lemma X12_request_id_determines_counter_and_clock_witness :
  make_request_id 3 17 = make_request_id 3 17
  ∧ (3 = 3 ∧ 17%Z = 17%Z)
  ∧ fst (_get_request_id (accepting []) (ready ∅))
    = make_request_id (request_id (ready ∅) + 1)
        (clock_ms (accepting []) (io (ready ∅)))
  ∧ request_id (snd (_get_request_id (accepting []) (ready ∅)))
    = request_id (ready ∅) + 1.
Proof.
  split; [reflexivity|].
  exact (X12_request_id_determines_counter_and_clock (accepting []) (ready ∅)
           3 17 3 17 eq_refl).
Defined.

Lemma send_ok_trace E c m c' :
  send E c m = (c', None) →
  connected c' = true
  ∧ ∃ sock action,
      trace c' = trace c
        ++ [Sent sock m; Log DEBUG "Sent message: {}" [AJson action]].
Proof.
  unfold send, is_connected.
  destruct (connected c) eqn:Hc; cbn [andb negb]; [|done].
  destruct (bool_decide _); cbn [negb]; [|done].
  destruct (ws c) as [sock|]; [|done].
  destruct (ws_send E (io c)); [done|]. intros [= <-].
  split; [exact Hc|]. eexists _, _. cbn. by rewrite <-app_assoc.
Qed.

(** What [send_with_response] has done when it starts to wait. *)
Lemma send_with_response_start_registered E c m rid timeout c1 ref :
  send_with_response_start E c m rid timeout = Awaiting c1 ref →
  ref = length (futures c)
  ∧ futures c1 = futures c ++ [FPending]
  ∧ pending_requests c1 = <[rid := ref]> (pending_requests c)
  ∧ connected c1 = true
  ∧ subscriptions c1 = subscriptions c
  ∧ request_id c1 = request_id c
  ∧ ∃ sock action,
      trace c1 = trace c
        ++ [Sent sock m; Log DEBUG "Sent message: {}" [AJson action]].
Proof.
  unfold send_with_response_start.
  destruct (is_connected c) eqn:Hic; cbn [negb]; [|done].
  destruct (send E _ m) as [c' [e|]] eqn:Hs;
    [by destruct (swr_except rid timeout e c')|].
  intros [= <- <-].
  pose proof (send_tables E _ _ _ _ Hs) as (Hf & Hp & Hr & Hsub & _).
  destruct (send_ok_trace E _ _ _ Hs) as (Hc' & sock & action & Htr).
  split; [done|]. split; [exact Hf|]. split; [exact Hp|].
  split; [exact Hc'|]. split; [exact Hsub|]. split; [exact Hr|].
  by exists sock, action.
Qed.

(** X13.  When [subscribe] or [unsubscribe] starts to wait, exactly one
    frame has been written, it names the action and the symbol and carries
    a request id, and that id, fresh from the counter, is the key under
    which a new pending future is registered; the registry is not yet
    changed. *)
Theorem X13_subscription_request_is_registered_under_its_id
    E c sym c1 rid ref :
  (subscribe_start E c sym = Suspended c1 rid ref →
   (sym ∉ subscriptions c)
   ∧ rid = make_request_id (request_id c + 1) (clock_ms E (io c))
   ∧ ref = length (futures c)
   ∧ futures c1 = futures c ++ [FPending]
   ∧ pending_requests c1 = <[rid := ref]> (pending_requests c)
   ∧ subscriptions c1 = subscriptions c
   ∧ ∃ sock action,
       trace c1 = trace c
         ++ [Sent sock (JObj [("action", JStr "subscribe");
                              ("request_id", JStr rid);
                              ("symbol", JStr sym)]);
             Log DEBUG "Sent message: {}" [AJson action]])
  ∧ (unsubscribe_start E c sym = Suspended c1 rid ref →
     (sym ∈ subscriptions c)
     ∧ rid = make_request_id (request_id c + 1) (clock_ms E (io c))
     ∧ ref = length (futures c)
     ∧ futures c1 = futures c ++ [FPending]
     ∧ pending_requests c1 = <[rid := ref]> (pending_requests c)
     ∧ subscriptions c1 = subscriptions c
     ∧ ∃ sock action,
         trace c1 = trace c
           ++ [Sent sock (JObj [("action", JStr "unsubscribe");
                                ("request_id", JStr rid);
                                ("symbol", JStr sym)]);
               Log DEBUG "Sent message: {}" [AJson action]]).
Proof.
  split.
  - unfold subscribe_start. case_bool_decide as Hin; [done|].
    cbn [_get_request_id].
    destruct (send_with_response_start E _ _ _ "5.0") as [|c2 ref2] eqn:Hs;
      [done|].
    intros [= <- <- <-].
    apply send_with_response_start_registered in Hs
      as (-> & Hf & Hp & _ & Hsub & _ & sock & action & Htr).
    repeat (split; [done|]). by exists sock, action.
  - unfold unsubscribe_start. case_bool_decide as Hin; cbn [negb]; [|done].
    cbn [_get_request_id].
    destruct (send_with_response_start E _ _ _ "5.0") as [|c2 ref2] eqn:Hs;
      [done|].
    intros [= <- <- <-].
    apply send_with_response_start_registered in Hs
      as (-> & Hf & Hp & _ & Hsub & _ & sock & action & Htr).
    repeat (split; [done|]). by exists sock, action.
Qed.

Lemma X13_subscription_request_is_registered_under_its_id_witness :
  subscribe_start (accepting []) (ready ∅) "MES"
  = Suspended in_flight "req_1_1700000000000" 0
  ∧ pending_requests in_flight
    = <["req_1_1700000000000" := 0]> (pending_requests (ready ∅))
  ∧ futures in_flight = futures (ready ∅) ++ [FPending]
  ∧ ∃ sock action,
      trace in_flight = trace (ready ∅)
        ++ [Sent sock (JObj [("action", JStr "subscribe");
                             ("request_id", JStr "req_1_1700000000000");
                             ("symbol", JStr "MES")]);
            Log DEBUG "Sent message: {}" [AJson action]].
Proof.
  assert (H : subscribe_start (accepting []) (ready ∅) "MES"
              = Suspended in_flight "req_1_1700000000000" 0)
    by (vm_compute; reflexivity).
  split; [exact H|].
  destruct (proj1 (X13_subscription_request_is_registered_under_its_id
                     (accepting []) (ready ∅) "MES" in_flight
                     "req_1_1700000000000" 0) H)
    as (_ & _ & _ & Hf & Hp & _ & Htr).
  split; [exact Hp|]. split; [exact Hf|exact Htr].
Defined.

(** X14.  The frame that [place_order] writes carries the action, the
    request id under which the pending future is registered, the order's
    symbol, side, type and quantity, and the price and stop price exactly
    when the order has them: a key is absent, not null, for a missing
    price. *)
Theorem X14_place_order_frame_matches_order E c order c1 rid ref :
  place_order_start E c order = Suspended c1 rid ref →
  pending_requests c1 !! rid = Some ref
  ∧ futures c1 !! ref = Some FPending
  ∧ ∃ sock fields action,
      trace c1 = trace c
        ++ [Sent sock (JObj fields);
            Log DEBUG "Sent message: {}" [AJson action]]
      ∧ dict_lookup "action" fields = Some (JStr "place_order")
      ∧ dict_lookup "request_id" fields = Some (JStr rid)
      ∧ dict_lookup "symbol" fields = Some (JStr (symbol order))
      ∧ dict_lookup "side" fields = Some (JStr (side order))
      ∧ dict_lookup "order_type" fields = Some (JStr (order_type order))
      ∧ dict_lookup "quantity" fields = Some (JNum (quantity order))
      ∧ dict_lookup "price" fields = price order
      ∧ dict_lookup "stop_price" fields = stop_price order.
Proof.
  unfold place_order_start, request_start. cbn [_get_request_id].
  destruct (send_with_response_start E _ _ _ "10.0") as [|c2 ref2] eqn:Hs;
    [done|].
  intros [= <- <- <-].
  pose proof (send_with_response_start_awaiting E _ _ _ _ _ _ Hs) as [Hp Hf].
  apply send_with_response_start_registered in Hs
    as (_ & _ & _ & _ & _ & _ & sock & action & Htr).
  split; [exact Hp|]. split; [exact Hf|].
  eexists sock, _, action. split; [exact Htr|].
  destruct (price order), (stop_price order); by repeat split.
Qed.

Lemma X14_place_order_frame_matches_order_witness :
  ∃ c1 rid ref,
    place_order_start (accepting []) (ready ∅) market_order
    = Suspended c1 rid ref
    ∧ pending_requests c1 !! rid = Some ref
    ∧ ∃ sock fields action,
        trace c1 = trace (ready ∅)
          ++ [Sent sock (JObj fields);
              Log DEBUG "Sent message: {}" [AJson action]]
        ∧ dict_lookup "request_id" fields = Some (JStr rid)
        ∧ dict_lookup "price" fields = None.
Proof.
  destruct (place_order_start (accepting []) (ready ∅) market_order)
    as [|c1 rid ref] eqn:H; [vm_compute in H; discriminate H|].
  exists c1, rid, ref. split; [reflexivity|].
  destruct (X14_place_order_frame_matches_order (accepting []) (ready ∅)
              market_order c1 rid ref H)
    as (Hp & _ & sock & fields & action & Htr & _ & Hid & _ & _ & _ & _ & Hpr & _).
  split; [exact Hp|]. exists sock, fields, action.
  split; [exact Htr|]. split; [exact Hid|exact Hpr].
Defined.

(** *** Requests that fail *)

Lemma turned_down_log lvl fmt args c c' :
  turned_down c c' → turned_down c (log lvl fmt args c').
Proof.
  intros (?&?&?&?&Hn&?). repeat split; try done.
  by rewrite count_sent_log.
Qed.

Lemma request_start_refused E c c1 m rid fmt args :
  connected c1 = false → turned_down c c1 →
  ∃ c', request_start E c1 m rid fmt args
        = Finished c' (request_failed (Exception "WebSocket not connected"))
    ∧ turned_down c c'.
Proof.
  intros Hc Ht. unfold request_start.
  rewrite send_with_response_start_refused by done.
  eexists. split; [reflexivity|]. by apply turned_down_log.
Qed.

(** X15.  On a client that is not connected every request is turned down
    at once: [subscribe] (for a new symbol), [unsubscribe] (for a
    subscribed one), [place_order], [cancel_order], [get_positions] and
    [get_account_info] return the error outcome "WebSocket not connected"
    instead of raising; nothing is written, no future is created, the
    table and the registry are as before; only the request counter has
    advanced by one. *)
Theorem X15_requests_on_disconnected_client_are_turned_down E c :
  connected c = false →
  (∀ sym, sym ∉ subscriptions c →
     ∃ c', subscribe_start E c sym
           = Finished c'
               (error_outcome (Exception "WebSocket not connected") sym)
       ∧ turned_down c c')
  ∧ (∀ sym, sym ∈ subscriptions c →
       ∃ c', unsubscribe_start E c sym
             = Finished c'
                 (error_outcome (Exception "WebSocket not connected") sym)
         ∧ turned_down c c')
  ∧ (∀ order,
       ∃ c', place_order_start E c order
             = Finished c'
                 (request_failed (Exception "WebSocket not connected"))
         ∧ turned_down c c')
  ∧ (∀ order_id,
       ∃ c', cancel_order_start E c order_id
             = Finished c'
                 (request_failed (Exception "WebSocket not connected"))
         ∧ turned_down c c')
  ∧ (∃ c', get_positions_start E c
           = Finished c' (request_failed (Exception "WebSocket not connected"))
       ∧ turned_down c c')
  ∧ (∃ c', get_account_info_start E c
           = Finished c' (request_failed (Exception "WebSocket not connected"))
       ∧ turned_down c c').
Proof.
  intros Hc.
  assert (Hid : turned_down c (snd (_get_request_id E c))) by by repeat split.
  assert (Hid' : turned_down c (tick (snd (_get_request_id E c))))
    by by repeat split.
  split; [|split; [|split; [|split; [|split]]]].
  - intros sym Hin. unfold subscribe_start.
    rewrite bool_decide_eq_false_2 by done. cbn [_get_request_id].
    rewrite send_with_response_start_refused by done.
    eexists. split; [reflexivity|]. by apply turned_down_log.
  - intros sym Hin. unfold unsubscribe_start.
    rewrite bool_decide_eq_true_2 by done. cbn [negb _get_request_id].
    rewrite send_with_response_start_refused by done.
    eexists. split; [reflexivity|]. by apply turned_down_log.
  - intros order. unfold place_order_start. cbn [_get_request_id].
    by apply request_start_refused.
  - intros order_id. unfold cancel_order_start. cbn [_get_request_id].
    by apply request_start_refused.
  - unfold get_positions_start. cbn [_get_request_id].
    by apply request_start_refused.
  - unfold get_account_info_start. cbn [_get_request_id].
    by apply request_start_refused.
Qed.

Lemma X15_requests_on_disconnected_client_are_turned_down_witness :
  connected fresh = false
  ∧ (∃ c', subscribe_start (accepting []) fresh "MES"
           = Finished c'
               (error_outcome (Exception "WebSocket not connected") "MES")
       ∧ turned_down fresh c')
  ∧ (∃ c', place_order_start (accepting []) fresh market_order
           = Finished c' (request_failed (Exception "WebSocket not connected"))
       ∧ turned_down fresh c').
Proof.
  split; [reflexivity|].
  destruct (X15_requests_on_disconnected_client_are_turned_down (accepting [])
              fresh eq_refl) as (Hsub & _ & Hord & _).
  split; [|exact (Hord market_order)].
  apply Hsub. change (subscriptions fresh) with (∅ : gset string).
  apply not_elem_of_empty.
Defined.

(** X16.  When the write of a request fails, [send_with_response] gives
    up without waiting: the entry it had just registered is removed again,
    the client is marked disconnected, nothing counts as sent, and the
    caller gets the exception of the write, or the "timed out" exception
    if the write itself raised a timeout. *)
Theorem X16_failed_write_unregisters_the_request E c m rid timeout e :
  is_connected c = true →
  ws_send E (io c) = Some e →
  ∃ c', send_with_response_start E c m rid timeout
        = Refused c'
            (match e with
             | TimeoutError =>
                 Exception ("Request " +:+ rid +:+ " timed out after "
                              +:+ timeout +:+ "s")
             | _ => e
             end)
    ∧ pending_requests c' = delete rid (pending_requests c)
    ∧ connected c' = false
    ∧ subscriptions c' = subscriptions c
    ∧ count_events is_sent (trace c') = count_events is_sent (trace c).
Proof.
  intros Hic Hsend. unfold send_with_response_start. rewrite Hic. cbn [negb].
  set (c0 := set_pending_requests _ _).
  assert (Hs : send E c0 m
               = (set_connected false
                    (log ERROR "Failed to send message: {}" [AExn e] (tick c0)),
                  Some e)).
  { unfold send. change (is_connected c0) with (is_connected c). rewrite Hic.
    cbn [negb]. unfold is_connected in Hic.
    apply andb_true_iff in Hic as [_ Hw].
    apply bool_decide_eq_true in Hw as [sock Hw].
    change (ws c0) with (ws c). change (io c0) with (io c).
    by rewrite Hw, Hsend. }
  rewrite Hs. unfold swr_except.
  destruct e; eexists; (split; [reflexivity|]); cbn;
    rewrite delete_insert_eq, count_events_app; cbn;
    repeat split; lia.
Qed.

Lemma X16_failed_write_unregisters_the_request_witness :
  is_connected (ready ∅) = true
  ∧ ws_send failing_writes (io (ready ∅)) = Some (ConnectionClosed "gone")
  ∧ ∃ c', send_with_response_start failing_writes (ready ∅)
            unanswered_message "req_1_0" "10.0"
          = Refused c' (ConnectionClosed "gone")
      ∧ pending_requests c' = delete "req_1_0" (pending_requests (ready ∅))
      ∧ connected c' = false.
Proof.
  split; [reflexivity|]. split; [reflexivity|].
  destruct (X16_failed_write_unregisters_the_request failing_writes (ready ∅)
              unanswered_message "req_1_0" "10.0" (ConnectionClosed "gone")
              eq_refl eq_refl) as (c' & H1 & H2 & H3 & _).
  exists c'. split; [exact H1|]. split; [exact H2|exact H3].
Defined.

(** X17.  How [place_order] ends, by the state of its future when the
    caller is woken.  A response is handed back exactly as the broker sent
    it, and the order is logged.  If the future is still pending the timer
    has fired: the caller gets the error outcome "Request <id> timed out
    after 10.0s", the entry is removed, the future is cancelled, and the
    connection state and the registry are untouched.  A failed future
    gives the error outcome with that failure's message and removes the
    entry.  In no case does an [Exception] leave [place_order]. *)
Theorem X17_place_order_outcomes c order rid ref :
  match futures c !! ref with
  | Some (FResult data) =>
      ∃ c', place_order_finish c order rid ref = (c', Return data)
        ∧ futures c' = futures c
        ∧ pending_requests c' = pending_requests c
  | Some FPending =>
      ∃ c', place_order_finish c order rid ref
            = (c', Return (request_failed
                             (Exception ("Request " +:+ rid
                                           +:+ " timed out after 10.0s"))))
        ∧ pending_requests c' = delete rid (pending_requests c)
        ∧ futures c' = <[ref := FCancelled]> (futures c)
        ∧ connected c' = connected c
        ∧ subscriptions c' = subscriptions c
  | Some (FException e) =>
      ∃ c' e', place_order_finish c order rid ref
               = (c', Return (request_failed e'))
        ∧ pending_requests c' = delete rid (pending_requests c)
        ∧ futures c' = futures c
  | Some FCancelled | None =>
      place_order_finish c order rid ref = (c, Cancelled)
  end.
Proof.
  unfold place_order_finish, request_finish, send_with_response_finish.
  destruct (futures c !! ref) as [[|data|e|]|]; try done.
  - eexists. split; [reflexivity|]. by repeat split.
  - eexists. split; [reflexivity|]. by split.
  - destruct (swr_except rid "10.0" e c) as [c1 e'] eqn:Hex.
    pose proof (swr_except_spec rid "10.0" e c) as (Hf & _ & _ & _ & Hp).
    rewrite Hex in Hf, Hp. eexists _, e'. split; [reflexivity|]. by split.
Qed.

(** X18.  Subscribing to a symbol that was not in the registry and then
    unsubscribing from it, both acknowledged, gives back the registry as
    it was; the count of active subscriptions reported by
    [get_connection_stats] goes up by one and down again. *)
Theorem X18_subscribe_then_unsubscribe_restores_registry
    c sym rid1 ref1 rid2 ref2 data1 data2 :
  sym ∉ subscriptions c →
  futures c !! ref1 = Some (FResult data1) →
  futures c !! ref2 = Some (FResult data2) →
  ∃ c1 c2 out1 out2,
    subscribe_finish c sym rid1 ref1 = (c1, Return out1)
    ∧ unsubscribe_finish c1 sym rid2 ref2 = (c2, Return out2)
    ∧ subscriptions c2 = subscriptions c
    ∧ stat_active_subscriptions (get_connection_stats c1)
      = S (stat_active_subscriptions (get_connection_stats c))
    ∧ stat_active_subscriptions (get_connection_stats c2)
      = stat_active_subscriptions (get_connection_stats c).
Proof.
  intros Hnin H1 H2.
  pose proof (subscribe_finish_response c sym rid1 ref1 data1 H1) as Hfin1.
  set (c1 := log INFO "Subscribed to market data: {}" [AStr sym]
               (set_subscriptions ({[sym]} ∪ subscriptions c) c)) in *.
  assert (Hfin2 : unsubscribe_finish c1 sym rid2 ref2
                  = (log INFO "Unsubscribed from: {}" [AStr sym]
                       (set_subscriptions (subscriptions c1 ∖ {[sym]}) c1),
                     Return (JObj [("status", JStr "unsubscribed");
                                   ("symbol", JStr sym); ("data", data2)]))).
  { unfold unsubscribe_finish, send_with_response_finish.
    change (futures c1) with (futures c). by rewrite H2. }
  assert (Hs1 : subscriptions c1 = {[sym]} ∪ subscriptions c) by reflexivity.
  eexists c1, _, _, _. split; [exact Hfin1|]. split; [exact Hfin2|].
  assert (Hback : ({[sym]} ∪ subscriptions c) ∖ {[sym]} = subscriptions c)
    by set_solver.
  split; [cbn; by rewrite Hback|]. split.
  - cbn. by rewrite size_union, size_singleton by set_solver.
  - cbn. by rewrite Hback.
Qed.

Lemma X18_subscribe_then_unsubscribe_restores_registry_witness :
  ("MES" ∉ subscriptions both_acknowledged)
  ∧ futures both_acknowledged !! 0 = Some (FResult ack1)
  ∧ futures both_acknowledged !! 1 = Some (FResult ack2)
  ∧ ∃ c1 c2 out1 out2,
      subscribe_finish both_acknowledged "MES" "req_1_1700000000000" 0
      = (c1, Return out1)
      ∧ unsubscribe_finish c1 "MES" "req_2_1700000000002" 1 = (c2, Return out2)
      ∧ subscriptions c2 = subscriptions both_acknowledged.
Proof.
  assert (H0 : "MES" ∉ subscriptions both_acknowledged).
  { intros H. apply (bool_decide_pack _) in H. vm_compute in H. exact H. }
  assert (H1 : futures both_acknowledged !! 0 = Some (FResult ack1))
    by (vm_compute; reflexivity).
  assert (H2 : futures both_acknowledged !! 1 = Some (FResult ack2))
    by (vm_compute; reflexivity).
  split; [exact H0|]. split; [exact H1|]. split; [exact H2|].
  destruct (X18_subscribe_then_unsubscribe_restores_registry
              both_acknowledged "MES" "req_1_1700000000000" 0
              "req_2_1700000000002" 1 ack1 ack2 H0 H1 H2)
    as (c1 & c2 & out1 & out2 & Ha & Hb & Hc & _).
  exists c1, c2, out1, out2. split; [exact Ha|]. split; [exact Hb|exact Hc].
Defined.

(** X19.  What [get_connection_stats] reports follows the session: the
    listing of subscriptions has no duplicates and as many entries as the
    reported count; a response frame that resolves a request lowers the
    reported number of pending requests by exactly one; after [disconnect]
    the report shows a disconnected client with no pending request and the
    subscriptions it had. *)
Theorem X19_connection_stats_follow_the_session E c frame fields rid ref :
  json_loads E frame = Some (JObj fields) →
  dict_get "request_id" fields = JStr rid → rid ≠ "" →
  pending_requests c !! rid = Some ref →
  futures c !! ref = Some FPending →
  NoDup (stat_subscriptions (get_connection_stats c))
  ∧ length (stat_subscriptions (get_connection_stats c))
    = stat_active_subscriptions (get_connection_stats c)
  ∧ S (stat_pending_requests
         (get_connection_stats (fst (handle_message E c frame))))
    = stat_pending_requests (get_connection_stats c)
  ∧ stat_connected (get_connection_stats (disconnect E c)) = false
  ∧ stat_pending_requests (get_connection_stats (disconnect E c)) = 0
  ∧ stat_subscriptions (get_connection_stats (disconnect E c))
    = stat_subscriptions (get_connection_stats c).
Proof.
  intros Hj Hrid Hne Hp Hf. unfold get_connection_stats.
  cbn [stat_pending_requests stat_subscriptions stat_connected
       stat_active_subscriptions].
  destruct (disconnect_spec E c) as (Hc' & Hp' & Hs' & _).
  split; [apply NoDup_elements|]. split; [done|]. split; [|split; [|split]].
  - destruct (handle_message_resolves E c frame fields rid ref _ Hj Hrid Hne Hp Hf)
      as [_ Hdel].
    rewrite Hdel.
    rewrite <-(insert_delete_id (pending_requests c) rid ref Hp) at 2.
    by rewrite map_size_insert_None by apply lookup_delete_eq.
  - exact Hc'.
  - by rewrite Hp'.
  - by rewrite Hs'.
Qed.

Lemma X19_connection_stats_follow_the_session_witness :
  stat_pending_requests (get_connection_stats in_flight) = 1
  ∧ stat_pending_requests (get_connection_stats answered) = 0
  ∧ stat_pending_requests
      (get_connection_stats (disconnect acking in_flight)) = 0.
Proof.
  assert (H1 : pending_requests in_flight !! "req_1_1700000000000" = Some 0)
    by (vm_compute; reflexivity).
  assert (H2 : futures in_flight !! 0 = Some FPending)
    by (vm_compute; reflexivity).
  destruct (X19_connection_stats_follow_the_session acking in_flight "ack"
              [("request_id", JStr "req_1_1700000000000");
               ("status", JStr "ok")] "req_1_1700000000000" 0)
    as (_ & _ & Hone & _ & Hzero & _);
    [reflexivity|reflexivity|discriminate|exact H1|exact H2|].
  assert (H3 : stat_pending_requests (get_connection_stats in_flight) = 1)
    by (vm_compute; reflexivity).
  split; [exact H3|]. split; [|exact Hzero].
  change answered with (fst (handle_message acking in_flight "ack")).
  rewrite H3 in Hone. apply Nat.succ_inj. exact Hone.
Defined.

(** *** The read loop as a whole *)

Lemma handle_message_only_results E c m ref f :
  futures c !! ref = Some f →
  ∃ f', futures (fst (handle_message E c m)) !! ref = Some f'
    ∧ (f' = f ∨ (f = FPending ∧ ∃ data, f' = FResult data)).
Proof.
  intros Hf.
  assert (Hsame : ∀ c1, futures c1 = futures c →
            ∃ f', futures c1 !! ref = Some f'
              ∧ (f' = f ∨ (f = FPending ∧ ∃ data, f' = FResult data))).
  { intros c1 ->. exists f. auto. }
  assert (Hbody : ∃ f', futures (fst (handle_message_body E c m)) !! ref = Some f'
              ∧ (f' = f ∨ (f = FPending ∧ ∃ data, f' = FResult data))).
  { unfold handle_message_body.
    destruct (json_loads E m) as [[| | | | |fields]|]; try by apply Hsame.
    destruct (in_pending c _) as [e|[[rid r]|]]; try by apply Hsame.
    - unfold resolve, set_result. cbn.
      destruct (futures c !! r) as [g|] eqn:Hg; [|by apply Hsame].
      destruct g; cbn; try by apply Hsame.
      destruct (decide (r = ref)) as [->|Hne].
      + exists (FResult (JObj fields)). split.
        * apply list_lookup_insert_eq. by eapply lookup_lt_Some.
        * right. split; [congruence|by eexists].
      + exists f. split; [by rewrite list_lookup_insert_ne|auto].
    - apply Hsame. unfold dispatch, invoke. by repeat case_match. }
  unfold handle_message.
  by destruct (handle_message_body E c m) as [c1 [[]|]].
Qed.

Lemma listen_frames_sent_count E frames : ∀ c,
  count_events is_sent (trace (fst (listen_frames E c frames)))
  = count_events is_sent (trace c).
Proof.
  induction frames as [|m frames IH]; intros c; simpl; [done|].
  pose proof (handle_message_returns E c m) as Hr.
  destruct (handle_message_unsent E c m) as (evs & Htr & Hev).
  destruct (handle_message E c m) as [c1 r]. simpl in *. subst r.
  rewrite IH, Htr, count_events_app, (unsent_count evs) by done. lia.
Qed.

(** X20.  Whatever frames arrive, the read loop only resolves: it leaves
    [connected], the socket, the registry, the request counter and the
    attempt counter alone, writes nothing to the socket, adds no entry to
    the table, loses no future, and changes a future only from pending to
    a result. *)
Theorem X20_read_loop_only_resolves E frames : ∀ c,
  connected (fst (listen_frames E c frames)) = connected c
  ∧ ws (fst (listen_frames E c frames)) = ws c
  ∧ subscriptions (fst (listen_frames E c frames)) = subscriptions c
  ∧ request_id (fst (listen_frames E c frames)) = request_id c
  ∧ reconnect_attempts (fst (listen_frames E c frames)) = reconnect_attempts c
  ∧ pending_requests (fst (listen_frames E c frames)) ⊆ pending_requests c
  ∧ count_events is_sent (trace (fst (listen_frames E c frames)))
    = count_events is_sent (trace c)
  ∧ ∀ ref f, futures c !! ref = Some f →
      ∃ f', futures (fst (listen_frames E c frames)) !! ref = Some f'
        ∧ (f' = f ∨ (f = FPending ∧ ∃ data, f' = FResult data)).
Proof.
  induction frames as [|m frames IH]; intros c; simpl.
  { repeat (split; [done|]). intros ref f Hf. exists f. auto. }
  pose proof (handle_message_returns E c m) as Hr.
  pose proof (handle_message_session E c m)
    as [(Hc & Hw & Hs & Hid & Ha & _ & Hp) _].
  destruct (handle_message_unsent E c m) as (evs & Htr & Hev).
  pose proof (handle_message_only_results E c m) as Hres.
  destruct (handle_message E c m) as [c1 r]. simpl in *. subst r.
  destruct (IH c1) as (Hc' & Hw' & Hs' & Hid' & Ha' & Hp' & Hn' & Hres').
  split; [congruence|]. split; [congruence|]. split; [congruence|].
  split; [congruence|]. split; [congruence|]. split; [by etrans|]. split.
  - rewrite Hn', Htr, count_events_app, (unsent_count evs) by done. lia.
  - intros ref f Hf. destruct (Hres ref f Hf) as (f1 & Hf1 & Hstep1).
    destruct (Hres' ref f1 Hf1) as (f2 & Hf2 & Hstep2).
    exists f2. split; [done|].
    destruct Hstep1 as [->|[-> [d ->]]]; [done|].
    destruct Hstep2 as [->|[? _]]; [|done]. right. eauto.
Qed.

(** X21.  However [listen] ends, its [finally] block leaves the client
    disconnected and resolves nothing: the futures and the table are as
    the frames left them, the registry is as it was and nothing has been
    written to the socket. *)
Theorem X21_listen_ends_disconnected_and_fails_no_request
    E fuel frames closing c c' :
  listen E fuel frames closing c = Some c' →
  connected c' = false
  ∧ futures c' = futures (fst (listen_frames E c frames))
  ∧ pending_requests c'
    = pending_requests (fst (listen_frames E c frames))
  ∧ subscriptions c' = subscriptions c
  ∧ count_events is_sent (trace c') = count_events is_sent (trace c).
Proof.
  rewrite listen_unfold. intros H.
  apply listen_end_disconnected in H
    as (Hc & (Hf & Hp & _ & Hs & _) & evs & Htr & Hq).
  destruct (listen_frames_spec E frames c) as ((_ & _ & Hs0 & _) & _).
  assert (Hn0 : count_events is_sent (trace (fst (listen_frames E c frames)))
                = count_events is_sent (trace c)).
  { apply listen_frames_sent_count. }
  repeat (split; [congruence|]).
  rewrite Htr, count_events_app, Hq, Hn0; done || lia.
Qed.

Lemma X21_listen_ends_disconnected_and_fails_no_request_witness :
  ∃ c', listen (accepting []) 10 ["noise"] (Some (ConnectionClosed "closed"))
          in_flight = Some c'
    ∧ connected c' = false
    ∧ futures c' !! 0 = Some FPending
    ∧ pending_requests c' !! "req_1_1700000000000" = Some 0.
Proof.
  destruct (listen (accepting []) 10 ["noise"] (Some (ConnectionClosed "closed"))
              in_flight) as [c'|] eqn:H; [|vm_compute in H; discriminate H].
  exists c'. split; [reflexivity|].
  destruct (X21_listen_ends_disconnected_and_fails_no_request _ _ _ _ _ _ H)
    as (Hc & Hf & Hp & _).
  split; [exact Hc|]. rewrite Hf, Hp. split; vm_compute; reflexivity.
Defined.

(** *** The server's broadcast callbacks *)

Lemma filter_iff_on {A} (P1 P2 : A → Prop)
    `{!∀ x, Decision (P1 x), !∀ x, Decision (P2 x)} (l : list A) :
  (∀ x, x ∈ l → P1 x ↔ P2 x) → filter P1 l = filter P2 l.
Proof.
  induction l as [|a l IH]; intros Hiff; [done|].
  assert (Ha : P1 a ↔ P2 a) by (apply Hiff; by left).
  assert (Hl : filter P1 l = filter P2 l).
  { apply IH. intros x Hx. apply Hiff. by right. }
  destruct (decide (P1 a)).
  - rewrite !filter_cons_True by tauto. by rewrite Hl.
  - rewrite !filter_cons_False by tauto. by rewrite Hl.
Qed.

Lemma filter_all {A} (P : A → Prop) `{!∀ x, Decision (P x)} (l : list A) :
  (∀ x, x ∈ l → P x) → filter P l = l.
Proof.
  induction l as [|a l IH]; intros Hall; [done|].
  rewrite filter_cons_True by (apply Hall; by left).
  f_equal. apply IH. intros x Hx. apply Hall. by right.
Qed.

Lemma unique_by_key {A B} (l : list (A * B)) k v1 v2 :
  NoDup (l.*1) → (k, v1) ∈ l → (k, v2) ∈ l → v1 = v2.
Proof.
  induction l as [|[k' v'] l IH]; intros Hnd H1 H2.
  - by apply elem_of_nil in H1.
  - cbn in Hnd. apply NoDup_cons in Hnd as [Hnin Hnd].
    assert (Hkey : ∀ v, (k, v) ∈ l → k ∈ l.*1).
    { intros v Hv. apply list_elem_of_fmap. by exists (k, v). }
    apply elem_of_cons in H1 as [H1|H1], H2 as [H2|H2]; simplify_eq.
    + done.
    + exfalso. eauto.
    + exfalso. eauto.
    + eauto.
Qed.

Lemma pop_clients gone : ∀ clients,
  foldl (fun acc client_id => pop_client client_id acc) clients gone
  = filter (fun entry => fst entry ∉ gone) clients.
Proof.
  induction gone as [|g gone IH]; intros clients; simpl.
  - symmetry. apply filter_all. intros entry _. apply not_elem_of_nil.
  - rewrite IH. unfold pop_client. rewrite list_filter_filter.
    apply list_filter_iff. intros entry. rewrite not_elem_of_cons. tauto.
Qed.

Lemma try_send_spec send_json warning message l :
  flat_map (fun entry => snd (try_send send_json warning message entry)) l
  = (filter (fun entry => accepts send_json message entry = false) l).*1
  ∧ deliveries (map (fun entry => fst (try_send send_json warning message entry)) l)
    = map (fun entry => (snd entry, message))
        (filter (fun entry => accepts send_json message entry = true) l).
Proof.
  induction l as [|[client_id sock] l [IH1 IH2]]; [done|].
  cbn [flat_map map]. unfold try_send at 1 3. cbn [fst snd].
  destruct (send_json sock message) as [e|] eqn:Hs.
  - assert (Ha : accepts send_json message (client_id, sock) = false)
      by (unfold accepts; cbn; by rewrite Hs).
    rewrite !filter_cons, Ha. repeat case_decide; try done.
    unfold deliveries in *. cbn. split; congruence.
  - assert (Ha : accepts send_json message (client_id, sock) = true)
      by (unfold accepts; cbn; by rewrite Hs).
    rewrite !filter_cons, Ha. repeat case_decide; try done.
    unfold deliveries in *. cbn. split; congruence.
Qed.

Lemma broadcast_loop_undisturbed
    send_json warning message others clients rest :
  ∀ k,
  (∀ j, j < length rest → others (k + j) = None) →
  broadcast_loop send_json warning message others k clients rest
  = (map (fun entry => fst (try_send send_json warning message entry)) rest,
     flat_map (fun entry => snd (try_send send_json warning message entry)) rest,
     clients, Exhausted).
Proof.
  induction rest as [|entry rest IH]; intros k Hq; [done|].
  cbn [broadcast_loop map flat_map].
  destruct (try_send send_json warning message entry) as [event failed].
  pose proof (Hq 0 ltac:(simpl; lia)) as H0. rewrite Nat.add_0_r in H0.
  rewrite H0, IH; [done|].
  intros j Hj. replace (S k + j) with (k + S j) by lia. apply Hq. simpl. lia.
Qed.

Lemma broadcast_loop_disturbed
    send_json warning message others clients clients' rest :
  ∀ k n,
  n < length rest →
  (∀ j, j < n → others (k + j) = None) →
  others (k + n) = Some clients' →
  broadcast_loop send_json warning message others k clients rest
  = (map (fun entry => fst (try_send send_json warning message entry))
       (take (S n) rest),
     flat_map (fun entry => snd (try_send send_json warning message entry))
       (take (S n) rest),
     clients',
     if length clients' =? length clients then KeysChanged else SizeChanged).
Proof.
  induction rest as [|entry rest IH]; intros k n Hn Hq Hs; [simpl in Hn; lia|].
  cbn [broadcast_loop].
  destruct (try_send send_json warning message entry) as [event failed] eqn:Ht.
  destruct n as [|n].
  - rewrite Nat.add_0_r in Hs. rewrite Hs. cbn. rewrite Ht. cbn.
    by rewrite app_nil_r.
  - pose proof (Hq 0 ltac:(lia)) as H0. rewrite Nat.add_0_r in H0. rewrite H0.
    rewrite (IH (S k) n).
    + cbn. rewrite Ht. done.
    + simpl in Hn. lia.
    + intros j Hj. replace (S k + j) with (k + S j) by lia. apply Hq. lia.
    + replace (S k + n) with (k + S n) by lia. done.
Qed.

(** X22.  One broadcast of the server's callbacks ([on_market_data],
    [on_order_update], [on_position_update] are this body with their own
    type tag).  An empty or missing payload is dropped: nothing is sent and
    the client dict is untouched.  Otherwise, as long as no other task
    changes the dict while the loop is suspended in a send, every
    connection is tried once, in order; the connections that took the
    message stay in the dict and are exactly the ones it was delivered to,
    and every connection whose send raised is removed.  But if the dict has
    another size when a send is over, the iterator raises [RuntimeError]
    outside the [try]: the connections after that one are not tried, the
    clean-up is skipped, and the dict is left as the other tasks made it,
    with the failed connections still in it. *)
Theorem X22_broadcast_cleans_up_unless_clients_change_size
    send_json tag warning others clients data :
  NoDup (clients.*1) →
  (truthy data = false →
     broadcast send_json tag warning others clients data
     = (clients, [], Returned))
  ∧ (truthy data = true →
     (∀ k, k < length clients → others k = None) →
     ∃ events,
       broadcast send_json tag warning others clients data
       = (filter (fun entry =>
                    accepts send_json
                      (JObj [("type", JStr tag); ("data", data)]) entry = true)
            clients, events, Returned)
       ∧ deliveries events
         = map (fun entry =>
                  (snd entry, JObj [("type", JStr tag); ("data", data)]))
             (filter (fun entry =>
                        accepts send_json
                          (JObj [("type", JStr tag); ("data", data)]) entry
                        = true) clients)
       ∧ length events = length clients)
  ∧ (truthy data = true →
     ∀ n clients',
       n < length clients →
       (∀ j, j < n → others j = None) →
       others n = Some clients' →
       length clients' ≠ length clients →
       ∃ events,
         broadcast send_json tag warning others clients data
         = (clients', events,
            Raised (OtherError "RuntimeError"
                      "dictionary changed size during iteration"))
         ∧ deliveries events
           = map (fun entry =>
                    (snd entry, JObj [("type", JStr tag); ("data", data)]))
               (filter (fun entry =>
                          accepts send_json
                            (JObj [("type", JStr tag); ("data", data)]) entry
                          = true) (take (S n) clients))
         ∧ length events = S n).
Proof.
  intros Hnd. unfold broadcast.
  set (message := JObj [("type", JStr tag); ("data", data)]).
  split; [by intros ->|]. split.
  - intros -> Hq. cbn [negb].
    rewrite (broadcast_loop_undisturbed send_json warning message others
               clients clients 0) by (intros j Hj; by apply Hq).
    destruct (try_send_spec send_json warning message clients) as [Hgone Hdel].
    eexists. split; [|split; [exact Hdel|by rewrite length_map]].
    f_equal. f_equal.
    rewrite pop_clients. apply filter_iff_on. intros entry Hin.
    rewrite Hgone. split.
    + intros Hnot. destruct (accepts send_json message entry) eqn:Ha; [done|].
      exfalso. apply Hnot. apply list_elem_of_fmap. exists entry.
      split; [done|]. apply list_elem_of_filter. by split.
    + intros Ha Hgonein.
      apply list_elem_of_fmap in Hgonein as (other & Hkey & Hother).
      apply list_elem_of_filter in Hother as [Hrej Hother].
      assert (other = entry); [|congruence].
      destruct entry as [k1 s1], other as [k2 s2]. simpl in Hkey. subst k2.
      f_equal. by eapply (unique_by_key clients k1).
  - intros -> n clients' Hn Hq Hs Hsize. cbn [negb].
    rewrite (broadcast_loop_disturbed send_json warning message others
               clients clients' clients 0 n Hn Hq Hs).
    apply Nat.eqb_neq in Hsize. rewrite Hsize.
    destruct (try_send_spec send_json warning message (take (S n) clients))
      as [_ Hdel].
    eexists. split; [reflexivity|]. split; [exact Hdel|].
    rewrite length_map, length_take. lia.
Qed.

Lemma X22_broadcast_cleans_up_unless_clients_change_size_witness :
  NoDup (three_clients.*1)
  ∧ server_on_market_data second_broken undisturbed three_clients (JObj [])
    = (three_clients, [], Returned)
  ∧ (∃ events,
       server_on_market_data second_broken undisturbed three_clients tick_payload
       = ([("a", 1); ("c", 3)], events, Returned)
       ∧ deliveries events
         = [(1, JObj [("type", JStr "market_data"); ("data", tick_payload)]);
            (3, JObj [("type", JStr "market_data"); ("data", tick_payload)])])
  ∧ (∃ events,
       server_on_market_data second_broken joins_during_second three_clients
         tick_payload
       = ([("a", 1); ("b", 2); ("c", 3); ("d", 4)], events,
          Raised (OtherError "RuntimeError"
                    "dictionary changed size during iteration"))
       ∧ deliveries events
         = [(1, JObj [("type", JStr "market_data"); ("data", tick_payload)])]).
Proof.
  assert (Hnd : NoDup (three_clients.*1)).
  { cbn. repeat constructor; set_solver. }
  split; [exact Hnd|].
  destruct (X22_broadcast_cleans_up_unless_clients_change_size second_broken
              "market_data" "Failed to send market data to client {}: {}"
              undisturbed three_clients (JObj []) Hnd) as [Hempty _].
  destruct (X22_broadcast_cleans_up_unless_clients_change_size second_broken
              "market_data" "Failed to send market data to client {}: {}"
              undisturbed three_clients tick_payload Hnd) as (_ & Hquiet & _).
  destruct (X22_broadcast_cleans_up_unless_clients_change_size second_broken
              "market_data" "Failed to send market data to client {}: {}"
              joins_during_second three_clients tick_payload Hnd)
    as (_ & _ & Hjoin).
  split; [exact (Hempty eq_refl)|]. split.
  - destruct (Hquiet eq_refl) as (events & Heq & Hdel & _); [done|].
    exists events. split; [exact Heq|exact Hdel].
  - destruct (Hjoin eq_refl 1 (three_clients ++ [("d", 4)]))
      as (events & Heq & Hdel & _).
    + simpl. lia.
    + intros j Hj. assert (j = 0) as -> by lia. reflexivity.
    + reflexivity.
    + simpl. lia.
    + exists events. split; [exact Heq|exact Hdel].
Defined.

(** *** Authentication and the remaining requests *)

(** X23.  [authenticate] goes through [send]: on a client that is not
    connected it raises "WebSocket not connected" and writes nothing; on a
    connected client whose write succeeds it writes exactly one frame, the
    action "authenticate" with the api key, the secret and a timestamp, and
    logs that it did. *)
Theorem X23_authenticate_outcomes E c :
  (is_connected c = false →
     authenticate E c = (tick c, Some (Exception "WebSocket not connected")))
  ∧ (is_connected c = true →
     ws_send E (S (io c)) = None →
     ∃ c' sock action,
       authenticate E c = (c', None)
       ∧ connected c' = true
       ∧ trace c' = trace c
           ++ [Sent sock
                 (JObj [("action", JStr "authenticate");
                        ("api_key", JStr (api_key c));
                        ("secret", JStr (api_secret c));
                        ("timestamp", JStr (utcnow_iso E (io c)))]);
               Log DEBUG "Sent message: {}" [AJson action];
               Log INFO "Sent authentication message to Ironbeam" []]).
Proof.
  split.
  - intros H. unfold authenticate, send.
    change (is_connected (tick c)) with (is_connected c). by rewrite H.
  - intros Hic Hsend. unfold authenticate.
    destruct (send E (tick c) _) as [c1 r] eqn:Hs.
    assert (Hr : r = None).
    { unfold send in Hs. change (is_connected (tick c)) with (is_connected c) in Hs.
      rewrite Hic in Hs. cbn [negb] in Hs.
      change (io (tick c)) with (S (io c)) in Hs. rewrite Hsend in Hs.
      unfold is_connected in Hic. apply andb_true_iff in Hic as [_ Hw].
      apply bool_decide_eq_true in Hw as [sock Hw].
      change (ws (tick c)) with (ws c) in Hs. rewrite Hw in Hs.
      by simplify_eq. }
    subst r. destruct (send_ok_trace E _ _ _ Hs) as (Hc1 & sock & action & Htr).
    exists (log INFO "Sent authentication message to Ironbeam" [] c1),
      sock, action.
    split; [done|]. split; [exact Hc1|].
    cbn. rewrite Htr. cbn. by rewrite <-app_assoc.
Qed.

Lemma X23_authenticate_outcomes_witness :
  (is_connected fresh = false
   ∧ authenticate (accepting []) fresh
     = (tick fresh, Some (Exception "WebSocket not connected")))
  ∧ (is_connected (ready ∅) = true
     ∧ ∃ c' sock action,
         authenticate (accepting []) (ready ∅) = (c', None)
         ∧ connected c' = true
         ∧ trace c' = trace (ready ∅)
             ++ [Sent sock
                   (JObj [("action", JStr "authenticate");
                          ("api_key", JStr "key");
                          ("secret", JStr "secret");
                          ("timestamp", JStr "2024-01-01T00:00:00")]);
                 Log DEBUG "Sent message: {}" [AJson action];
                 Log INFO "Sent authentication message to Ironbeam" []]).
Proof.
  split.
  - split; [reflexivity|].
    exact (proj1 (X23_authenticate_outcomes (accepting []) fresh) eq_refl).
  - split; [reflexivity|].
    exact (proj2 (X23_authenticate_outcomes (accepting []) (ready ∅))
             eq_refl eq_refl).
Defined.

(** X24.  When [cancel_order], [get_positions] or [get_account_info]
    starts to wait, it has written one frame that carries its action and
    the request id (and, for a cancellation, the order id), and a pending
    future is registered in the table under that same id. *)
Theorem X24_query_frames_carry_their_request_id E c order_id c1 rid ref :
  (cancel_order_start E c order_id = Suspended c1 rid ref →
   pending_requests c1 !! rid = Some ref
   ∧ futures c1 !! ref = Some FPending
   ∧ ∃ sock action,
       trace c1 = trace c
         ++ [Sent sock
               (JObj [("action", JStr "cancel_order");
                      ("request_id", JStr rid);
                      ("order_id", JStr order_id);
                      ("timestamp", JStr (utcnow_iso E (S (io c))))]);
             Log DEBUG "Sent message: {}" [AJson action]])
  ∧ (get_positions_start E c = Suspended c1 rid ref →
     pending_requests c1 !! rid = Some ref
     ∧ futures c1 !! ref = Some FPending
     ∧ ∃ sock action,
         trace c1 = trace c
           ++ [Sent sock
                 (JObj [("action", JStr "get_positions");
                        ("request_id", JStr rid);
                        ("timestamp", JStr (utcnow_iso E (S (io c))))]);
               Log DEBUG "Sent message: {}" [AJson action]])
  ∧ (get_account_info_start E c = Suspended c1 rid ref →
     pending_requests c1 !! rid = Some ref
     ∧ futures c1 !! ref = Some FPending
     ∧ ∃ sock action,
         trace c1 = trace c
           ++ [Sent sock
                 (JObj [("action", JStr "get_account_info");
                        ("request_id", JStr rid);
                        ("timestamp", JStr (utcnow_iso E (S (io c))))]);
               Log DEBUG "Sent message: {}" [AJson action]]).
Proof.
  split; [|split].
  - unfold cancel_order_start, request_start. cbn [_get_request_id].
    destruct (send_with_response_start E _ _ _ "10.0") as [|c2 ref2] eqn:Hs;
      [done|].
    intros [= <- <- <-].
    pose proof (send_with_response_start_awaiting E _ _ _ _ _ _ Hs) as [Hp Hf].
    apply send_with_response_start_registered in Hs
      as (_ & _ & _ & _ & _ & _ & sock & action & Htr).
    split; [exact Hp|]. split; [exact Hf|]. by exists sock, action.
  - unfold get_positions_start, request_start. cbn [_get_request_id].
    destruct (send_with_response_start E _ _ _ "10.0") as [|c2 ref2] eqn:Hs;
      [done|].
    intros [= <- <- <-].
    pose proof (send_with_response_start_awaiting E _ _ _ _ _ _ Hs) as [Hp Hf].
    apply send_with_response_start_registered in Hs
      as (_ & _ & _ & _ & _ & _ & sock & action & Htr).
    split; [exact Hp|]. split; [exact Hf|]. by exists sock, action.
  - unfold get_account_info_start, request_start. cbn [_get_request_id].
    destruct (send_with_response_start E _ _ _ "10.0") as [|c2 ref2] eqn:Hs;
      [done|].
    intros [= <- <- <-].
    pose proof (send_with_response_start_awaiting E _ _ _ _ _ _ Hs) as [Hp Hf].
    apply send_with_response_start_registered in Hs
      as (_ & _ & _ & _ & _ & _ & sock & action & Htr).
    split; [exact Hp|]. split; [exact Hf|]. by exists sock, action.
Qed.

Lemma X24_query_frames_carry_their_request_id_witness :
  ∃ c1 rid ref,
    get_positions_start (accepting []) (ready ∅) = Suspended c1 rid ref
    ∧ pending_requests c1 !! rid = Some ref
    ∧ futures c1 !! ref = Some FPending.
Proof.
  destruct (get_positions_start (accepting []) (ready ∅))
    as [|c1 rid ref] eqn:H; [vm_compute in H; discriminate H|].
  exists c1, rid, ref. split; [reflexivity|].
  destruct (X24_query_frames_carry_their_request_id (accepting []) (ready ∅)
              "" c1 rid ref) as (_ & Hpos & _).
  destruct (Hpos H) as (Hp & Hf & _). split; [exact Hp|exact Hf].
Defined.

(** *** The server's start-up *)

(** X25.  [startup_event] reports success whatever [connect] achieved.
    [connect] never raises, so the line after it always runs: on a client
    that is not connected the start-up returns with the client still
    disconnected, and the last two log records are the client's
    max-attempts error followed by "Ironbeam client connected
    successfully". *)
Theorem X25_startup_reports_success_without_a_connection
    E fuel app_name app_version debug log_level c :
  connected c = false →
  max_reconnect_attempts c - reconnect_attempts c ≤ fuel →
  ∃ c' earlier,
    startup_event E fuel app_name app_version debug log_level c = Some c'
    ∧ connected c' = false
    ∧ count_events is_sent (trace c') = count_events is_sent (trace c)
    ∧ trace c' = earlier
        ++ [Log ERROR
              "Max reconnection attempts reached. Unable to connect to Ironbeam."
              [];
            Log INFO "Ironbeam client connected successfully" []].
Proof.
  intros Hc Hfuel. unfold startup_event.
  set (c3 := log INFO "Log level: {}" _ _).
  destruct (connect_spec E fuel c3) as (c4 & -> & Hc4 & _ & _ & evs & Htr & Hq & _);
    [done|done|].
  assert (Hlast : trace (log INFO "Ironbeam client connected successfully" [] c4)
                  = trace c4
                      ++ [Log INFO "Ironbeam client connected successfully" []])
    by reflexivity.
  assert (H3 : count_events is_sent (trace c3) = count_events is_sent (trace c)).
  { subst c3. by rewrite !count_sent_log. }
  eexists _, (trace c3 ++ evs). split; [reflexivity|]. split; [exact Hc4|].
  rewrite Hlast, Htr. split.
  - rewrite !count_events_app, (Hq is_sent), H3 by done. cbn. lia.
  - by rewrite <-!app_assoc.
Qed.

Lemma X25_startup_reports_success_without_a_connection_witness :
  connected fresh = false
  ∧ ∃ c' earlier,
      startup_event (accepting []) 10 "MES Trading Assistant" "1.0.0" "False"
        "INFO" fresh = Some c'
      ∧ connected c' = false
      ∧ trace c' = earlier
          ++ [Log ERROR
                "Max reconnection attempts reached. Unable to connect to Ironbeam."
                [];
              Log INFO "Ironbeam client connected successfully" []].
Proof.
  split; [reflexivity|].
  destruct (X25_startup_reports_success_without_a_connection (accepting []) 10
              "MES Trading Assistant" "1.0.0" "False" "INFO" fresh eq_refl)
    as (c' & earlier & H1 & H2 & _ & H3); [vm_compute; lia|].
  exists c', earlier. split; [exact H1|]. split; [exact H2|exact H3].
Defined.
